(** * A shallow embedding of the 2D dynamical-system visualizer (script.js)

    The development follows the second, complete variant of [script.js]
    (class [Particle] and class [DynamicalSystemVisualizer] with the particle
    system).  JavaScript numbers are read as real numbers: the statements
    below are about exact arithmetic, not about IEEE-754 rounding, with one
    exception.  In a loop over a real counter the rounding of the sum that
    advances the counter decides how many rounds are made; these loops take
    that sum as a parameter, and what is proved of them holds for every
    such sum.

    Conventions of the embedding:
    - a call that may throw returns a [completion] or a [result];
      [try]/[catch] is [rcatch] or [try_catch];
    - a method that mutates [this] is a state transformer [M S A] over the
      object it mutates, so that what was assigned before an exception is
      still assigned after it;
    - the browser (alert boxes, animation frames, DOM text, repaints) is an
      append-only log of [host_call]s kept next to the visualizer's fields;
    - the libraries the script calls but does not contain (math.js,
      [JSON.parse], [String.prototype.trim]) are parameters;
    - a position is a pair of real numbers: [NaN] and the infinities are
      not among them. *)

From Stdlib Require Import Reals Lra Lia List String Ascii Bool.
From stdpp Require Import base decidable option list gmap strings pretty.

Set Default Goal Selector "!".
Local Open Scope R_scope.

(** ** Completions: normal return, thrown exception, exhausted fuel *)

Inductive exn : Type :=
| SyntaxError (message : string)
| TypeError (message : string)
| Error (message : string).

Definition message_of (e : exn) : string :=
  match e with SyntaxError m | TypeError m | Error m => m end.

(** [error instanceof SyntaxError] *)
Definition instanceof_SyntaxError (e : exn) : bool :=
  match e with SyntaxError _ => true | _ => false end.

(** What a call into a library does: it returns a value or throws. *)
Inductive completion (A : Type) : Type :=
| Returns (a : A)
| Throws (e : exn).
Arguments Returns {A} a.
Arguments Throws {A} e.

(** What a piece of the script does.  [OutOfFuel] is not a JavaScript
    completion: it marks a run of a [for] loop over a real-valued counter
    that the given fuel did not suffice to finish.  No handler catches it. *)
Inductive result (A : Type) : Type :=
| Ok (a : A)
| Throw (e : exn)
| OutOfFuel.
Arguments Ok {A} a.
Arguments Throw {A} e.
Arguments OutOfFuel {A}.

Definition run {A} (c : completion A) : result A :=
  match c with
  | Returns a => Ok a
  | Throws e => Throw e
  end.

Definition rbind {A B} (r : result A) (k : A -> result B) : result B :=
  match r with
  | Ok a => k a
  | Throw e => Throw e
  | OutOfFuel => OutOfFuel
  end.

Definition rcatch {A} (body : result A) (handler : exn -> result A) : result A :=
  match body with
  | Throw e => handler e
  | r => r
  end.

(** State transformers over a mutable object of type [S]. *)
Definition M (S A : Type) : Type := S -> result A * S.

Definition ret {S A} (a : A) : M S A := fun s => (Ok a, s).

Definition bind {S A B} (m : M S A) (k : A -> M S B) : M S B :=
  fun s =>
    match m s with
    | (Ok a, s') => k a s'
    | (Throw e, s') => (Throw e, s')
    | (OutOfFuel, s') => (OutOfFuel, s')
    end.

Definition gets {S A} (f : S -> A) : M S A := fun s => (Ok (f s), s).
Definition modify {S} (f : S -> S) : M S unit := fun s => (Ok tt, f s).

(** A call that reads [this] and may throw, but assigns nothing. *)
Definition call {S A} (f : S -> result A) : M S A := fun s => (f s, s).

(** [try { body } catch (error) { handler }]: the handler runs in the state
    the body left behind. *)
Definition try_catch {S A} (body : M S A) (handler : exn -> M S A) : M S A :=
  fun s =>
    match body s with
    | (Throw e, s') => handler e s'
    | r => r
    end.

(** [array.forEach(f)] where [f] mutates the element it is given. *)
Fixpoint forEach {S} (f : M S unit) (l : list S) : result unit * list S :=
  match l with
  | [] => (Ok tt, [])
  | p :: ps =>
      match f p with
      | (Ok _, p') => let (r, ps') := forEach f ps in (r, p' :: ps')
      | (Throw e, p') => (Throw e, p' :: ps)
      | (OutOfFuel, p') => (OutOfFuel, p' :: ps)
      end
  end.

Declare Scope js_scope.
Delimit Scope js_scope with js.
Notation "x <~ m ;; k" := (bind m (fun x => k))
  (at level 20, m at level 99, k at level 200, only parsing) : js_scope.
Notation "m ;;; k" := (bind m (fun _ => k))
  (at level 100, k at level 200, only parsing, right associativity) : js_scope.
Notation "x <~~ r ;; k" := (rbind r (fun x => k))
  (at level 20, r at level 99, k at level 200, only parsing) : js_scope.

(** Comparisons of numbers, as booleans. *)
#[global] Instance Rlt_decision : RelDecision Rlt := Rlt_dec.
#[global] Instance Rgt_decision : RelDecision Rgt := Rgt_dec.
#[global] Instance Rle_decision : RelDecision Rle := Rle_dec.

(** ** Values, scopes and compiled expressions *)

(** What [JSON.parse] can return. *)
#[warnings="-register-all"]
Inductive json : Type :=
| JNull
| JBool (b : bool)
| JNum (r : R)
| JStr (s : string)
| JArr (l : list json)
| JObj (m : gmap string json).

(** The own enumerable properties copied by an object spread [{...v}]:
    the entries of an object, the indexed elements of an array, the indexed
    characters of a string, nothing for [null], booleans and numbers. *)
Definition own_props (v : json) : gmap string json :=
  match v with
  | JObj m => m
  | JArr l => list_to_map (imap (fun i e => (pretty i, e)) l)
  | JStr s =>
      list_to_map
        (imap (fun i c => (pretty i, JStr (String c EmptyString)))
              (list_ascii_of_string s))
  | JNull | JBool _ | JNum _ => ∅
  end.

(** [{ x: x, y: y, ...parameters }]: a later property wins. *)
Definition make_scope (x y : R) (parameters : json) : gmap string json :=
  own_props parameters ∪ <["x" := JNum x]> (<["y" := JNum y]> ∅).

(** A compiled math.js expression: an object whose [evaluate(scope)] yields
    a number or throws. *)
Record compiled : Type := { evaluate : gmap string json -> completion R }.

(** [math.parse(text)] yields a node whose [compile()] yields the compiled
    expression; either call may throw. *)
Record node : Type := { compile : completion compiled }.
Record mathjs : Type := { parse : string -> completion node }.

Record vec : Type := { dx : R; dy : R }.

Record point : Type := { ptx : R; pty : R }.

(** Calls on the 2D drawing context, in the order they are made. *)
Inductive canvas_op : Type :=
| SetStrokeStyle (style : string)
| SetFillStyle (style : string)
| SetLineWidth (w : R)
| BeginPath
| MoveTo (cx cy : R)
| LineTo (cx cy : R)
| Arc (cx cy radius startAngle endAngle : R)
| Stroke
| Fill
| DrawArrow (x1 y1 x2 y2 : R).  (* a call of [this.drawArrow]: the shaft
                                   from (x1, y1) to (x2, y2) and its head *)

(** A call on the drawing context [ctx]. *)
Definition ctx_call (op : canvas_op) : M (list canvas_op) unit :=
  modify (fun ctx => ctx ++ [op]).

(** [for (let i = start; ...; i++) body], run [count] times. *)
Fixpoint for_from {S} (count start : nat) (body : nat -> M S unit) : M S unit :=
  match count with
  | O => ret tt
  | Datatypes.S count' => (body start ;;; for_from count' (Datatypes.S start) body)%js
  end.

(** [for (let i = 0; i <= n; i++) body] *)
Definition for_upto {S} (n : nat) (body : nat -> M S unit) : M S unit :=
  for_from (Datatypes.S n) 0 body.

(** ** class Particle *)

Module Particle.

Record t : Type := mk {
  x : R;
  y : R;
  color : string;
  trajectory : list point;
  active : bool;
  id : R
}.

Definition set_x (v : R) (this : t) : t :=
  mk v (y this) (color this) (trajectory this) (active this) (id this).
Definition set_y (v : R) (this : t) : t :=
  mk (x this) v (color this) (trajectory this) (active this) (id this).
Definition set_trajectory (v : list point) (this : t) : t :=
  mk (x this) (y this) (color this) v (active this) (id this).
Definition set_active (v : bool) (this : t) : t :=
  mk (x this) (y this) (color this) (trajectory this) v (id this).

(** [new Particle(x, y, color)]; [fresh] stands for the value of
    [Date.now() + Math.random()] at the time of the call. *)
Definition constructor (x0 y0 : R) (color0 : string) (fresh : R) : t :=
  mk x0 y0 color0 [{| ptx := x0; pty := y0 |}] true fresh.

(** [update(dt, evaluator)] *)
Definition update (dt : R) (evaluator : R -> R -> result vec) : M t unit :=
  (is_active <~ gets active;;
   if negb is_active then ret tt else
   k1 <~ call (fun this => evaluator (x this) (y this));;
   k2 <~ call (fun this =>
           evaluator (x this + dx k1 * dt / 2) (y this + dy k1 * dt / 2));;
   k3 <~ call (fun this =>
           evaluator (x this + dx k2 * dt / 2) (y this + dy k2 * dt / 2));;
   k4 <~ call (fun this =>
           evaluator (x this + dx k3 * dt) (y this + dy k3 * dt));;
   let dx_ := (dx k1 + 2 * dx k2 + 2 * dx k3 + dx k4) / 6 in
   let dy_ := (dy k1 + 2 * dy k2 + 2 * dy k3 + dy k4) / 6 in
   modify (fun this => set_x (x this + dx_ * dt) this);;;
   modify (fun this => set_y (y this + dy_ * dt) this);;;
   modify (fun this =>
     set_trajectory
       (trajectory this ++ [{| ptx := x this; pty := y this |}]) this);;;
   out_of_bounds <~ gets (fun this =>
     bool_decide (x this < -10) || bool_decide (x this > 10)
     || bool_decide (y this < -10) || bool_decide (y this > 10));;
   if out_of_bounds then modify (set_active false) else ret tt)%js.

(** [draw(ctx, worldToCanvasX, worldToCanvasY)]: reads the particle and
    paints; the particle itself is not assigned to. *)
Definition draw (worldToCanvasX worldToCanvasY : R -> R) (this : t)
  : list canvas_op :=
  match trajectory this with
  | [] | [_] => []
  | first :: rest =>
      [SetStrokeStyle (color this); SetLineWidth 2; BeginPath;
       MoveTo (worldToCanvasX (ptx first)) (worldToCanvasY (pty first))]
      ++ map (fun q => LineTo (worldToCanvasX (ptx q)) (worldToCanvasY (pty q)))
             rest
      ++ [Stroke]
      ++ (if active this then
            [SetFillStyle (color this); BeginPath;
             Arc (worldToCanvasX (x this)) (worldToCanvasY (y this))
                 4 0 (2 * PI);
             Fill]
          else [])
  end.

End Particle.

(** ** class DynamicalSystemVisualizer *)

(** What the script asks of the browser.  Console output is not recorded. *)
Inductive host_call : Type :=
| Alert (text : string)
| RequestAnimationFrame            (* the callback is always [simulateStep] *)
| SetParticleCount (n : nat)       (* text of the particle counter *)
| SetParameterDisplay (parameters : json)
| RenderEquations (dxdtInput dydtInput : string)
| Draw.                            (* a repaint of the canvas from [this] *)

Record visualizer : Type := mkVisualizer {
  (* system equations *)
  dxdt : option compiled;          (* [null] until compiled *)
  dydt : option compiled;
  parameters : json;
  (* view parameters *)
  xMin : R;
  xMax : R;
  yMin : R;
  yMax : R;
  (* visualization parameters *)
  gridDensity : nat;
  arrowScale : R;
  arrowColor : string;
  showGrid : bool;
  showNullclines : bool;
  (* particle system *)
  particles : list Particle.t;
  colorIndex : nat;
  simulationRunning : bool;
  simulationSpeed : R;
  (* canvas parameters *)
  canvasWidth : R;
  canvasHeight : R;
  (* the browser, as seen from the script *)
  host : list host_call
}.

Definition set_dxdt (v : option compiled) (this : visualizer) : visualizer :=
  mkVisualizer v (dydt this) (parameters this)
    (xMin this) (xMax this) (yMin this) (yMax this)
    (gridDensity this) (arrowScale this) (arrowColor this)
    (showGrid this) (showNullclines this)
    (particles this) (colorIndex this) (simulationRunning this)
    (simulationSpeed this) (canvasWidth this) (canvasHeight this) (host this).

Definition set_dydt (v : option compiled) (this : visualizer) : visualizer :=
  mkVisualizer (dxdt this) v (parameters this)
    (xMin this) (xMax this) (yMin this) (yMax this)
    (gridDensity this) (arrowScale this) (arrowColor this)
    (showGrid this) (showNullclines this)
    (particles this) (colorIndex this) (simulationRunning this)
    (simulationSpeed this) (canvasWidth this) (canvasHeight this) (host this).

Definition set_parameters (v : json) (this : visualizer) : visualizer :=
  mkVisualizer (dxdt this) (dydt this) v
    (xMin this) (xMax this) (yMin this) (yMax this)
    (gridDensity this) (arrowScale this) (arrowColor this)
    (showGrid this) (showNullclines this)
    (particles this) (colorIndex this) (simulationRunning this)
    (simulationSpeed this) (canvasWidth this) (canvasHeight this) (host this).

Definition set_particles (v : list Particle.t) (this : visualizer) : visualizer :=
  mkVisualizer (dxdt this) (dydt this) (parameters this)
    (xMin this) (xMax this) (yMin this) (yMax this)
    (gridDensity this) (arrowScale this) (arrowColor this)
    (showGrid this) (showNullclines this)
    v (colorIndex this) (simulationRunning this)
    (simulationSpeed this) (canvasWidth this) (canvasHeight this) (host this).

Definition set_colorIndex (v : nat) (this : visualizer) : visualizer :=
  mkVisualizer (dxdt this) (dydt this) (parameters this)
    (xMin this) (xMax this) (yMin this) (yMax this)
    (gridDensity this) (arrowScale this) (arrowColor this)
    (showGrid this) (showNullclines this)
    (particles this) v (simulationRunning this)
    (simulationSpeed this) (canvasWidth this) (canvasHeight this) (host this).

Definition set_simulationRunning (v : bool) (this : visualizer) : visualizer :=
  mkVisualizer (dxdt this) (dydt this) (parameters this)
    (xMin this) (xMax this) (yMin this) (yMax this)
    (gridDensity this) (arrowScale this) (arrowColor this)
    (showGrid this) (showNullclines this)
    (particles this) (colorIndex this) v
    (simulationSpeed this) (canvasWidth this) (canvasHeight this) (host this).

Definition set_host (v : list host_call) (this : visualizer) : visualizer :=
  mkVisualizer (dxdt this) (dydt this) (parameters this)
    (xMin this) (xMax this) (yMin this) (yMax this)
    (gridDensity this) (arrowScale this) (arrowColor this)
    (showGrid this) (showNullclines this)
    (particles this) (colorIndex this) (simulationRunning this)
    (simulationSpeed this) (canvasWidth this) (canvasHeight this) v.

(** A call on the browser: appended to the log. *)
Definition emit (c : host_call) : M visualizer unit :=
  modify (fun this => set_host (host this ++ [c]) this).

(** [!o] for a field that holds an object or [null]. *)
Definition not_ {A} (o : option A) : bool :=
  match o with Some _ => false | None => true end.

(** [o.evaluate(scope)]: a property access on [null] throws. *)
Definition evaluate_method (o : option compiled) (scope : gmap string json)
  : completion R :=
  match o with
  | Some c => evaluate c scope
  | None => Throws (TypeError "Cannot read properties of null")
  end.

(** [evaluateSystem(x, y)] *)
Definition evaluateSystem (this : visualizer) (x y : R) : result vec :=
  if not_ (dxdt this) || not_ (dydt this) then Ok {| dx := 0; dy := 0 |}
  else
    rcatch
      (let scope := make_scope x y (parameters this) in
       dx_ <~~ run (evaluate_method (dxdt this) scope);;
       dy_ <~~ run (evaluate_method (dydt this) scope);;
       Ok {| dx := dx_; dy := dy_ |})%js
      (fun error => Ok {| dx := 0; dy := 0 |}).

Definition worldToCanvasX (this : visualizer) (x : R) : R :=
  ((x - xMin this) / (xMax this - xMin this)) * canvasWidth this.

Definition worldToCanvasY (this : visualizer) (y : R) : R :=
  canvasHeight this
  - ((y - yMin this) / (yMax this - yMin this)) * canvasHeight this.

Definition canvasToWorldX (this : visualizer) (canvasX : R) : R :=
  xMin this + (canvasX / canvasWidth this) * (xMax this - xMin this).

Definition canvasToWorldY (this : visualizer) (canvasY : R) : R :=
  yMin this
  + ((canvasHeight this - canvasY) / canvasHeight this)
    * (yMax this - yMin this).

(** [drawFlowField()], as a transformer of the drawing context. *)
Definition drawFlowField (this : visualizer) : M (list canvas_op) unit :=
  (ctx_call (SetStrokeStyle (arrowColor this));;;
   ctx_call (SetLineWidth 1.5);;;
   let stepX := (xMax this - xMin this) / INR (gridDensity this) in
   let stepY := (yMax this - yMin this) / INR (gridDensity this) in
   for_upto (gridDensity this) (fun i =>
     for_upto (gridDensity this) (fun j =>
       let x := xMin this + INR i * stepX in
       let y := yMin this + INR j * stepY in
       v <~ call (fun _ => evaluateSystem this x y);;
       (* normalize and scale the vector *)
       let magnitude := sqrt (dx v * dx v + dy v * dy v) in
       if bool_decide (magnitude > 0) then
         let scale := arrowScale this * 20 in
         let normalizedDx := (dx v / magnitude) * scale in
         let normalizedDy := (dy v / magnitude) * scale in
         let startX := worldToCanvasX this x in
         let startY := worldToCanvasY this y in
         let endX := startX + normalizedDx in
         let endY := startY - normalizedDy in
         ctx_call (DrawArrow startX startY endX endY)
       else ret tt)))%js.

(** The local state of [drawNullcline]: the flag [pathStarted] and the
    drawing context. *)
Record path_state : Type := {
  pathStarted : bool;
  ctx : list canvas_op
}.

Definition path_call (op : canvas_op) : M path_state unit :=
  modify (fun s => {| pathStarted := pathStarted s; ctx := ctx s ++ [op] |}).

Definition set_pathStarted (v : bool) : M path_state unit :=
  modify (fun s => {| pathStarted := v; ctx := ctx s |}).

(** JavaScript numbers are binary64 floating point: a sum is rounded, and
    in a loop [for (v = start; v <= limit; v += step)] the rounding decides
    how many rounds are made.  The sum of such a counter and its step is
    therefore a parameter [add] of the loop: what [v + step] is in the
    arithmetic of the script.  The exact sum [Rplus] is one instance; all
    other operations are taken exact. *)

(** The inner loop of [drawNullcline]:
    [for (let y = ...; y <= this.yMax; y += (this.yMax - this.yMin) / 100)],
    entered with the current value of [y].  One unit of fuel pays for one
    test of the loop condition. *)
Fixpoint scanColumn (add : R -> R -> R) (fuel : nat) (this : visualizer)
    (isDxDt : bool) (x y : R) : M path_state unit :=
  match fuel with
  | O => fun s => (OutOfFuel, s)
  | Datatypes.S fuel' =>
      if bool_decide (y <= yMax this) then
        (v <~ call (fun _ => evaluateSystem this x y);;
         let value := if isDxDt then dx v else dy v in
         if bool_decide (Rabs value < 0.05) then
           (* threshold for "zero" *)
           let canvasX := worldToCanvasX this x in
           let canvasY := worldToCanvasY this y in
           started <~ gets pathStarted;;
           if negb started then
             (path_call (MoveTo canvasX canvasY);;; set_pathStarted true)
           else path_call (LineTo canvasX canvasY)
           (* break *)
         else
           scanColumn add fuel' this isDxDt x
             (add y ((yMax this - yMin this) / 100))
        )%js
      else ret tt
  end.

(** [drawNullcline(isDxDt)]; [fuel] bounds each run of the inner loop. *)
Definition drawNullcline (add : R -> R -> R) (fuel : nat) (this : visualizer)
    (isDxDt : bool) : M path_state unit :=
  let resolution := 200%nat in
  let stepX := (xMax this - xMin this) / INR resolution in
  (path_call BeginPath;;;
   set_pathStarted false;;;
   for_upto resolution (fun i =>
     let x := xMin this + INR i * stepX in
     (* find y where the derivative is approximately zero *)
     scanColumn add fuel this isDxDt x (yMin this));;;
   path_call Stroke)%js.

(** [updateParticleCount()] *)
Definition updateParticleCount : M visualizer unit :=
  (n <~ gets (fun this => length (particles this));;
   emit (SetParticleCount n))%js.

(** [draw()]: recorded as one call on the browser, not run here.  The
    repaint reads [this] and assigns nothing; what it strokes for the field
    and for a nullcline is [drawFlowField] and [drawNullcline] above. *)
Definition draw : M visualizer unit := emit Draw.

(** [clearParticles()] *)
Definition clearParticles : M visualizer unit :=
  (modify (set_particles []);;;
   modify (set_colorIndex 0);;;
   updateParticleCount;;;
   draw)%js.

(** What [clearTrajectories] assigns in each particle:
    [particle.trajectory = [{x: particle.x, y: particle.y}]]. *)
Definition resetTrajectory (particle : Particle.t) : Particle.t :=
  Particle.set_trajectory
    [{| ptx := Particle.x particle; pty := Particle.y particle |}] particle.

(** [clearTrajectories()] *)
Definition clearTrajectories : M visualizer unit :=
  (modify (fun this =>
     set_particles (map resetTrajectory (particles this)) this);;;
   draw)%js.

(** [resetAll()] *)
Definition resetAll : M visualizer unit :=
  (modify (set_particles []);;;
   modify (set_colorIndex 0);;;
   updateParticleCount;;;
   draw)%js.

(** [this.particles.forEach(particle => particle.update(...))]: the
    elements of the array are mutated in place.  The evaluator closes over
    [this], of which [update] changes nothing that [evaluateSystem] reads. *)
Definition updateAllParticles : M visualizer unit :=
  fun this =>
    let (r, ps) :=
      forEach
        (Particle.update (simulationSpeed this)
                         (fun x y => evaluateSystem this x y))
        (particles this) in
    (r, set_particles ps this).

(** [simulateStep()]: one tick of the simulation. *)
Definition simulateStep : M visualizer unit :=
  (running <~ gets simulationRunning;;
   if negb running then ret tt else
   (* update all particles *)
   updateAllParticles;;;
   (* remove inactive particles *)
   modify (fun this =>
     set_particles (List.filter Particle.active (particles this)) this);;;
   updateParticleCount;;;
   (* redraw *)
   draw;;;
   (* continue simulation if there are active particles *)
   continue <~ gets (fun this =>
     (0 <? length (particles this))%nat
     && existsb Particle.active (particles this));;
   if continue then emit RequestAnimationFrame
   else modify (set_simulationRunning false))%js.

(** [startSimulation()] *)
Definition startSimulation : M visualizer unit :=
  (running <~ gets simulationRunning;;
   if running then ret tt else
   modify (set_simulationRunning true);;;
   simulateStep)%js.

(** [updateParameterDisplay()]: [Object.keys(null)] throws. *)
Definition updateParameterDisplay : M visualizer unit :=
  (p <~ gets parameters;;
   match p with
   | JNull =>
       call (fun _ => Throw (TypeError "Cannot convert undefined or null to object"))
   | _ => emit (SetParameterDisplay p)
   end)%js.

(** [renderEquations()]: typesetting, left to the browser. *)
Definition renderEquations (dxdtInput dydtInput : string) : M visualizer unit :=
  emit (RenderEquations dxdtInput dydtInput).

Definition newline : string := String (ascii_of_nat 10) EmptyString.

Section UpdateSystem.

(** The global [math] ([None] when math.js did not load), [JSON.parse]
    and [String.prototype.trim]. *)
Variable math : option mathjs.
Variable JSON_parse : string -> completion json.
Variable trim : string -> string.

(** A string is truthy when it is not empty. *)
Definition truthy (s : string) : bool :=
  match s with EmptyString => false | String _ _ => true end.

(** [updateSystem()]; the three arguments are the values of the input
    fields [dx-dt], [dy-dt] and [parameters]. *)
Definition updateSystem (dxdtInput dydtInput parametersInput : string)
  : M visualizer unit :=
  match math with
  | None => emit (Alert "Math library not loaded. Please refresh the page.")
  | Some math_ =>
      try_catch
        ((* parse parameters JSON *)
         p <~ call (fun _ =>
                if truthy (trim parametersInput)
                then run (JSON_parse parametersInput)
                else Ok (JObj ∅));;
         modify (set_parameters p);;;
         (* parse equations using math.js *)
         f <~ call (fun _ => n <~~ run (parse math_ dxdtInput);; run (compile n));;
         modify (set_dxdt (Some f));;;
         g <~ call (fun _ => n <~~ run (parse math_ dydtInput);; run (compile n));;
         modify (set_dydt (Some g));;;
         updateParameterDisplay;;;
         renderEquations dxdtInput dydtInput;;;
         (* clear particles when system changes *)
         clearParticles)%js
        (fun error =>
           if instanceof_SyntaxError error then
             emit (Alert ("Error parsing parameters JSON. Please check your JSON syntax."
                          ++ newline ++ "Error: " ++ message_of error))
           else
             emit (Alert ("Error parsing equations. Please check your syntax."
                          ++ newline ++ "Error: " ++ message_of error)))
  end.

End UpdateSystem.

(** [new DynamicalSystemVisualizer()] on a canvas of the given size. *)
Definition constructor (width height : R) : visualizer :=
  {| dxdt := None; dydt := None; parameters := JObj ∅;
     xMin := -5; xMax := 5; yMin := -5; yMax := 5;
     gridDensity := 20; arrowScale := 0.5; arrowColor := "#3498db";
     showGrid := true; showNullclines := false;
     particles := []; colorIndex := 0;
     simulationRunning := false; simulationSpeed := 0.05;
     canvasWidth := width; canvasHeight := height;
     host := [Draw] |}.

(** * Specification-level definitions *)

Definition zero : vec := {| dx := 0; dy := 0 |}.

(** The field the particles and the sampler see: the two components where
    both evaluate, the zero vector where one of them throws or is missing. *)
Definition vectorField (this : visualizer) (x y : R) : vec :=
  let scope := make_scope x y (parameters this) in
  match dxdt this, dydt this with
  | Some f, Some g =>
      match evaluate f scope, evaluate g scope with
      | Returns a, Returns b => {| dx := a; dy := b |}
      | _, _ => zero
      end
  | _, _ => zero
  end.


(** An evaluator that always returns. *)
Definition total (f : R -> R -> vec) : R -> R -> result vec :=
  fun x y => Ok (f x y).

(** The classical fourth-order Runge-Kutta step for [dp/dt = f(p)]. *)
Definition rk4 (f : R -> R -> vec) (dt : R) (p : point) : point :=
  let k1 := f (ptx p) (pty p) in
  let k2 := f (ptx p + dx k1 * dt / 2) (pty p + dy k1 * dt / 2) in
  let k3 := f (ptx p + dx k2 * dt / 2) (pty p + dy k2 * dt / 2) in
  let k4 := f (ptx p + dx k3 * dt) (pty p + dy k3 * dt) in
  {| ptx := ptx p + dt * (dx k1 + 2 * dx k2 + 2 * dx k3 + dx k4) / 6;
     pty := pty p + dt * (dy k1 + 2 * dy k2 + 2 * dy k3 + dy k4) / 6 |}.

Definition position (p : Particle.t) : point :=
  {| ptx := Particle.x p; pty := Particle.y p |}.

(** Outside the square of half-width 10. *)
Definition outside (q : point) : Prop :=
  Rabs (ptx q) > 10 \/ Rabs (pty q) > 10.

(** Everything the script does to an existing particle object. *)
Inductive particle_op : Type :=
| OpUpdate (dt : R) (evaluator : R -> R -> result vec)
| OpDraw (worldToCanvasX worldToCanvasY : R -> R)
| OpClearTrajectory.

Definition apply_op (p : Particle.t) (op : particle_op) : Particle.t :=
  match op with
  | OpUpdate dt evaluator => snd (Particle.update dt evaluator p)
  | OpDraw wx wy => let _ := Particle.draw wx wy p in p
  | OpClearTrajectory => resetTrajectory p
  end.

Definition apply_ops (ops : list particle_op) (p : Particle.t) : Particle.t :=
  fold_left apply_op ops p.

(** How far an update-system action gets, read off its inputs. *)
Inductive update_stage : Type :=
| MathMissing                                    (* math.js did not load *)
| ParametersFailed (e : exn)                     (* [JSON.parse] threw *)
| DxFailed (p : json) (e : exn)                  (* the dx equation did not compile *)
| DyFailed (p : json) (f : compiled) (e : exn)   (* the dy equation did not compile *)
| DisplayFailed (f g : compiled)                 (* the parameters parsed to [null] *)
| Succeeded (p : json) (f g : compiled).

Definition compileEquation (math_ : mathjs) (text : string) : completion compiled :=
  match parse math_ text with
  | Returns n => compile n
  | Throws e => Throws e
  end.

Definition parseParameters (JSON_parse : string -> completion json)
    (trim : string -> string) (parametersInput : string) : completion json :=
  if truthy (trim parametersInput) then JSON_parse parametersInput
  else Returns (JObj ∅).

Definition update_stage_of (math : option mathjs)
    (JSON_parse : string -> completion json) (trim : string -> string)
    (dxdtInput dydtInput parametersInput : string) : update_stage :=
  match math with
  | None => MathMissing
  | Some math_ =>
      match parseParameters JSON_parse trim parametersInput with
      | Throws e => ParametersFailed e
      | Returns p =>
          match compileEquation math_ dxdtInput with
          | Throws e => DxFailed p e
          | Returns f =>
              match compileEquation math_ dydtInput with
              | Throws e => DyFailed p f e
              | Returns g =>
                  match p with
                  | JNull => DisplayFailed f g
                  | _ => Succeeded p f g
                  end
              end
          end
      end
  end.

Definition failed (s : update_stage) : Prop :=
  match s with Succeeded _ _ _ => False | _ => True end.

(** The alert box of the [catch] block of [updateSystem]. *)
Definition alert_of (e : exn) : host_call :=
  if instanceof_SyntaxError e then
    Alert ("Error parsing parameters JSON. Please check your JSON syntax."
           ++ newline ++ "Error: " ++ message_of e)
  else
    Alert ("Error parsing equations. Please check your syntax."
           ++ newline ++ "Error: " ++ message_of e).

(** The state a given stage leaves behind. *)
Definition after_update (s : update_stage) (dxdtInput dydtInput : string)
    (this : visualizer) : visualizer :=
  let say c v := set_host (host v ++ [c]) v in
  match s with
  | MathMissing =>
      say (Alert "Math library not loaded. Please refresh the page.") this
  | ParametersFailed e => say (alert_of e) this
  | DxFailed p e => say (alert_of e) (set_parameters p this)
  | DyFailed p f e =>
      say (alert_of e) (set_dxdt (Some f) (set_parameters p this))
  | DisplayFailed f g =>
      say (alert_of (TypeError "Cannot convert undefined or null to object"))
          (set_dydt (Some g) (set_dxdt (Some f) (set_parameters JNull this)))
  | Succeeded p f g =>
      say Draw
        (say (SetParticleCount 0)
           (set_colorIndex 0
              (set_particles []
                 (say (RenderEquations dxdtInput dydtInput)
                    (say (SetParameterDisplay p)
                       (set_dydt (Some g)
                          (set_dxdt (Some f) (set_parameters p this))))))))
  end.

(** The grid of [drawFlowField]: the index pairs in the order the two
    loops visit them, and the world points they stand for. *)
Definition gridIndices (n : nat) : list (nat * nat) :=
  flat_map (fun i => map (fun j => (i, j)) (seq 0 (Datatypes.S n)))
           (seq 0 (Datatypes.S n)).

Definition gridPoint (this : visualizer) (ij : nat * nat) : point :=
  let stepX := (xMax this - xMin this) / INR (gridDensity this) in
  let stepY := (yMax this - yMin this) / INR (gridDensity this) in
  {| ptx := xMin this + INR (fst ij) * stepX;
     pty := yMin this + INR (snd ij) * stepY |}.

Definition candidates (this : visualizer) : list point :=
  map (gridPoint this) (gridIndices (gridDensity this)).

Definition magnitude (v : vec) : R := sqrt (dx v * dx v + dy v * dy v).

(** [v] scaled to length one. *)
Definition normalized (v : vec) : vec :=
  {| dx := dx v / magnitude v; dy := dy v / magnitude v |}.

#[global] Instance R_eq_decision : EqDecision R := Req_dec_T.

(** The arrow of a grid point: none where the field has magnitude zero;
    elsewhere the arrow that starts at the image of the point on the canvas
    and runs [arrowScale * 20] pixels along the normalized field, the
    canvas y axis pointing down. *)
Definition arrowAt (this : visualizer) (q : point) : list canvas_op :=
  let v := vectorField this (ptx q) (pty q) in
  if decide (magnitude v = 0) then []
  else
    let u := normalized v in
    let startX := worldToCanvasX this (ptx q) in
    let startY := worldToCanvasY this (pty q) in
    [DrawArrow startX startY
       (startX + dx u * (arrowScale this * 20))
       (startY - dy u * (arrowScale this * 20))].


(** The nullcline scan: the component looked at, the test for "zero",
    the values of [y] a column is scanned at, the first of them that passes
    the test, and the points found, column after column. *)
Definition component (isDxDt : bool) (v : vec) : R :=
  if isDxDt then dx v else dy v.

Definition nearZero (this : visualizer) (isDxDt : bool) (x y : R) : bool :=
  match evaluateSystem this x y with
  | Ok v => bool_decide (Rabs (component isDxDt v) < 0.05)
  | _ => false
  end.

(** A loop [for (v = start; v <= limit; v += step)]: the values its counter
    takes in the first [n] rounds, and what it is for the loop to end after
    [n] rounds: the test holds for these [n] values and fails for the
    next. *)
Fixpoint counterValues (add : R -> R -> R) (n : nat) (v step : R) : list R :=
  match n with
  | O => []
  | Datatypes.S n' => v :: counterValues add n' (add v step) step
  end.

Fixpoint ends_after (add : R -> R -> R) (n : nat) (v limit step : R) : Prop :=
  match n with
  | O => ~ v <= limit
  | Datatypes.S n' => v <= limit /\ ends_after add n' (add v step) limit step
  end.

#[global] Instance ends_after_dec (add : R -> R -> R) (n : nat) :
  forall v limit step : R, Decision (ends_after add n v limit step).
Proof.
  induction n as [|n IH]; intros v limit step; cbn [ends_after]; apply _.
Defined.

(** The values of [y] at which a column is scanned, when the scan makes
    [n] rounds. *)
Definition scanValues (add : R -> R -> R) (n : nat) (this : visualizer)
  : list R :=
  counterValues add n (yMin this) ((yMax this - yMin this) / 100).

Definition columnX (this : visualizer) (i : nat) : R :=
  xMin this + INR i * ((xMax this - xMin this) / 200).

Definition columnPoints (add : R -> R -> R) (n : nat) (this : visualizer)
    (isDxDt : bool) (i : nat) : list point :=
  match List.find (nearZero this isDxDt (columnX this i))
          (scanValues add n this) with
  | Some y => [{| ptx := columnX this i; pty := y |}]
  | None => []
  end.

Definition nullclinePoints (add : R -> R -> R) (n : nat) (this : visualizer)
    (isDxDt : bool) : list point :=
  flat_map (columnPoints add n this isDxDt) (seq 0 201).

(** The path through a list of world points: a [moveTo] the first, a
    [lineTo] each of the others. *)
Definition lineTo (this : visualizer) (q : point) : canvas_op :=
  LineTo (worldToCanvasX this (ptx q)) (worldToCanvasY this (pty q)).

Definition polyline (this : visualizer) (pts : list point) : list canvas_op :=
  match pts with
  | [] => []
  | q :: rest =>
      MoveTo (worldToCanvasX this (ptx q)) (worldToCanvasY this (pty q))
      :: map (lineTo this) rest
  end.

(** What a hit at [q] does to the path. *)
Definition plot (this : visualizer) (s : path_state) (q : point) : path_state :=
  if pathStarted s then
    {| pathStarted := true; ctx := ctx s ++ [lineTo this q] |}
  else
    {| pathStarted := true;
       ctx := ctx s ++ [MoveTo (worldToCanvasX this (ptx q))
                               (worldToCanvasY this (pty q))] |}.

(** * A concrete session, for the examples

    A fragment of math.js and of [JSON.parse], defined on the few texts the
    examples use: what the libraries return on these texts. *)

(** The value of a symbol in a scope: a missing symbol throws. *)
Definition symbol (scope : gmap string json) (name : string) : completion R :=
  match scope !! name with
  | Some (JNum v) => Returns v
  | _ => Throws (Error ("Undefined symbol " ++ name))
  end.

(** The compiled expressions of [1], [0], [y], [-x] and [mu * y]. *)
Definition expr_one : compiled := {| evaluate := fun _ => Returns 1 |}.
Definition expr_zero : compiled := {| evaluate := fun _ => Returns 0 |}.
Definition expr_y : compiled := {| evaluate := fun scope => symbol scope "y" |}.
Definition expr_neg_x : compiled :=
  {| evaluate := fun scope =>
       match symbol scope "x" with
       | Returns v => Returns (- v)
       | Throws e => Throws e
       end |}.
Definition expr_mu_y : compiled :=
  {| evaluate := fun scope =>
       match symbol scope "mu", symbol scope "y" with
       | Returns m, Returns v => Returns (m * v)
       | Throws e, _ | _, Throws e => Throws e
       end |}.

Definition sample_math : mathjs :=
  {| parse := fun text =>
       if String.eqb text "1" then Returns {| compile := Returns expr_one |}
       else if String.eqb text "0" then Returns {| compile := Returns expr_zero |}
       else if String.eqb text "y" then Returns {| compile := Returns expr_y |}
       else if String.eqb text "-x" then Returns {| compile := Returns expr_neg_x |}
       else if String.eqb text "mu * y" then Returns {| compile := Returns expr_mu_y |}
       else Throws (SyntaxError "Unexpected end of expression") |}.

Definition sample_JSON_parse (text : string) : completion json :=
  if String.eqb text "{}" then Returns (JObj ∅)
  else if String.eqb text "null" then Returns JNull
  else Throws (SyntaxError "Unexpected token").

(** [trim] on texts without surrounding white space. *)
Definition sample_trim (text : string) : string := text.

Definition sample_particle : Particle.t :=
  Particle.constructor 1 0 "#e74c3c" 0.

(** A session in which the system [dx/dt = y], [dy/dt = mu * y] with
    [mu = 1] is loaded and one particle is in flight. *)
Definition loaded : visualizer :=
  set_simulationRunning true
    (set_particles [sample_particle]
       (set_parameters (JObj {[ "mu" := JNum 1 ]})
          (set_dydt (Some expr_mu_y)
             (set_dxdt (Some expr_y) (constructor 800 600))))).

(** A session with the uniform field [dx/dt = 1], [dy/dt = 0]. *)
Definition uniform : visualizer :=
  set_dydt (Some expr_zero) (set_dxdt (Some expr_one) (constructor 800 600)).

(** The harmonic oscillator [dx/dt = y], [dy/dt = -x], as an evaluator. *)
Definition oscillator (x y : R) : vec := {| dx := y; dy := - x |}.


(** * Further definitions *)

(** The rotation field [dx/dt = - omega * y], [dy/dt = omega * x]; the
    harmonic oscillator is the case [omega = -1]. *)
Definition rotation (omega : R) (x y : R) : vec :=
  {| dx := - omega * y; dy := omega * x |}.


(** The squared distance of a particle from the origin. *)
Definition radius2 (p : Particle.t) : R :=
  Particle.x p * Particle.x p + Particle.y p * Particle.y p.

(** The trajectory ends at the current position. *)
Definition trajectory_ends_here (p : Particle.t) : Prop :=
  last (Particle.trajectory p) = Some (position p).

(** An evaluator that throws at every point. *)
Definition broken (e : exn) : R -> R -> result vec := fun _ _ => Throw e.

(** What [validateParameters] writes into the page: the border colour of
    the parameter field, and the text and colour of the help line. *)
Record field_feedback : Type := {
  borderColor : string;
  helpText : string;
  helpColor : string
}.

(** [typeof parsed === 'object' && parsed !== null && !Array.isArray(parsed)] *)
Definition is_plain_object (v : json) : bool :=
  match v with JObj _ => true | _ => false end.

(** [validateParameters(parametersInput)] *)
Definition validateParameters (JSON_parse : string -> completion json)
    (trim : string -> string) (parametersInput : string) : field_feedback :=
  if negb (truthy (trim parametersInput)) then
    (* empty is valid *)
    {| borderColor := "#e9ecef";
       helpText := "Define custom parameters as JSON object";
       helpColor := "#6c757d" |}
  else
    match JSON_parse parametersInput with
    | Returns parsed =>
        if is_plain_object parsed then
          {| borderColor := "#28a745";
             helpText := "Valid JSON parameters";
             helpColor := "#28a745" |}
        else
          {| borderColor := "#dc3545";
             helpText := "Parameters must be a JSON object";
             helpColor := "#dc3545" |}
    | Throws _ =>
        {| borderColor := "#dc3545";
           helpText := "Invalid JSON syntax";
           helpColor := "#dc3545" |}
    end.

(** The visualizer [this] with another system in place of its own. *)
Definition with_system (f g : option compiled) (p : json) (this : visualizer)
  : visualizer :=
  set_parameters p (set_dydt g (set_dxdt f this)).

(** [w] points the same way as [v]: it is [v] times a positive number. *)
Definition same_direction (v w : vec) : Prop :=
  exists c : R, 0 < c /\ dx w = c * dx v /\ dy w = c * dy v.

(** The compiled expression of [2]. *)
Definition expr_two : compiled := {| evaluate := fun _ => Returns 2 |}.

#[global] Instance Rge_decision : RelDecision Rge := Rge_dec.

(** [for (let v = start; v <= limit; v += step) body], entered with the
    current value of [v]; [add] is the sum of [v += step].  One unit of
    fuel pays for one test of the loop condition. *)
Fixpoint for_real {S} (add : R -> R -> R) (fuel : nat) (v limit step : R)
    (body : R -> M S unit) : M S unit :=
  match fuel with
  | O => fun s => (OutOfFuel, s)
  | Datatypes.S fuel' =>
      if bool_decide (v <= limit) then
        (body v ;;; for_real add fuel' (add v step) limit step body)%js
      else ret tt
  end.

(** [beginPath(); moveTo(x1, y1); lineTo(x2, y2); stroke()] *)
Definition strokeLine (x1 y1 x2 y2 : R) : M (list canvas_op) unit :=
  (ctx_call BeginPath;;;
   ctx_call (MoveTo x1 y1);;;
   ctx_call (LineTo x2 y2);;;
   ctx_call Stroke)%js.

(** [drawGrid()]; [fuel] bounds each of its two loops. *)
Definition drawGrid (add : R -> R -> R) (fuel : nat) (this : visualizer)
  : M (list canvas_op) unit :=
  if negb (showGrid this) then ret tt else
  (ctx_call (SetStrokeStyle "#e0e0e0");;;
   ctx_call (SetLineWidth 1);;;
   (* vertical lines *)
   let xStep := (xMax this - xMin this) / 10 in
   for_real add fuel (xMin this) (xMax this) xStep (fun x =>
     let canvasX := worldToCanvasX this x in
     strokeLine canvasX 0 canvasX (canvasHeight this));;;
   (* horizontal lines *)
   let yStep := (yMax this - yMin this) / 10 in
   for_real add fuel (yMin this) (yMax this) yStep (fun y =>
     let canvasY := worldToCanvasY this y in
     strokeLine 0 canvasY (canvasWidth this) canvasY);;;
   (* axes *)
   ctx_call (SetStrokeStyle "#333");;;
   ctx_call (SetLineWidth 2);;;
   (* x-axis *)
   (if bool_decide (yMin this <= 0) && bool_decide (yMax this >= 0) then
      let y0 := worldToCanvasY this 0 in
      strokeLine 0 y0 (canvasWidth this) y0
    else ret tt);;;
   (* y-axis *)
   (if bool_decide (xMin this <= 0) && bool_decide (xMax this >= 0) then
      let x0 := worldToCanvasX this 0 in
      strokeLine x0 0 x0 (canvasHeight this)
    else ret tt))%js.

(** The calls [strokeLine] makes. *)
Definition line (x1 y1 x2 y2 : R) : list canvas_op :=
  [BeginPath; MoveTo x1 y1; LineTo x2 y2; Stroke].

(** [drawArrow(x1, y1, x2, y2)], what a [DrawArrow] call stands for;
    [atan2] is [Math.atan2]. *)
Definition drawArrow (atan2 : R -> R -> R) (x1 y1 x2 y2 : R)
  : M (list canvas_op) unit :=
  let headlen := 8 in (* arrow head length *)
  let angle := atan2 (y2 - y1) (x2 - x1) in
  ((* draw line *)
   ctx_call BeginPath;;;
   ctx_call (MoveTo x1 y1);;;
   ctx_call (LineTo x2 y2);;;
   ctx_call Stroke;;;
   (* draw arrow head *)
   ctx_call BeginPath;;;
   ctx_call (MoveTo x2 y2);;;
   ctx_call (LineTo (x2 - headlen * cos (angle - PI / 6))
                    (y2 - headlen * sin (angle - PI / 6)));;;
   ctx_call (MoveTo x2 y2);;;
   ctx_call (LineTo (x2 - headlen * cos (angle + PI / 6))
                    (y2 - headlen * sin (angle + PI / 6)));;;
   ctx_call Stroke)%js.

(** ** The page and its event handlers *)

Definition set_gridDensity (v : nat) (this : visualizer) : visualizer :=
  mkVisualizer (dxdt this) (dydt this) (parameters this)
    (xMin this) (xMax this) (yMin this) (yMax this)
    v (arrowScale this) (arrowColor this)
    (showGrid this) (showNullclines this)
    (particles this) (colorIndex this) (simulationRunning this)
    (simulationSpeed this) (canvasWidth this) (canvasHeight this) (host this).

Definition set_arrowScale (v : R) (this : visualizer) : visualizer :=
  mkVisualizer (dxdt this) (dydt this) (parameters this)
    (xMin this) (xMax this) (yMin this) (yMax this)
    (gridDensity this) v (arrowColor this)
    (showGrid this) (showNullclines this)
    (particles this) (colorIndex this) (simulationRunning this)
    (simulationSpeed this) (canvasWidth this) (canvasHeight this) (host this).

Definition set_arrowColor (v : string) (this : visualizer) : visualizer :=
  mkVisualizer (dxdt this) (dydt this) (parameters this)
    (xMin this) (xMax this) (yMin this) (yMax this)
    (gridDensity this) (arrowScale this) v
    (showGrid this) (showNullclines this)
    (particles this) (colorIndex this) (simulationRunning this)
    (simulationSpeed this) (canvasWidth this) (canvasHeight this) (host this).

Definition set_showGrid (v : bool) (this : visualizer) : visualizer :=
  mkVisualizer (dxdt this) (dydt this) (parameters this)
    (xMin this) (xMax this) (yMin this) (yMax this)
    (gridDensity this) (arrowScale this) (arrowColor this)
    v (showNullclines this)
    (particles this) (colorIndex this) (simulationRunning this)
    (simulationSpeed this) (canvasWidth this) (canvasHeight this) (host this).

Definition set_showNullclines (v : bool) (this : visualizer) : visualizer :=
  mkVisualizer (dxdt this) (dydt this) (parameters this)
    (xMin this) (xMax this) (yMin this) (yMax this)
    (gridDensity this) (arrowScale this) (arrowColor this)
    (showGrid this) v
    (particles this) (colorIndex this) (simulationRunning this)
    (simulationSpeed this) (canvasWidth this) (canvasHeight this) (host this).

Definition set_view (x_min x_max y_min y_max : R) (this : visualizer)
  : visualizer :=
  mkVisualizer (dxdt this) (dydt this) (parameters this)
    x_min x_max y_min y_max
    (gridDensity this) (arrowScale this) (arrowColor this)
    (showGrid this) (showNullclines this)
    (particles this) (colorIndex this) (simulationRunning this)
    (simulationSpeed this) (canvasWidth this) (canvasHeight this) (host this).

(** [this.particleColors] *)
Definition particleColors : list string :=
  ["#e74c3c"; "#3498db"; "#2ecc71"; "#f39c12";
   "#9b59b6"; "#e67e22"; "#1abc9c"; "#34495e"].

(** [this.particleColors[this.colorIndex % this.particleColors.length]] *)
Definition nextColor (this : visualizer) : string :=
  nth (colorIndex this mod length particleColors) particleColors "undefined".

(** What the handlers write into the page, apart from the calls already in
    the [host] log; numbers are kept as numbers. *)
Inductive dom_write : Type :=
| WriteGridDensityValue (v : nat)
| WriteArrowScaleValue (v : R)
| WriteViewInputs (x_min x_max y_min y_max : R)
| WriteEquationInputs (dxdtInput dydtInput parametersInput : string)
| WriteParameterFeedback (f : field_feedback)
| WriteMouseCoordinates (worldX worldY : R).

(** The visualizer in its page: besides the object itself, the calls its
    handlers make on the drawing context outside [draw], what they write
    into the page, the [setTimeout(() => this.draw(), 200)] calls made, and
    how many of the timeouts and of the requested animation frames the
    browser has run so far. *)
Record page : Type := mkPage {
  vis : visualizer;
  painted : list canvas_op;
  written : list dom_write;
  timers : nat;
  timers_run : nat;
  frames_run : nat
}.

(** A method of the visualizer, run in the page. *)
Definition on_app {A} (m : M visualizer A) : M page A :=
  fun pg =>
    let (r, this') := m (vis pg) in
    (r, mkPage this' (painted pg) (written pg)
               (timers pg) (timers_run pg) (frames_run pg)).

Definition paint (ops : list canvas_op) : M page unit :=
  modify (fun pg =>
    mkPage (vis pg) (painted pg ++ ops) (written pg)
           (timers pg) (timers_run pg) (frames_run pg)).

Definition write (w : dom_write) : M page unit :=
  modify (fun pg =>
    mkPage (vis pg) (painted pg) (written pg ++ [w])
           (timers pg) (timers_run pg) (frames_run pg)).

(** [setTimeout(() => { this.draw(); }, 200)] *)
Definition setTimeout_draw : M page unit :=
  modify (fun pg =>
    mkPage (vis pg) (painted pg) (written pg)
           (Datatypes.S (timers pg)) (timers_run pg) (frames_run pg)).

(** [updateViewRange()]; the arguments are the [parseFloat]s of the four
    input fields. *)
Definition updateViewRange (x_min x_max y_min y_max : R) : M visualizer unit :=
  modify (set_view x_min x_max y_min y_max).

(** [resetView()] *)
Definition resetView : M page unit :=
  (on_app (modify (set_view (-5) 5 (-5) 5));;;
   write (WriteViewInputs (-5) 5 (-5) 5);;;
   (* also reset particles when view changes *)
   on_app clearParticles;;;
   on_app draw)%js.

(** [showClickFeedback(canvasX, canvasY, color)] *)
Definition showClickFeedback (canvasX canvasY : R) (color : string)
  : M page unit :=
  (paint [SetFillStyle color; BeginPath;
          Arc canvasX canvasY 8 0 (2 * PI); Fill];;;
   (* fade out effect *)
   setTimeout_draw)%js.

Definition quote : string := String (ascii_of_nat 34) EmptyString.

(** [addParticleAtClick(event)]; [canvasX] and [canvasY] are the position of
    the click relative to the canvas, [fresh] is the identifier the new
    particle gets. *)
Definition addParticleAtClick (canvasX canvasY fresh : R) : M page unit :=
  (no_system <~ on_app (gets (fun this => not_ (dxdt this) || not_ (dydt this)));;
   if no_system then
     on_app (emit (Alert ("Please load a system first by clicking "
                          ++ quote ++ "Update System" ++ quote)))
   else
   worldX <~ on_app (gets (fun this => canvasToWorldX this canvasX));;
   worldY <~ on_app (gets (fun this => canvasToWorldY this canvasY));;
   (* get next color *)
   color <~ on_app (gets nextColor);;
   on_app (modify (fun this => set_colorIndex (Datatypes.S (colorIndex this)) this));;;
   (* create new particle *)
   let particle := Particle.constructor worldX worldY color fresh in
   on_app (modify (fun this => set_particles (particles this ++ [particle]) this));;;
   on_app updateParticleCount;;;
   (* start simulation if not running *)
   running <~ on_app (gets simulationRunning);;
   (if negb running then on_app startSimulation else ret tt);;;
   showClickFeedback canvasX canvasY color;;;
   on_app draw)%js.

(** The table [presets] of [loadPreset]: equations and parameters by name.
    Only the table's own entries are looked up: the select element offers
    no other name.  Every entry has parameters, so the branch of
    [loadPreset] for an entry without them is never taken. *)
Definition presets (preset : string) : option (string * string * json) :=
  if String.eqb preset "van-der-pol" then
    Some ("y", "mu * (1 - x^2) * y - x", JObj {[ "mu" := JNum 1 ]})
  else if String.eqb preset "pendulum" then
    Some ("y", "-sin(x) - gamma * y", JObj {[ "gamma" := JNum 0.1 ]})
  else if String.eqb preset "lotka-volterra" then
    Some ("alpha * x - beta * x * y", "delta * x * y - gamma * y",
          JObj (<["alpha" := JNum 1]> (<["beta" := JNum 1]>
                  (<["delta" := JNum 1]> {[ "gamma" := JNum 1 ]}))))
  else if String.eqb preset "spiral" then
    Some ("sigma * x - y", "x + sigma * y", JObj {[ "sigma" := JNum (-0.1) ]})
  else None.

Section Page.

(** The libraries, as in [UpdateSystem], and [JSON.stringify(v, null, 2)]. *)
Variable math : option mathjs.
Variable JSON_parse : string -> completion json.
Variable trim : string -> string.
Variable JSON_stringify : json -> string.

(** [loadPreset(preset)] *)
Definition loadPreset (preset : string) : M page unit :=
  if negb (truthy preset) then ret tt else
  match presets preset with
  | Some (dxdtText, dydtText, presetParameters) =>
      let parametersText := JSON_stringify presetParameters in
      (write (WriteEquationInputs dxdtText dydtText parametersText);;;
       on_app (updateSystem math JSON_parse trim
                 dxdtText dydtText parametersText);;;
       on_app draw)%js
  | None => ret tt
  end.

(** What the user and the browser do to the page.  The values carried are
    those the handler reads from the event or from the input fields, numbers
    already parsed. *)
Inductive event : Type :=
| ClickUpdateSystem (dxdtInput dydtInput parametersInput : string)
| InputGridDensity (value : nat)
| InputArrowScale (value : R)
| ChangeArrowColor (value : string)
| ChangeShowGrid (checked : bool)
| ChangeShowNullclines (checked : bool)
| ChangeViewRange (x_min x_max y_min y_max : R)
| ClickResetView
| ChangePreset (value : string)
| InputParameters (value : string)
| ClickClearParticles
| ClickClearTrajectories
| ClickResetAll
| ClickCanvas (canvasX canvasY fresh : R)
| MouseMove (canvasX canvasY : R)
| AnimationFrame     (* the browser runs a requested frame callback *)
| Timeout.           (* the browser runs a pending timeout callback *)

Definition is_frame_request (c : host_call) : bool :=
  match c with RequestAnimationFrame => true | _ => false end.

(** The animation frames requested and not yet run. *)
Definition pending_frames (pg : page) : nat :=
  length (List.filter is_frame_request (host (vis pg))) - frames_run pg.

Definition pending_timeouts (pg : page) : nat :=
  timers pg - timers_run pg.

(** The listeners of [setupEventListeners], and the two kinds of callback
    the browser runs when one is pending. *)
Definition handle (e : event) : M page unit :=
  match e with
  | ClickUpdateSystem dxdtInput dydtInput parametersInput =>
      (on_app (updateSystem math JSON_parse trim
                 dxdtInput dydtInput parametersInput);;;
       on_app draw)%js
  | InputGridDensity value =>
      (on_app (modify (set_gridDensity value));;;
       write (WriteGridDensityValue value);;;
       on_app draw)%js
  | InputArrowScale value =>
      (on_app (modify (set_arrowScale value));;;
       write (WriteArrowScaleValue value);;;
       on_app draw)%js
  | ChangeArrowColor value =>
      (on_app (modify (set_arrowColor value));;; on_app draw)%js
  | ChangeShowGrid checked =>
      (on_app (modify (set_showGrid checked));;; on_app draw)%js
  | ChangeShowNullclines checked =>
      (on_app (modify (set_showNullclines checked));;; on_app draw)%js
  | ChangeViewRange x_min x_max y_min y_max =>
      (on_app (updateViewRange x_min x_max y_min y_max);;; on_app draw)%js
  | ClickResetView => resetView
  | ChangePreset value => loadPreset value
  | InputParameters value =>
      write (WriteParameterFeedback (validateParameters JSON_parse trim value))
  | ClickClearParticles => on_app clearParticles
  | ClickClearTrajectories => on_app clearTrajectories
  | ClickResetAll => on_app resetAll
  | ClickCanvas canvasX canvasY fresh =>
      addParticleAtClick canvasX canvasY fresh
  | MouseMove canvasX canvasY =>
      (worldX <~ on_app (gets (fun this => canvasToWorldX this canvasX));;
       worldY <~ on_app (gets (fun this => canvasToWorldY this canvasY));;
       write (WriteMouseCoordinates worldX worldY))%js
  | AnimationFrame =>
      fun pg =>
        if (0 <? pending_frames pg)%nat then
          on_app simulateStep
            (mkPage (vis pg) (painted pg) (written pg)
                    (timers pg) (timers_run pg) (Datatypes.S (frames_run pg)))
        else (Ok tt, pg)
  | Timeout =>
      fun pg =>
        if (0 <? pending_timeouts pg)%nat then
          on_app draw
            (mkPage (vis pg) (painted pg) (written pg)
                    (timers pg) (Datatypes.S (timers_run pg)) (frames_run pg))
        else (Ok tt, pg)
  end.

(** The page after a sequence of events. *)
Definition after_events (events : list event) (pg : page) : page :=
  fold_left (fun pg0 e => snd (handle e pg0)) events pg.

End Page.

(** The page when it has been opened on a canvas of the given size. *)
Definition opened (width height : R) : page :=
  mkPage (constructor width height) [] [] 0 0 0.

(** The state a tick of a running simulation leaves behind. *)
Definition tick (this : visualizer) : visualizer :=
  let advanced :=
    map (fun p => snd (Particle.update (simulationSpeed this)
                         (fun x y => evaluateSystem this x y) p))
        (particles this) in
  let survivors := List.filter Particle.active advanced in
  let counted :=
    set_host (host this ++ [SetParticleCount (length survivors); Draw])
             (set_particles survivors this) in
  if existsb Particle.active advanced
  then set_host (host counted ++ [RequestAnimationFrame]) counted
  else set_simulationRunning false counted.

(** The animation frames a visualizer has requested so far. *)
Definition requested (this : visualizer) : nat :=
  length (List.filter is_frame_request (host this)).

Definition compiled_system (this : visualizer) : Prop :=
  dxdt this <> None /\ dydt this <> None.

(** What holds of the visualizer at all times: every particle of the
    collection is active and its trajectory ends where the particle is;
    there are particles only when both equations are compiled; and the
    collection is no longer than the number of colours handed out. *)
Record vis_ok (this : visualizer) : Prop := {
  ok_active : Forall (fun p => Particle.active p = true) (particles this);
  ok_trajectory : Forall trajectory_ends_here (particles this);
  ok_system : particles this <> [] -> compiled_system this;
  ok_colors : (length (particles this) <= colorIndex this)%nat
}.

(** What holds of the page at all times: besides [vis_ok], exactly one
    animation frame is pending while [simulationRunning] is set, and none
    while it is not. *)
Record page_ok (pg : page) : Prop := {
  ok_vis : vis_ok (vis pg);
  ok_run : (frames_run pg <= requested (vis pg))%nat;
  ok_frames :
    (requested (vis pg) - frames_run pg
     = if simulationRunning (vis pg) then 1 else 0)%nat
}.

(** A method that returns, requests no frame, leaves the flag alone and
    keeps [vis_ok]. *)
Definition quiet {A} (m : M visualizer A) : Prop :=
  forall this, exists a this',
    m this = (Ok a, this') /\
    requested this' = requested this /\
    simulationRunning this' = simulationRunning this /\
    (vis_ok this -> vis_ok this').

(** The same for a handler, which in addition runs no frame. *)
Definition calm {A} (m : M page A) : Prop :=
  forall pg, exists a pg',
    m pg = (Ok a, pg') /\
    frames_run pg' = frames_run pg /\
    requested (vis pg') = requested (vis pg) /\
    simulationRunning (vis pg') = simulationRunning (vis pg) /\
    (vis_ok (vis pg) -> vis_ok (vis pg')).

(** The visualizer after [addParticleAtClick] has added its particle and
    updated the counter. *)
Definition with_new_particle (canvasX canvasY fresh : R) (this : visualizer)
  : visualizer :=
  let particle :=
    Particle.constructor (canvasToWorldX this canvasX)
      (canvasToWorldY this canvasY) (nextColor this) fresh in
  set_host
    (host this ++ [SetParticleCount (Datatypes.S (length (particles this)))])
    (set_particles (particles this ++ [particle])
       (set_colorIndex (Datatypes.S (colorIndex this)) this)).

(** The dot [showClickFeedback] paints at the click. *)
Definition clickFeedback (canvasX canvasY : R) (color : string)
  : list canvas_op :=
  [SetFillStyle color; BeginPath; Arc canvasX canvasY 8 0 (2 * PI); Fill].

(** The page after a click on the canvas while a system is loaded: the
    particle is added; if no simulation was running one is started, which
    runs its first tick at once; then the feedback and the repaint. *)
Definition clicked (canvasX canvasY fresh : R) (pg : page) : page :=
  let added := with_new_particle canvasX canvasY fresh (vis pg) in
  let started :=
    if simulationRunning (vis pg) then added
    else tick (set_simulationRunning true added) in
  mkPage (set_host (host started ++ [Draw]) started)
    (painted pg ++ clickFeedback canvasX canvasY (nextColor (vis pg)))
    (written pg) (Datatypes.S (timers pg)) (timers_run pg) (frames_run pg).

(** The session [loaded] in its page, with the frame of its running
    simulation requested and not yet run. *)
Definition running_page : page :=
  mkPage (set_host (host loaded ++ [RequestAnimationFrame]) loaded)
         [] [] 0 0 0.

(** The session [uniform] with the view collapsed to the line [y = 0]. *)
Definition flat_view : visualizer := set_view (-5) 5 0 0 uniform.

(** ** The repaint *)

(** A method that keeps a [pathStarted] of its own, as [drawNullcline] does
    in a local variable, called on the drawing context. *)
Definition on_path {A} (m : M path_state A) : M (list canvas_op) A :=
  fun c =>
    let (r, s) := m {| pathStarted := false; ctx := c |} in (r, ctx s).

(** [drawNullclines()] *)
Definition drawNullclines (add : R -> R -> R) (fuel : nat)
    (this : visualizer) : M (list canvas_op) unit :=
  if negb (showNullclines this) then ret tt else
  (ctx_call (SetLineWidth 2);;;
   (* dx/dt = 0 nullcline (red) *)
   ctx_call (SetStrokeStyle "#e74c3c");;;
   on_path (drawNullcline add fuel this true);;;
   (* dy/dt = 0 nullcline (blue) *)
   ctx_call (SetStrokeStyle "#3498db");;;
   on_path (drawNullcline add fuel this false))%js.

(** The calls [draw] makes on the drawing context: those of [canvas_op],
    made by the methods it calls, and the ones only [draw] makes. *)
Inductive scene_op : Type :=
| Ctx (op : canvas_op)
| ClearRect (cx cy w h : R)
| SetFont (font : string)
| SetTextAlign (align : string)
| FillText (text : string) (cx cy : R).

Definition scene_call (op : scene_op) : M (list scene_op) unit :=
  modify (fun scene => scene ++ [op]).

(** A method that makes calls of [canvas_op], run on the context of
    [draw]: its calls follow those made so far. *)
Definition on_ctx {A} (m : M (list canvas_op) A) : M (list scene_op) A :=
  fun scene => let (r, c) := m [] in (r, scene ++ map Ctx c).

(** [this.particles.forEach(particle => particle.draw(ctx, ...))] *)
Definition drawParticles (this : visualizer) : M (list canvas_op) unit :=
  modify (fun c =>
    fold_left
      (fun c0 particle =>
         c0 ++ Particle.draw (worldToCanvasX this) (worldToCanvasY this)
                 particle)
      (particles this) c).

Module Scene.

(** [draw()], run: [fuel] bounds each loop over a real counter in
    [drawGrid] and [drawNullcline], and [add] is the sum that advances
    these counters. *)
Definition draw (add : R -> R -> R) (fuel : nat) (this : visualizer)
  : M (list scene_op) unit :=
  ((* clear canvas *)
   scene_call (ClearRect 0 0 (canvasWidth this) (canvasHeight this));;;
   (* draw components *)
   on_ctx (drawGrid add fuel this);;;
   (* show message if no equations loaded *)
   if not_ (dxdt this) || not_ (dydt this) then
     on_ctx (ctx_call (SetFillStyle "#666"));;;
     scene_call (SetFont "18px Arial");;;
     scene_call (SetTextAlign "center");;;
     scene_call (FillText ("Click " ++ quote ++ "Update System" ++ quote
                           ++ " to visualize flow field")
                   (canvasWidth this / 2) (canvasHeight this / 2))
   else
     on_ctx (drawFlowField this);;;
     on_ctx (drawNullclines add fuel this);;;
     (* draw particles and trajectories *)
     on_ctx (drawParticles this))%js.

End Scene.



(** The lines of the grid when its loops make [nx] and [ny] rounds: one
    vertical line for each value of the x counter, one horizontal line for
    each value of the y counter, and the axes that are in view. *)
Definition gridLines (add : R -> R -> R) (nx ny : nat) (this : visualizer)
  : list canvas_op :=
  [SetStrokeStyle "#e0e0e0"; SetLineWidth 1]
  ++ flat_map (fun x => line (worldToCanvasX this x) 0
                             (worldToCanvasX this x) (canvasHeight this))
       (counterValues add nx (xMin this) ((xMax this - xMin this) / 10))
  ++ flat_map (fun y => line 0 (worldToCanvasY this y)
                             (canvasWidth this) (worldToCanvasY this y))
       (counterValues add ny (yMin this) ((yMax this - yMin this) / 10))
  ++ [SetStrokeStyle "#333"; SetLineWidth 2]
  ++ (if bool_decide (yMin this <= 0 <= yMax this)
      then line 0 (worldToCanvasY this 0) (canvasWidth this)
                (worldToCanvasY this 0)
      else [])
  ++ (if bool_decide (xMin this <= 0 <= xMax this)
      then line (worldToCanvasX this 0) 0 (worldToCanvasX this 0)
                (canvasHeight this)
      else []).


(** The bottom edge of the view, column by column. *)
Definition bottomEdge (this : visualizer) : list point :=
  map (fun i => {| ptx := columnX this i; pty := yMin this |}) (seq 0 201).

(** The session [loaded] after its parameter [mu] has been dropped: the
    second equation throws at every point. *)
Definition unbound : visualizer :=
  set_showNullclines true (set_parameters (JObj ∅) loaded).

(** The compiled expression of [mu * (1 - x^2) * y - x], and math.js on the
    two equations of the preset [van-der-pol]. *)
Definition expr_van_der_pol : compiled :=
  {| evaluate := fun scope =>
       match symbol scope "mu", symbol scope "x", symbol scope "y" with
       | Returns m, Returns a, Returns b => Returns (m * (1 - a ^ 2) * b - a)
       | Throws e, _, _ | _, Throws e, _ | _, _, Throws e => Throws e
       end |}.

Definition preset_math : mathjs :=
  {| parse := fun text =>
       if String.eqb text "mu * (1 - x^2) * y - x"
       then Returns {| compile := Returns expr_van_der_pol |}
       else parse sample_math text |}.

(** [JSON.stringify(v, null, 2)] on the parameters of that preset, and
    [JSON.parse] on this text and on the text of the empty array. *)
Definition mu_text : string :=
  "{" ++ newline ++ "  " ++ quote ++ "mu" ++ quote ++ ": 1" ++ newline ++ "}".

Definition preset_JSON_stringify (v : json) : string :=
  match v with JObj _ => mu_text | _ => "null" end.

Definition wider_JSON_parse (text : string) : completion json :=
  if String.eqb text mu_text then Returns (JObj {[ "mu" := JNum 1 ]})
  else if String.eqb text "[]" then Returns (JArr [])
  else sample_JSON_parse text.
(** * Properties *)

Ltac unfold_js :=
  unfold bind, ret, gets, modify, call, try_catch, emit, rbind, rcatch, run in *.

(** ** The evaluator absorbs every failure *)

Lemma evaluateSystem_vectorField (this : visualizer) (x y : R) :
  evaluateSystem this x y = Ok (vectorField this x y).
Proof.
  unfold evaluateSystem, vectorField.
  destruct (dxdt this) as [f|], (dydt this) as [g|]; simpl; try reflexivity.
  unfold_js.
  destruct (evaluate f _); [|reflexivity].
  destruct (evaluate g _); reflexivity.
Qed.

(** C1.  For a compiled system (both expressions present) and any point,
    [evaluateSystem] returns normally: with the two values when both
    components evaluate, with the zero vector when either one throws.  No
    exception reaches the caller. *)
Theorem evaluateSystem_absorbs_failures
    (this : visualizer) (f g : compiled) (x y : R)
    (Hf : dxdt this = Some f) (Hg : dydt this = Some g) :
  exists v : vec,
    evaluateSystem this x y = Ok v /\
    match evaluate f (make_scope x y (parameters this)),
          evaluate g (make_scope x y (parameters this)) with
    | Returns a, Returns b => v = {| dx := a; dy := b |}
    | Throws _, _ | _, Throws _ => v = {| dx := 0; dy := 0 |}
    end.
Proof.
  exists (vectorField this x y). split; [apply evaluateSystem_vectorField|].
  unfold vectorField. rewrite Hf, Hg.
  destruct (evaluate f _); [|reflexivity].
  destruct (evaluate g _); reflexivity.
Qed.

Lemma evaluateSystem_absorbs_failures_witness :
  dxdt loaded = Some expr_y /\ dydt loaded = Some expr_mu_y /\
  exists v : vec, evaluateSystem loaded 1 2 = Ok v.
Proof.
  assert (Hf : dxdt loaded = Some expr_y) by reflexivity.
  assert (Hg : dydt loaded = Some expr_mu_y) by reflexivity.
  destruct (evaluateSystem_absorbs_failures loaded expr_y expr_mu_y 1 2 Hf Hg)
    as (v & Hv & _).
  split; [exact Hf|]. split; [exact Hg|]. exists v. exact Hv.
Defined.

Lemma vectorField_before_first_update (this : visualizer) (x y : R) :
  dxdt this = None \/ dydt this = None -> vectorField this x y = zero.
Proof.
  intros [H|H]; unfold vectorField; rewrite H; [reflexivity|].
  destruct (dxdt this); reflexivity.
Qed.

(** ** Projections *)

(** C9.  On a viewport with [xMin < xMax] and [yMin < yMax] and a canvas of
    positive size, the two projections undo each other on each axis, in
    both directions. *)
Theorem projections_inverse
    (this : visualizer) (x y : R)
    (Hx : xMin this < xMax this) (Hy : yMin this < yMax this)
    (Hw : 0 < canvasWidth this) (Hh : 0 < canvasHeight this) :
  canvasToWorldX this (worldToCanvasX this x) = x /\
  canvasToWorldY this (worldToCanvasY this y) = y /\
  worldToCanvasX this (canvasToWorldX this x) = x /\
  worldToCanvasY this (canvasToWorldY this y) = y.
Proof.
  unfold canvasToWorldX, worldToCanvasX, canvasToWorldY, worldToCanvasY.
  repeat split; field; lra.
Qed.

Lemma projections_inverse_witness :
  xMin (constructor 800 600) < xMax (constructor 800 600) /\
  yMin (constructor 800 600) < yMax (constructor 800 600) /\
  0 < canvasWidth (constructor 800 600) /\
  0 < canvasHeight (constructor 800 600) /\
  canvasToWorldX (constructor 800 600)
    (worldToCanvasX (constructor 800 600) 1) = 1 /\
  canvasToWorldY (constructor 800 600)
    (worldToCanvasY (constructor 800 600) 2) = 2.
Proof.
  assert (Hx : xMin (constructor 800 600) < xMax (constructor 800 600))
    by (cbn; lra).
  assert (Hy : yMin (constructor 800 600) < yMax (constructor 800 600))
    by (cbn; lra).
  assert (Hw : 0 < canvasWidth (constructor 800 600)) by (cbn; lra).
  assert (Hh : 0 < canvasHeight (constructor 800 600)) by (cbn; lra).
  destruct (projections_inverse (constructor 800 600) 1 2 Hx Hy Hw Hh)
    as (H1 & H2 & _).
  repeat (split; [assumption|]). exact H2.
Defined.

(** ** Particle integration *)

Lemma update_inactive (dt : R) (evaluator : R -> R -> result vec)
    (p : Particle.t) :
  Particle.active p = false -> Particle.update dt evaluator p = (Ok tt, p).
Proof.
  intros H. unfold Particle.update. unfold_js. rewrite H. reflexivity.
Qed.

(** What [update] leaves behind when the particle is active and the
    evaluator returns at the four stages. *)
Lemma update_active (dt : R) (f : R -> R -> vec) (p : Particle.t) :
  Particle.active p = true ->
  let q := rk4 f dt (position p) in
  Particle.update dt (total f) p =
    (Ok tt,
     Particle.mk (ptx q) (pty q) (Particle.color p)
       (Particle.trajectory p ++ [q])
       (if bool_decide (ptx q < -10) || bool_decide (ptx q > 10)
           || bool_decide (pty q < -10) || bool_decide (pty q > 10)
        then false else true)
       (Particle.id p)).
Proof.
  intros H q. remember q as q' eqn:Hq. subst q.
  unfold Particle.update, total. unfold_js. rewrite H. cbn.
  set (X := Particle.x p + _ / 6 * dt).
  set (Y := Particle.y p + _ / 6 * dt).
  assert (HX : X = ptx q') by (subst X q'; unfold rk4, position; cbn; lra).
  assert (HY : Y = pty q') by (subst Y q'; unfold rk4, position; cbn; lra).
  clearbody X Y. clear Hq. subst X Y.
  destruct q' as [qx qy]; cbn.
  destruct (bool_decide (qx < -10) || bool_decide (qx > 10)
            || bool_decide (qy < -10) || bool_decide (qy > 10));
    cbn;
    unfold Particle.set_active, Particle.set_trajectory, Particle.set_y,
      Particle.set_x; cbn; rewrite ?H; reflexivity.
Qed.

(** C2.  One integration step (an [update] of an active particle with an
    evaluator [f] and a step [dt]) moves the particle to the classical
    Runge-Kutta point [rk4 f dt p] and appends that point to the
    trajectory, whether or not the point is within bounds; the entries
    already in the trajectory stay as they were, in place. *)
Theorem update_is_rk4_and_appends
    (p : Particle.t) (f : R -> R -> vec) (dt : R)
    (Hactive : Particle.active p = true) :
  let k1 := f (Particle.x p) (Particle.y p) in
  let k2 := f (Particle.x p + dx k1 * dt / 2) (Particle.y p + dy k1 * dt / 2) in
  let k3 := f (Particle.x p + dx k2 * dt / 2) (Particle.y p + dy k2 * dt / 2) in
  let k4 := f (Particle.x p + dx k3 * dt) (Particle.y p + dy k3 * dt) in
  let x' := Particle.x p + dt * (dx k1 + 2 * dx k2 + 2 * dx k3 + dx k4) / 6 in
  let y' := Particle.y p + dt * (dy k1 + 2 * dy k2 + 2 * dy k3 + dy k4) / 6 in
  exists p' : Particle.t,
    Particle.update dt (total f) p = (Ok tt, p') /\
    Particle.x p' = x' /\
    Particle.y p' = y' /\
    Particle.trajectory p' =
      Particle.trajectory p ++ [{| ptx := x'; pty := y' |}] /\
    (forall i q, Particle.trajectory p !! i = Some q ->
                 Particle.trajectory p' !! i = Some q) /\
    length (Particle.trajectory p') = Datatypes.S (length (Particle.trajectory p)).
Proof.
  intros k1 k2 k3 k4 x' y'.
  pose proof (update_active dt f p Hactive) as Hu. cbv zeta in Hu.
  eexists. split; [exact Hu|]. cbn.
  repeat split.
  - intros i q Hi. apply lookup_app_l_Some. exact Hi.
  - rewrite length_app. cbn. lia.
Qed.

Lemma update_is_rk4_and_appends_witness :
  Particle.active sample_particle = true /\
  exists p' : Particle.t,
    Particle.update 0.05 (total oscillator) sample_particle = (Ok tt, p') /\
    length (Particle.trajectory p') = 2%nat.
Proof.
  assert (Ha : Particle.active sample_particle = true) by reflexivity.
  destruct (update_is_rk4_and_appends sample_particle oscillator 0.05 Ha)
    as (p' & Hu & _ & _ & _ & _ & Hlen).
  split; [exact Ha|]. exists p'. split; [exact Hu|exact Hlen].
Defined.

(** The bounds test of [update] is the test [|x| > 10 or |y| > 10]. *)
Lemma out_of_bounds_outside (q : point) :
  bool_decide (ptx q < -10) || bool_decide (ptx q > 10)
  || bool_decide (pty q < -10) || bool_decide (pty q > 10) = true
  <-> outside q.
Proof.
  unfold outside.
  rewrite !orb_true_iff, !bool_decide_eq_true.
  unfold Rabs. destruct (Rcase_abs (ptx q)), (Rcase_abs (pty q)); lra.
Qed.

(** C5.  After an integration step the flag [active] is [false] when the
    new position is outside the square of half-width 10 and is what it was
    otherwise; an [update] of an inactive particle changes nothing, whatever
    the evaluator; and no sequence of updates, draws and trajectory resets
    makes an inactive particle active again. *)
Theorem particle_deactivation
    (p : Particle.t) (f : R -> R -> vec) (dt : R) :
  (let p' := snd (Particle.update dt (total f) p) in
   (outside (position p') -> Particle.active p' = false) /\
   (~ outside (position p') -> Particle.active p' = Particle.active p)) /\
  (forall dt' evaluator,
     Particle.active p = false ->
     Particle.update dt' evaluator p = (Ok tt, p)) /\
  (forall ops : list particle_op,
     Particle.active p = false ->
     Particle.active (apply_ops ops p) = false).
Proof.
  split; [|split].
  - destruct (Particle.active p) eqn:Ha.
    + pose proof (update_active dt f p Ha) as Hu. cbv zeta in Hu.
      remember (rk4 f dt (position p)) as q eqn:Eq. clear Eq.
      rewrite Hu. unfold position.
      cbn [snd Particle.x Particle.y Particle.active].
      replace {| ptx := ptx q; pty := pty q |} with q by (destruct q; reflexivity).
      pose proof (out_of_bounds_outside q) as Hq.
      destruct (bool_decide (ptx q < -10) || bool_decide (ptx q > 10)
                || bool_decide (pty q < -10) || bool_decide (pty q > 10)).
      * split; [reflexivity|]. intros Hin. exfalso. apply Hin, Hq. reflexivity.
      * split; [|reflexivity]. intros Hout. apply Hq in Hout. discriminate.
    + rewrite (update_inactive dt (total f) p Ha). cbn. rewrite Ha. tauto.
  - intros dt' evaluator Ha. apply update_inactive. exact Ha.
  - intros ops. revert p. induction ops as [|op ops IH]; intros p Ha.
    + exact Ha.
    + cbn [apply_ops fold_left]. apply IH.
      destruct op as [dt' ev|wx wy|]; unfold apply_op.
      * rewrite (update_inactive dt' ev p Ha). exact Ha.
      * exact Ha.
      * exact Ha.
Qed.


(** ** The simulation tick *)

Lemma update_ext (dt : R) (ev1 ev2 : R -> R -> result vec) (p : Particle.t) :
  (forall x y, ev1 x y = ev2 x y) ->
  Particle.update dt ev1 p = Particle.update dt ev2 p.
Proof.
  intros E. unfold Particle.update. unfold_js.
  destruct (negb (Particle.active p)); [reflexivity|].
  rewrite E. destruct (ev2 _ _) as [k1| |]; try reflexivity.
  rewrite E. destruct (ev2 _ _) as [k2| |]; try reflexivity.
  rewrite E. destruct (ev2 _ _) as [k3| |]; try reflexivity.
  rewrite E. reflexivity.
Qed.

(** With an evaluator that always returns, [update] returns. *)
Lemma update_returns (dt : R) (f : R -> R -> vec) (p : Particle.t) :
  fst (Particle.update dt (total f) p) = Ok tt.
Proof.
  destruct (Particle.active p) eqn:Ha.
  - rewrite (update_active dt f p Ha). reflexivity.
  - rewrite (update_inactive dt _ p Ha). reflexivity.
Qed.

Lemma forEach_returns {S} (f : M S unit) (l : list S) :
  (forall s, fst (f s) = Ok tt) ->
  forEach f l = (Ok tt, map (fun s => snd (f s)) l).
Proof.
  intros Hf. induction l as [|s l IH]; [reflexivity|].
  cbn. specialize (Hf s). destruct (f s) as [r s']. cbn in Hf. subst r.
  rewrite IH. reflexivity.
Qed.

Lemma updateAllParticles_spec (this : visualizer) :
  updateAllParticles this =
    (Ok tt,
     set_particles
       (map (fun p => snd (Particle.update (simulationSpeed this)
                             (fun x y => evaluateSystem this x y) p))
            (particles this))
       this).
Proof.
  unfold updateAllParticles.
  rewrite forEach_returns; [reflexivity|].
  intros p.
  rewrite (update_ext _ _ (total (vectorField this)) p).
  - apply update_returns.
  - intros x y. apply evaluateSystem_vectorField.
Qed.

Lemma existsb_filter_active (l : list Particle.t) :
  (0 <? length (List.filter Particle.active l))%nat
  && existsb Particle.active (List.filter Particle.active l)
  = existsb Particle.active l.
Proof.
  induction l as [|p l IH]; [reflexivity|].
  cbn. destruct (Particle.active p) eqn:Ha; cbn.
  - rewrite Ha. reflexivity.
  - exact IH.
Qed.

(** A tick of a simulation that is not running does nothing. *)
Lemma simulateStep_not_running (this : visualizer) :
  simulationRunning this = false -> simulateStep this = (Ok tt, this).
Proof.
  intros H. unfold simulateStep. unfold_js. rewrite H. reflexivity.
Qed.

(** [startSimulation] raises the flag before the first tick. *)
Lemma startSimulation_ticks (this : visualizer) :
  simulationRunning this = false ->
  startSimulation this = simulateStep (set_simulationRunning true this)
  /\ simulationRunning (set_simulationRunning true this) = true.
Proof.
  intros H. unfold startSimulation. unfold_js. rewrite H. split; reflexivity.
Qed.

(** C8.  A tick of a running simulation updates each particle of the
    collection once, in order, each update returning normally; keeps exactly
    the particles that are active afterwards; tells the browser the new
    count and repaints; and asks for another animation frame exactly when
    some particle is still active.  Otherwise it asks for none and clears
    [simulationRunning]. *)
Theorem simulateStep_tick
    (this : visualizer) (Hrunning : simulationRunning this = true) :
  let evaluator := fun x y => evaluateSystem this x y in
  let advanced :=
    map (fun p => snd (Particle.update (simulationSpeed this) evaluator p))
        (particles this) in
  let survivors := List.filter Particle.active advanced in
  let again := existsb Particle.active advanced in
  Forall (fun p => fst (Particle.update (simulationSpeed this) evaluator p)
                   = Ok tt) (particles this) /\
  exists this' : visualizer,
    simulateStep this = (Ok tt, this') /\
    particles this' = survivors /\
    (again = true <-> exists p, In p (particles this') /\ Particle.active p = true) /\
    simulationRunning this' = again /\
    host this' =
      host this ++ [SetParticleCount (length survivors); Draw]
                ++ (if again then [RequestAnimationFrame] else []).
Proof.
  intros evaluator advanced survivors again.
  split.
  { apply Forall_forall. intros p _. subst evaluator.
    rewrite (update_ext _ _ (total (vectorField this)) p).
    - apply update_returns.
    - intros x y. apply evaluateSystem_vectorField. }
  unfold simulateStep, updateParticleCount, draw. unfold_js.
  rewrite Hrunning. cbn [negb].
  rewrite updateAllParticles_spec. fold evaluator. fold advanced.
  cbn. fold survivors.
  assert (Hc : (0 <? length survivors)%nat && existsb Particle.active survivors
               = again) by apply existsb_filter_active.
  cbn in Hc. rewrite Hc. unfold modify.
  assert (Hiff : again = true <->
                 exists p, In p survivors /\ Particle.active p = true).
  { subst again survivors. rewrite existsb_exists. split.
    - intros (p & Hin & Ha). exists p. split; [|exact Ha].
      apply filter_In. split; assumption.
    - intros (p & Hin & Ha). exists p. split; [|exact Ha].
      apply filter_In in Hin. tauto. }
  destruct again; eexists; (split; [reflexivity|]); cbn;
    (split; [reflexivity|]); (split; [exact Hiff|]).
  - split; [exact Hrunning|].
    rewrite <- !app_assoc. reflexivity.
  - split; [reflexivity|].
    rewrite <- !app_assoc. reflexivity.
Qed.

Lemma simulateStep_tick_witness :
  simulationRunning loaded = true /\
  exists this' : visualizer, simulateStep loaded = (Ok tt, this').
Proof.
  assert (Hr : simulationRunning loaded = true) by reflexivity.
  destruct (simulateStep_tick loaded Hr) as (_ & this' & Hs & _).
  split; [exact Hr|]. exists this'. exact Hs.
Defined.

(** ** Replacing the system *)

Ltac caught e :=
  cbn; unfold after_update, alert_of, modify;
  destruct (instanceof_SyntaxError e); reflexivity.

(** [updateSystem] always returns, and leaves the state its stage names. *)
Lemma updateSystem_stage (math : option mathjs)
    (JSON_parse : string -> completion json) (trim : string -> string)
    (dxdtInput dydtInput parametersInput : string) (this : visualizer) :
  updateSystem math JSON_parse trim dxdtInput dydtInput parametersInput this =
    (Ok tt,
     after_update
       (update_stage_of math JSON_parse trim dxdtInput dydtInput parametersInput)
       dxdtInput dydtInput this).
Proof.
  unfold updateSystem, update_stage_of, parseParameters, compileEquation.
  destruct math as [math_|]; [|reflexivity].
  unfold updateParameterDisplay, renderEquations, clearParticles,
    updateParticleCount, draw.
  unfold_js.
  destruct (truthy (trim parametersInput)).
  - destruct (JSON_parse parametersInput) as [p|e]; [|caught e].
    destruct (parse math_ dxdtInput) as [n1|e]; [|caught e].
    destruct (compile n1) as [f|e]; [|caught e].
    destruct (parse math_ dydtInput) as [n2|e]; [|caught e].
    destruct (compile n2) as [g|e]; [|caught e].
    destruct p; reflexivity.
  - destruct (parse math_ dxdtInput) as [n1|e]; [|caught e].
    destruct (compile n1) as [f|e]; [|caught e].
    destruct (parse math_ dydtInput) as [n2|e]; [|caught e].
    destruct (compile n2) as [g|e]; [|caught e].
    reflexivity.
Qed.

(** C6.  The code departs from the claim at this input.  In the session
    [loaded] (parameters [{mu: 1}], one particle) the user replaces the dx
    equation by the text [y +], which does not compile, and the parameter
    text by [{}].  The update fails: it ends in the alert, the equations and
    the particle are the old ones.  But the parameter mapping of the system
    is no longer the one it was: it was assigned before the equation was
    compiled, and nothing restores it. *)
Lemma failed_update_replaces_parameters :
  let stage :=
    update_stage_of (Some sample_math) sample_JSON_parse sample_trim
      "y +" "mu * y" "{}" in
  let this' :=
    snd (updateSystem (Some sample_math) sample_JSON_parse sample_trim
           "y +" "mu * y" "{}" loaded) in
  failed stage /\
  host this'
  = host loaded
    ++ [Alert ("Error parsing parameters JSON. Please check your JSON syntax."
               ++ newline ++ "Error: Unexpected end of expression")] /\
  dxdt this' = dxdt loaded /\ dydt this' = dydt loaded /\
  particles this' = particles loaded /\
  parameters loaded = JObj {[ "mu" := JNum 1 ]} /\
  parameters this' = JObj ∅ /\
  parameters this' <> parameters loaded.
Proof.
  cbv zeta. rewrite updateSystem_stage.
  assert (Hs : update_stage_of (Some sample_math) sample_JSON_parse sample_trim
                 "y +" "mu * y" "{}"
               = DxFailed (JObj ∅) (SyntaxError "Unexpected end of expression"))
    by reflexivity.
  rewrite Hs. cbn [snd after_update failed].
  split; [exact I|]. split; [reflexivity|]. split; [reflexivity|].
  split; [reflexivity|]. split; [reflexivity|]. split; [reflexivity|].
  split; [reflexivity|].
  cbn. intros H.
  apply (f_equal (fun v : json => own_props v !! "mu")) in H.
  cbn in H. rewrite lookup_empty, lookup_singleton_eq in H. discriminate.
Qed.

(** The failures that come before the first assignment leave the system as
    it was: math.js missing, or a parameter text that does not parse. *)
Lemma early_failure_keeps_system
    (math : option mathjs) (JSON_parse : string -> completion json)
    (trim : string -> string)
    (dxdtInput dydtInput parametersInput : string) (this : visualizer) :
  match update_stage_of math JSON_parse trim
          dxdtInput dydtInput parametersInput with
  | MathMissing | ParametersFailed _ =>
      let this' :=
        snd (updateSystem math JSON_parse trim
               dxdtInput dydtInput parametersInput this) in
      dxdt this' = dxdt this /\ dydt this' = dydt this /\
      parameters this' = parameters this /\ particles this' = particles this
  | _ => True
  end.
Proof.
  rewrite updateSystem_stage.
  destruct (update_stage_of _ _ _ _ _ _) as [|e|p e|p f e|f g|p f g];
    try exact I; cbn; unfold alert_of; try destruct (instanceof_SyntaxError e);
    repeat split.
Qed.

Lemma not_failed_succeeded (s : update_stage) :
  ~ failed s -> exists p f g, s = Succeeded p f g.
Proof.
  destruct s as [|e|p e|p f e|f g|p f g]; cbn; intros H;
    try (exfalso; apply H; exact I).
  exists p, f, g. reflexivity.
Qed.

(** An update that goes through to its end installs the parsed parameters
    and the two compiled equations and ends with [clearParticles]: it
    leaves the collection empty, whatever the collection held before. *)
Lemma succeeded_update_clears_particles
    (math : option mathjs) (JSON_parse : string -> completion json)
    (trim : string -> string)
    (dxdtInput dydtInput parametersInput : string) (this : visualizer)
    (Hdone : ~ failed (update_stage_of math JSON_parse trim
                         dxdtInput dydtInput parametersInput)) :
  exists this' : visualizer,
    updateSystem math JSON_parse trim dxdtInput dydtInput parametersInput this
      = (Ok tt, this') /\
    particles this' = [] /\
    exists (p : json) (f g : compiled),
      update_stage_of math JSON_parse trim dxdtInput dydtInput parametersInput
        = Succeeded p f g /\
      parameters this' = p /\ dxdt this' = Some f /\ dydt this' = Some g /\
      host this' =
        host this ++ [SetParameterDisplay p;
                      RenderEquations dxdtInput dydtInput;
                      SetParticleCount 0; Draw].
Proof.
  eexists. split; [apply updateSystem_stage|].
  destruct (not_failed_succeeded _ Hdone) as (p & f & g & Hs).
  rewrite Hs. cbn. split; [reflexivity|].
  exists p, f, g. repeat split.
  rewrite <- !app_assoc. reflexivity.
Qed.

(** C7.  The code departs from the claim at this input.  In the session
    [loaded] (equations [y] and [mu * y], parameters [{mu: 1}], one
    particle) the user enters the equations [y] and [-x] and the parameter
    text [null].  The update replaces the system, all three parts of it:
    both new equations are compiled and installed, and the parameters are
    [null].  Then [updateParameterDisplay] throws, the alert is raised, and
    [clearParticles] is not reached: the particle computed under the old
    system is still in the collection. *)
Lemma replaced_system_keeps_particles :
  let this' :=
    snd (updateSystem (Some sample_math) sample_JSON_parse sample_trim
           "y" "-x" "null" loaded) in
  dxdt loaded = Some expr_y /\ dydt loaded = Some expr_mu_y /\
  parameters loaded = JObj {[ "mu" := JNum 1 ]} /\
  dxdt this' = Some expr_y /\ dydt this' = Some expr_neg_x /\
  parameters this' = JNull /\
  host this'
  = host loaded
    ++ [Alert ("Error parsing equations. Please check your syntax."
               ++ newline
               ++ "Error: Cannot convert undefined or null to object")] /\
  particles loaded = [sample_particle] /\
  particles this' = [sample_particle] /\
  particles this' <> [].
Proof.
  cbv zeta. rewrite updateSystem_stage.
  assert (Hs : update_stage_of (Some sample_math) sample_JSON_parse sample_trim
                 "y" "-x" "null"
               = DisplayFailed expr_y expr_neg_x) by reflexivity.
  rewrite Hs. cbn [snd after_update].
  split; [reflexivity|]. split; [reflexivity|]. split; [reflexivity|].
  split; [reflexivity|]. split; [reflexivity|]. split; [reflexivity|].
  split; [reflexivity|]. split; [reflexivity|]. split; [reflexivity|].
  discriminate.
Qed.

(** ** Sampling the field *)

(** A loop whose body always returns runs its body on the indices
    [start], ..., [start + count - 1], one after the other. *)
Lemma for_from_fold {S} (body : nat -> M S unit) (g : nat -> S -> S)
    (count start : nat) (s : S) :
  (forall i s0, body i s0 = (Ok tt, g i s0)) ->
  for_from count start body s
  = (Ok tt, fold_left (fun s0 i => g i s0) (seq start count) s).
Proof.
  intros Hbody. revert start s.
  induction count as [|count IH]; intros start s; [reflexivity|].
  cbn. unfold bind. rewrite Hbody. apply IH.
Qed.

(** When each run of the body only adds calls to the drawing context, the
    loop adds them in the order of the indices. *)
Lemma fold_left_append {A} (out : nat -> list A) (l : list nat) (c : list A) :
  fold_left (fun c0 i => c0 ++ out i) l c = c ++ flat_map out l.
Proof.
  revert c. induction l as [|i l IH]; intros c; cbn.
  - rewrite app_nil_r. reflexivity.
  - rewrite IH, <- app_assoc. reflexivity.
Qed.

Lemma for_upto_append (body : nat -> M (list canvas_op) unit)
    (out : nat -> list canvas_op) (n : nat) (c : list canvas_op) :
  (forall i c0, body i c0 = (Ok tt, c0 ++ out i)) ->
  for_upto n body c = (Ok tt, c ++ flat_map out (seq 0 (Datatypes.S n))).
Proof.
  intros Hbody. unfold for_upto.
  rewrite (for_from_fold body (fun i c0 => c0 ++ out i)); [|exact Hbody].
  rewrite fold_left_append. reflexivity.
Qed.

Lemma flat_map_map {A B C} (f : B -> list C) (g : A -> B) (l : list A) :
  flat_map f (map g l) = flat_map (fun a => f (g a)) l.
Proof.
  induction l as [|a l IH]; [reflexivity|]. cbn. rewrite IH. reflexivity.
Qed.

Lemma flat_map_flat_map {A B C} (f : B -> list C) (h : A -> list B)
    (l : list A) :
  flat_map f (flat_map h l) = flat_map (fun a => flat_map f (h a)) l.
Proof.
  induction l as [|a l IH]; [reflexivity|].
  cbn. rewrite flat_map_app, IH. reflexivity.
Qed.


Lemma magnitude_nonneg (v : vec) : 0 <= magnitude v.
Proof. apply sqrt_pos. Qed.

Lemma magnitude_zero_iff (v : vec) : magnitude v = 0 <-> dx v = 0 /\ dy v = 0.
Proof.
  unfold magnitude. split.
  - intros H. apply sqrt_eq_0 in H; nra.
  - intros [-> ->]. replace (0 * 0 + 0 * 0) with 0 by lra. apply sqrt_0.
Qed.


(** What [drawFlowField] adds to the drawing context. *)
Lemma drawFlowField_spec (this : visualizer) (c : list canvas_op) :
  drawFlowField this c
  = (Ok tt,
     c ++ [SetStrokeStyle (arrowColor this); SetLineWidth 1.5]
       ++ flat_map (arrowAt this) (candidates this)).
Proof.
  unfold drawFlowField, ctx_call. unfold_js.
  rewrite (for_upto_append _
             (fun i => flat_map (fun j => arrowAt this (gridPoint this (i, j)))
                                (seq 0 (Datatypes.S (gridDensity this))))).
  - f_equal. rewrite <- !app_assoc. cbn [app]. do 3 f_equal.
    unfold candidates, gridIndices.
    rewrite flat_map_map, flat_map_flat_map.
    apply flat_map_ext. intros i. rewrite flat_map_map. reflexivity.
  - intros i c0.
    rewrite (for_upto_append _
               (fun j => arrowAt this (gridPoint this (i, j)))); [reflexivity|].
    intros j c1. rewrite evaluateSystem_vectorField.
    unfold arrowAt, gridPoint, normalized. cbn [fst snd ptx pty dx dy].
    fold (magnitude (vectorField this
        (xMin this + INR i * ((xMax this - xMin this) / INR (gridDensity this)))
        (yMin this + INR j * ((yMax this - yMin this) / INR (gridDensity this))))).
    set (v := vectorField this _ _).
    pose proof (magnitude_nonneg v) as Hm.
    destruct (decide (magnitude v = 0)) as [Hz|Hnz].
    + rewrite bool_decide_eq_false_2 by lra. rewrite app_nil_r. reflexivity.
    + rewrite bool_decide_eq_true_2 by lra. reflexivity.
Qed.






(** ** Nullclines *)


Lemma INR_200 : INR 200 = 200.
Proof. rewrite INR_IZR_INZ. reflexivity. Qed.

(** A loop that ends after a round more has passed its test now. *)
Lemma ends_after_S (add : R -> R -> R) (n : nat) (v limit step : R) :
  ends_after add (Datatypes.S n) v limit step
  <-> v <= limit /\ ends_after add n (add v step) limit step.
Proof. reflexivity. Qed.

(** In exact arithmetic a counter that reaches its limit after [m] steps
    makes [m + 1] rounds. *)
Lemma ends_after_exact_from (n : nat) (v limit step : R) :
  0 < step -> limit < v + INR n * step ->
  (n = 0%nat \/ v + INR (n - 1) * step <= limit) ->
  ends_after Rplus n v limit step.
Proof.
  intros Hstep. revert v. induction n as [|n IH]; intros v Hpast Hlast.
  - cbn [ends_after]. cbn [INR] in Hpast. lra.
  - destruct Hlast as [Hlast|Hlast]; [discriminate|].
    replace (Datatypes.S n - 1)%nat with n in Hlast by lia.
    rewrite S_INR in Hpast. pose proof (pos_INR n) as Hn.
    cbn [ends_after]. split; [nra|].
    apply IH; [lra|].
    destruct n as [|n]; [left; reflexivity|right].
    replace (Datatypes.S n - 1)%nat with n by lia.
    rewrite S_INR in Hlast. lra.
Qed.

Lemma ends_after_exact (m : nat) (start limit : R) :
  start < limit -> (0 < m)%nat ->
  ends_after Rplus (Datatypes.S m) start limit ((limit - start) / INR m).
Proof.
  intros Hlt Hm.
  assert (Hpos : 0 < INR m) by (apply lt_0_INR; exact Hm).
  assert (Hstep : 0 < (limit - start) / INR m)
    by (apply Rdiv_lt_0_compat; lra).
  assert (Hreach : start + INR m * ((limit - start) / INR m) = limit)
    by (field; lra).
  apply ends_after_exact_from; [exact Hstep| |].
  - rewrite S_INR. lra.
  - right. replace (Datatypes.S m - 1)%nat with m by lia. lra.
Qed.


Lemma plot_hit (this : visualizer) (s : path_state) (x y : R) :
  (started <~ gets pathStarted;;
   if negb started then
     (path_call (MoveTo (worldToCanvasX this x) (worldToCanvasY this y));;;
      set_pathStarted true)
   else path_call (LineTo (worldToCanvasX this x) (worldToCanvasY this y)))%js s
  = (Ok tt, plot this s {| ptx := x; pty := y |}).
Proof.
  unfold plot, path_call, set_pathStarted, lineTo. unfold_js.
  destruct s as [[|] c]; reflexivity.
Qed.


(** On a viewport with [yMin = yMax] the step is zero: where adding zero
    leaves the counter as it is, a column without a hit at [yMin] is
    scanned for ever, whatever the fuel. *)
Lemma scanColumn_degenerate (add : R -> R -> R) (this : visualizer)
    (isDxDt : bool) (x : R) (fuel : nat) (s : path_state) :
  yMin this = yMax this ->
  add (yMin this) 0 = yMin this ->
  nearZero this isDxDt x (yMin this) = false ->
  scanColumn add fuel this isDxDt x (yMin this) s = (OutOfFuel, s).
Proof.
  intros Heq Hzero Hmiss. induction fuel as [|fuel IH]; [reflexivity|].
  cbn [scanColumn].
  rewrite bool_decide_eq_true_2 by lra.
  unfold nearZero in Hmiss. rewrite evaluateSystem_vectorField in Hmiss.
  unfold bind at 1. unfold call at 1. rewrite evaluateSystem_vectorField.
  fold (component isDxDt (vectorField this x (yMin this))).
  rewrite Hmiss.
  replace ((yMax this - yMin this) / 100) with 0 by lra.
  rewrite Hzero. exact IH.
Qed.

(** A hit at the value the loop is entered with is plotted, and the scan
    of the column ends there. *)
Lemma scanColumn_first_hit (add : R -> R -> R) (this : visualizer)
    (isDxDt : bool) (x y : R) (fuel : nat) (s : path_state) :
  nearZero this isDxDt x y = true -> y <= yMax this ->
  scanColumn add (Datatypes.S fuel) this isDxDt x y s
  = (Ok tt, plot this s {| ptx := x; pty := y |}).
Proof.
  intros Hhit Hy. cbn [scanColumn].
  rewrite bool_decide_eq_true_2 by exact Hy.
  unfold nearZero in Hhit. rewrite evaluateSystem_vectorField in Hhit.
  unfold bind at 1. unfold call at 1. rewrite evaluateSystem_vectorField.
  fold (component isDxDt (vectorField this x y)).
  rewrite Hhit. apply plot_hit.
Qed.



Lemma plot_all_started (this : visualizer) (pts : list point) (c : list canvas_op) :
  fold_left (plot this) pts {| pathStarted := true; ctx := c |}
  = {| pathStarted := true; ctx := c ++ map (lineTo this) pts |}.
Proof.
  revert c. induction pts as [|q pts IH]; intros c; cbn [fold_left map].
  - rewrite app_nil_r. reflexivity.
  - unfold plot at 2. cbn [pathStarted ctx].
    rewrite IH, <- app_assoc. reflexivity.
Qed.

Lemma plot_all (this : visualizer) (pts : list point) (c : list canvas_op) :
  fold_left (plot this) pts {| pathStarted := false; ctx := c |}
  = {| pathStarted := match pts with [] => false | _ => true end;
       ctx := c ++ polyline this pts |}.
Proof.
  destruct pts as [|q pts]; cbn [fold_left polyline].
  - rewrite app_nil_r. reflexivity.
  - unfold plot at 2. cbn [pathStarted ctx].
    rewrite plot_all_started, <- app_assoc. reflexivity.
Qed.



Lemma nearZero_true (this : visualizer) (isDxDt : bool) (x y : R) :
  nearZero this isDxDt x y = true <->
  exists v, evaluateSystem this x y = Ok v /\ Rabs (component isDxDt v) < 0.05.
Proof.
  unfold nearZero. rewrite evaluateSystem_vectorField. split.
  - intros H. apply bool_decide_eq_true in H. eexists. split; [reflexivity|exact H].
  - intros (v & Hv & Hlt). injection Hv as <-. apply bool_decide_eq_true. exact Hlt.
Qed.




(** ** Before the first update *)

Lemma flat_map_nil {A B} (f : A -> list B) (l : list A) :
  (forall a, f a = []) -> flat_map f l = [].
Proof.
  intros Hf. induction l as [|a l IH]; [reflexivity|].
  cbn. rewrite Hf, IH. reflexivity.
Qed.

(** C10.  While either compiled expression is still [null], the evaluator
    returns the zero vector at every point; sampling the field then draws
    no arrow, and an integration step leaves a particle where it is. *)
Theorem evaluateSystem_before_first_update
    (this : visualizer)
    (Hnull : dxdt this = None \/ dydt this = None) :
  (forall x y : R, evaluateSystem this x y = Ok {| dx := 0; dy := 0 |}) /\
  (forall c : list canvas_op,
     drawFlowField this c
     = (Ok tt, c ++ [SetStrokeStyle (arrowColor this); SetLineWidth 1.5])) /\
  (forall (dt : R) (p : Particle.t),
     Particle.active p = true ->
     exists p' : Particle.t,
       Particle.update dt (fun x y => evaluateSystem this x y) p = (Ok tt, p') /\
       Particle.x p' = Particle.x p /\ Particle.y p' = Particle.y p).
Proof.
  split; [|split].
  - intros x y. rewrite evaluateSystem_vectorField.
    rewrite (vectorField_before_first_update this x y Hnull). reflexivity.
  - intros c. rewrite drawFlowField_spec. rewrite flat_map_nil.
    + reflexivity.
    + intros q. unfold arrowAt.
      rewrite (vectorField_before_first_update this _ _ Hnull).
      destruct (decide (magnitude zero = 0)) as [_|Hnz]; [reflexivity|].
      exfalso. apply Hnz. apply magnitude_zero_iff. split; reflexivity.
  - intros dt p Ha.
    rewrite (update_ext dt _ (total (fun _ _ => zero)) p).
    + rewrite (update_active dt _ p Ha). cbv zeta.
      eexists. split; [reflexivity|].
      unfold rk4, position, zero. cbn. split; field.
    + intros x y. rewrite evaluateSystem_vectorField.
      rewrite (vectorField_before_first_update this x y Hnull). reflexivity.
Qed.

Lemma evaluateSystem_before_first_update_witness :
  (dxdt (constructor 800 600) = None \/ dydt (constructor 800 600) = None) /\
  evaluateSystem (constructor 800 600) 1 2 = Ok {| dx := 0; dy := 0 |}.
Proof.
  assert (Hnull : dxdt (constructor 800 600) = None
                  \/ dydt (constructor 800 600) = None)
    by (left; reflexivity).
  split; [exact Hnull|].
  exact (proj1 (evaluateSystem_before_first_update (constructor 800 600) Hnull)
           1 2).
Defined.

(** * Further properties *)

(** ** Particles *)

(** X1.  [update] assigns nothing before its four evaluations are done: when
    the call does not return normally (the evaluator threw, at whichever of
    the four stages), the particle is exactly what it was. *)
Theorem update_all_or_nothing
    (dt : R) (evaluator : R -> R -> result vec) (p : Particle.t)
    (Hfail : fst (Particle.update dt evaluator p) <> Ok tt) :
  snd (Particle.update dt evaluator p) = p.
Proof.
  revert Hfail. unfold Particle.update. unfold_js.
  destruct (negb (Particle.active p)); [reflexivity|].
  destruct (evaluator _ _) as [k1| |]; try reflexivity.
  destruct (evaluator _ _) as [k2| |]; try reflexivity.
  destruct (evaluator _ _) as [k3| |]; try reflexivity.
  destruct (evaluator _ _) as [k4| |]; try reflexivity.
  cbn. intros Hfail. exfalso. apply Hfail.
  destruct (bool_decide _ || bool_decide _ || bool_decide _ || bool_decide _);
    reflexivity.
Qed.

Lemma update_all_or_nothing_witness :
  fst (Particle.update 0.05 (broken (Error "Undefined symbol mu")) sample_particle)
    <> Ok tt /\
  snd (Particle.update 0.05 (broken (Error "Undefined symbol mu")) sample_particle)
    = sample_particle.
Proof.
  assert (Hfail : fst (Particle.update 0.05
                         (broken (Error "Undefined symbol mu")) sample_particle)
                  <> Ok tt) by (cbn; discriminate).
  split; [exact Hfail|].
  exact (update_all_or_nothing 0.05 _ sample_particle Hfail).
Defined.

(** X2.  A particle that sits on a fixed point of the field does not move:
    the step returns, the position is the same, and the same position is
    appended to the trajectory once more. *)
Theorem update_at_fixed_point
    (dt : R) (f : R -> R -> vec) (p : Particle.t)
    (Hactive : Particle.active p = true)
    (Hfixed : f (Particle.x p) (Particle.y p) = {| dx := 0; dy := 0 |}) :
  exists p' : Particle.t,
    Particle.update dt (total f) p = (Ok tt, p') /\
    Particle.x p' = Particle.x p /\ Particle.y p' = Particle.y p /\
    Particle.trajectory p' = Particle.trajectory p ++ [position p].
Proof.
  assert (Hq : rk4 f dt (position p) = position p).
  { unfold rk4, position. cbn [ptx pty]. rewrite Hfixed. cbn [dx dy].
    replace (Particle.x p + 0 * dt / 2) with (Particle.x p) by lra.
    replace (Particle.y p + 0 * dt / 2) with (Particle.y p) by lra.
    rewrite Hfixed. cbn [dx dy].
    replace (Particle.x p + 0 * dt / 2) with (Particle.x p) by lra.
    replace (Particle.y p + 0 * dt / 2) with (Particle.y p) by lra.
    rewrite Hfixed. cbn [dx dy].
    replace (Particle.x p + 0 * dt) with (Particle.x p) by lra.
    replace (Particle.y p + 0 * dt) with (Particle.y p) by lra.
    rewrite Hfixed. cbn [dx dy]. f_equal; lra. }
  pose proof (update_active dt f p Hactive) as Hu. cbv zeta in Hu.
  rewrite Hq in Hu. eexists. split; [exact Hu|]. cbn. repeat split.
Qed.

Lemma update_at_fixed_point_witness :
  Particle.active (Particle.constructor 0 0 "#e74c3c" 0) = true /\
  oscillator 0 0 = {| dx := 0; dy := 0 |} /\
  exists p' : Particle.t,
    Particle.update 0.05 (total oscillator) (Particle.constructor 0 0 "#e74c3c" 0)
      = (Ok tt, p') /\
    Particle.x p' = 0 /\ Particle.y p' = 0.
Proof.
  assert (Ha : Particle.active (Particle.constructor 0 0 "#e74c3c" 0) = true)
    by reflexivity.
  assert (Hf : oscillator (Particle.x (Particle.constructor 0 0 "#e74c3c" 0))
                          (Particle.y (Particle.constructor 0 0 "#e74c3c" 0))
               = {| dx := 0; dy := 0 |})
    by (unfold oscillator; cbn; f_equal; lra).
  destruct (update_at_fixed_point 0.05 oscillator _ Ha Hf)
    as (p' & Hu & Hx & Hy & _).
  split; [exact Ha|]. split; [exact Hf|].
  exists p'. split; [exact Hu|]. split; [exact Hx|exact Hy].
Defined.

(** One Runge-Kutta step in a rotation field scales the squared distance
    from the origin by [1 - t^6/72 + t^8/576], [t = omega * dt]. *)
Lemma rk4_rotation_radius (omega dt : R) (q : point) :
  let q' := rk4 (rotation omega) dt q in
  ptx q' * ptx q' + pty q' * pty q'
  = (ptx q * ptx q + pty q * pty q)
    * (1 - (omega * dt) ^ 6 / 72 + (omega * dt) ^ 8 / 576).
Proof. unfold rk4, rotation. cbn. field. Qed.

(** The squared distance after a step in a rotation field. *)
Lemma rotation_step_radius
    (omega dt : R) (p : Particle.t)
    (Hactive : Particle.active p = true) :
  let p' := snd (Particle.update dt (total (rotation omega)) p) in
  radius2 p'
  = radius2 p * (1 - (omega * dt) ^ 6 / 72 + (omega * dt) ^ 8 / 576) /\
  ((omega * dt) ^ 2 <= 8 -> 0 <= radius2 p' <= radius2 p).
Proof.
  intros p'. subst p'.
  rewrite (update_active dt (rotation omega) p Hactive). cbv zeta.
  unfold radius2. cbn [snd Particle.x Particle.y].
  pose proof (rk4_rotation_radius omega dt (position p)) as Hr.
  cbv zeta in Hr.
  change (ptx (position p)) with (Particle.x p) in Hr.
  change (pty (position p)) with (Particle.y p) in Hr.
  split; [exact Hr|].
  intros Ht. rewrite Hr.
  set (r := Particle.x p * Particle.x p + Particle.y p * Particle.y p).
  assert (Hr0 : 0 <= r) by (subst r; nra).
  set (t2 := (omega * dt) ^ 2) in *.
  assert (Ht0 : 0 <= t2) by (subst t2; apply pow2_ge_0).
  replace ((omega * dt) ^ 6) with (t2 * t2 * t2) by (subst t2; ring).
  replace ((omega * dt) ^ 8) with (t2 * t2 * t2 * t2) by (subst t2; ring).
  clearbody t2 r. clear Hr.
  assert (Hc : 0 <= t2 * t2 * t2)
    by (apply Rmult_le_pos; [apply Rmult_le_pos|]; exact Ht0).
  assert (Hfac : 0 <= 1 - t2 * t2 * t2 / 72 + t2 * t2 * t2 * t2 / 576 <= 1).
  { split.
    - (* (1 - t2/2 + t2^2/24)^2 + t2 (1 - t2/6)^2 *)
      replace (1 - t2 * t2 * t2 / 72 + t2 * t2 * t2 * t2 / 576)
        with ((1 - t2 / 2 + t2 * t2 / 24) * (1 - t2 / 2 + t2 * t2 / 24)
              + t2 * ((1 - t2 / 6) * (1 - t2 / 6))) by field.
      pose proof (Rle_0_sqr (1 - t2 / 2 + t2 * t2 / 24)) as Ha.
      pose proof (Rle_0_sqr (1 - t2 / 6)) as Hb.
      unfold Rsqr in Ha, Hb.
      pose proof (Rmult_le_pos _ _ Ht0 Hb). lra.
    - assert (0 <= t2 * t2 * t2 * (8 - t2)) by (apply Rmult_le_pos; lra).
      lra. }
  destruct Hfac as [Hf0 Hf1].
  split.
  - apply Rmult_le_pos; assumption.
  - rewrite <- (Rmult_1_r r) at 2. apply Rmult_le_compat_l; assumption.
Qed.

(** X3.  In a rotation field (the harmonic oscillator among them) an
    integration step multiplies the squared distance of the particle from
    the origin by [1 - t^6/72 + t^8/576] with [t = omega * dt]: the
    integrator neither keeps the orbit exactly nor lets it grow while
    [t^2 <= 8]. *)
Theorem update_rotation_radius
    (omega dt : R) (p : Particle.t)
    (Hactive : Particle.active p = true) :
  let p' := snd (Particle.update dt (total (rotation omega)) p) in
  radius2 p'
  = radius2 p * (1 - (omega * dt) ^ 6 / 72 + (omega * dt) ^ 8 / 576) /\
  ((omega * dt) ^ 2 <= 8 -> 0 <= radius2 p' <= radius2 p).
Proof. exact (rotation_step_radius omega dt p Hactive). Qed.

Lemma update_rotation_radius_witness :
  Particle.active sample_particle = true /\
  radius2 (snd (Particle.update 0.05 (total (rotation (-1))) sample_particle))
  = radius2 sample_particle
    * (1 - (-1 * 0.05) ^ 6 / 72 + (-1 * 0.05) ^ 8 / 576).
Proof.
  assert (Ha : Particle.active sample_particle = true) by reflexivity.
  split; [exact Ha|].
  exact (proj1 (update_rotation_radius (-1) 0.05 sample_particle Ha)).
Defined.


(** The flag after a step, read off the new position. *)
Lemma particle_deactivation_aux (dt : R) (f : R -> R -> vec) (p : Particle.t) :
  let p' := snd (Particle.update dt (total f) p) in
  (outside (position p') -> Particle.active p' = false) /\
  (~ outside (position p') -> Particle.active p' = Particle.active p).
Proof.
  destruct (Particle.active p) eqn:Ha.
  - pose proof (update_active dt f p Ha) as Hu. cbv zeta in Hu.
    remember (rk4 f dt (position p)) as q eqn:Eq. clear Eq.
    cbv zeta. rewrite Hu. unfold position.
    cbn [snd Particle.x Particle.y Particle.active].
    replace {| ptx := ptx q; pty := pty q |} with q by (destruct q; reflexivity).
    pose proof (out_of_bounds_outside q) as Hq.
    destruct (bool_decide (ptx q < -10) || bool_decide (ptx q > 10)
              || bool_decide (pty q < -10) || bool_decide (pty q > 10)).
    + split; [reflexivity|]. intros Hin. exfalso. apply Hin, Hq. reflexivity.
    + split; [|reflexivity]. intros Hout. apply Hq in Hout. discriminate.
  - cbv zeta. rewrite (update_inactive dt (total f) p Ha). cbn. rewrite Ha. tauto.
Qed.




Lemma update_keeps_trajectory_end (dt : R) (evaluator : R -> R -> result vec)
    (p : Particle.t) :
  trajectory_ends_here p ->
  trajectory_ends_here (snd (Particle.update dt evaluator p)).
Proof.
  intros Hp. unfold Particle.update. unfold_js.
  destruct (negb (Particle.active p)); [exact Hp|].
  destruct (evaluator _ _) as [k1| |]; try exact Hp.
  destruct (evaluator _ _) as [k2| |]; try exact Hp.
  destruct (evaluator _ _) as [k3| |]; try exact Hp.
  destruct (evaluator _ _) as [k4| |]; try exact Hp.
  cbn.
  destruct (bool_decide _ || bool_decide _ || bool_decide _ || bool_decide _);
    cbn; unfold trajectory_ends_here, position; cbn; apply last_snoc.
Qed.

(** X5.  From its construction on, the last entry of a particle's
    trajectory is the particle's current position (so the trajectory is
    never empty): the constructor sets this up, and every update (with any
    evaluator, throwing ones included), every draw and every trajectory
    reset keeps it. *)
Theorem trajectory_ends_at_position
    (x0 y0 fresh : R) (color0 : string) (ops : list particle_op) :
  trajectory_ends_here
    (apply_ops ops (Particle.constructor x0 y0 color0 fresh)).
Proof.
  assert (H0 : trajectory_ends_here (Particle.constructor x0 y0 color0 fresh))
    by reflexivity.
  revert H0. generalize (Particle.constructor x0 y0 color0 fresh).
  induction ops as [|op ops IH]; intros p Hp; [exact Hp|].
  cbn [apply_ops fold_left]. apply IH.
  destruct op as [dt ev|wx wy|]; unfold apply_op.
  - apply update_keeps_trajectory_end. exact Hp.
  - exact Hp.
  - reflexivity.
Qed.

Lemma flat_map_nil_in {A B} (f : A -> list B) (l : list A) :
  Forall (fun a => f a = []) l -> flat_map f l = [].
Proof.
  induction 1 as [|a l Ha _ IH]; [reflexivity|].
  cbn. rewrite Ha, IH. reflexivity.
Qed.

(** X6.  A particle whose trajectory has a single point is not painted at
    all, not even as a dot: this is so for a particle just constructed, and
    for every particle right after [clearTrajectories], active or not. *)
Theorem nothing_painted_after_clearTrajectories
    (this : visualizer) (wx wy : R -> R) :
  (forall x0 y0 color0 fresh,
     Particle.draw wx wy (Particle.constructor x0 y0 color0 fresh) = []) /\
  exists this' : visualizer,
    clearTrajectories this = (Ok tt, this') /\
    length (particles this') = length (particles this) /\
    Forall (fun p => Particle.draw wx wy p = []) (particles this') /\
    flat_map (Particle.draw wx wy) (particles this') = [].
Proof.
  split; [reflexivity|].
  eexists. split; [reflexivity|]. cbn.
  split; [apply length_map|].
  assert (HF : Forall (fun p => Particle.draw wx wy p = [])
                 (map resetTrajectory (particles this))).
  { induction (particles this) as [|p0 l IH]; constructor;
      [reflexivity|exact IH]. }
  split; [exact HF|].
  apply flat_map_nil_in. exact HF.
Qed.

(** ** Projections and scopes *)

Lemma worldToCanvasX_linear (this : visualizer) (x : R) :
  xMin this < xMax this ->
  worldToCanvasX this x
  = (x - xMin this) * (canvasWidth this / (xMax this - xMin this)).
Proof. intros H. unfold worldToCanvasX. field. lra. Qed.

Lemma worldToCanvasY_linear (this : visualizer) (y : R) :
  yMin this < yMax this ->
  worldToCanvasY this y
  = canvasHeight this
    - (y - yMin this) * (canvasHeight this / (yMax this - yMin this)).
Proof. intros H. unfold worldToCanvasY. field. lra. Qed.

(** X7.  On a viewport with [xMin < xMax], [yMin < yMax] and a canvas of
    positive size, the projection sends the corners of the viewport to the
    corners of the canvas with the y axis flipped, is increasing in x and
    decreasing in y, and sends a coordinate inside the viewport, and no
    other, inside the canvas. *)
Theorem viewport_fills_canvas
    (this : visualizer) (x x' y y' : R)
    (Hx : xMin this < xMax this) (Hy : yMin this < yMax this)
    (Hw : 0 < canvasWidth this) (Hh : 0 < canvasHeight this) :
  worldToCanvasX this (xMin this) = 0 /\
  worldToCanvasX this (xMax this) = canvasWidth this /\
  worldToCanvasY this (yMin this) = canvasHeight this /\
  worldToCanvasY this (yMax this) = 0 /\
  (x < x' <-> worldToCanvasX this x < worldToCanvasX this x') /\
  (y < y' <-> worldToCanvasY this y' < worldToCanvasY this y) /\
  (xMin this <= x <= xMax this
   <-> 0 <= worldToCanvasX this x <= canvasWidth this) /\
  (yMin this <= y <= yMax this
   <-> 0 <= worldToCanvasY this y <= canvasHeight this).
Proof.
  assert (Hkx : 0 < canvasWidth this / (xMax this - xMin this))
    by (apply Rdiv_lt_0_compat; lra).
  assert (Hky : 0 < canvasHeight this / (yMax this - yMin this))
    by (apply Rdiv_lt_0_compat; lra).
  assert (Hwx : canvasWidth this
                = (xMax this - xMin this)
                  * (canvasWidth this / (xMax this - xMin this)))
    by (field; lra).
  assert (Hhy : canvasHeight this
                = (yMax this - yMin this)
                  * (canvasHeight this / (yMax this - yMin this)))
    by (field; lra).
  rewrite !(worldToCanvasX_linear this _ Hx), !(worldToCanvasY_linear this _ Hy).
  set (kx := canvasWidth this / (xMax this - xMin this)) in *.
  set (ky := canvasHeight this / (yMax this - yMin this)) in *.
  clearbody kx ky.
  repeat split; try nra.
Qed.

Lemma viewport_fills_canvas_witness :
  xMin (constructor 800 600) < xMax (constructor 800 600) /\
  yMin (constructor 800 600) < yMax (constructor 800 600) /\
  0 < canvasWidth (constructor 800 600) /\
  0 < canvasHeight (constructor 800 600) /\
  worldToCanvasX (constructor 800 600) (xMax (constructor 800 600)) = 800 /\
  worldToCanvasY (constructor 800 600) (yMax (constructor 800 600)) = 0.
Proof.
  assert (Hx : xMin (constructor 800 600) < xMax (constructor 800 600))
    by (cbn; lra).
  assert (Hy : yMin (constructor 800 600) < yMax (constructor 800 600))
    by (cbn; lra).
  assert (Hw : 0 < canvasWidth (constructor 800 600)) by (cbn; lra).
  assert (Hh : 0 < canvasHeight (constructor 800 600)) by (cbn; lra).
  destruct (viewport_fills_canvas (constructor 800 600) 0 0 0 0 Hx Hy Hw Hh)
    as (_ & H2 & _ & H4 & _).
  repeat (split; [assumption|]). exact H4.
Defined.

(** X8.  In the scope handed to the compiled expressions a parameter wins
    over a coordinate of the same name.  So when the parameter object has
    a property [x], the vector the evaluator returns does not depend on the
    x coordinate of the point at all (and likewise for [y]). *)
Theorem parameter_shadows_coordinate
    (this : visualizer) (m : gmap string json) (v : json)
    (Hparameters : parameters this = JObj m)
    (Hshadow : m !! "x" = Some v) :
  (forall x y : R, make_scope x y (parameters this) !! "x" = Some v) /\
  (forall x x' y : R, evaluateSystem this x y = evaluateSystem this x' y).
Proof.
  assert (Hscope : forall x x' y,
             make_scope x y (JObj m) = make_scope x' y (JObj m)).
  { intros x x' y. unfold make_scope. cbn [own_props].
    apply map_eq. intros k. rewrite !lookup_union.
    destruct (decide (k = "x")) as [->|Hk].
    - rewrite Hshadow, !lookup_insert_eq. reflexivity.
    - rewrite !(lookup_insert_ne _ "x" k) by congruence. reflexivity. }
  split.
  - intros x y. rewrite Hparameters. unfold make_scope. cbn [own_props].
    rewrite lookup_union, Hshadow, lookup_insert_eq. reflexivity.
  - intros x x' y. unfold evaluateSystem.
    rewrite Hparameters, (Hscope x x' y). reflexivity.
Qed.

Lemma parameter_shadows_coordinate_witness :
  parameters (set_parameters (JObj {[ "x" := JNum 3 ]}) loaded)
    = JObj {[ "x" := JNum 3 ]} /\
  ({[ "x" := JNum 3 ]} : gmap string json) !! "x" = Some (JNum 3) /\
  evaluateSystem (set_parameters (JObj {[ "x" := JNum 3 ]}) loaded) 1 2
  = evaluateSystem (set_parameters (JObj {[ "x" := JNum 3 ]}) loaded) 7 2.
Proof.
  assert (Hp : parameters (set_parameters (JObj {[ "x" := JNum 3 ]}) loaded)
               = JObj {[ "x" := JNum 3 ]}) by reflexivity.
  assert (Hs : ({[ "x" := JNum 3 ]} : gmap string json) !! "x"
               = Some (JNum 3)) by apply lookup_singleton_eq.
  split; [exact Hp|]. split; [exact Hs|].
  exact (proj2 (parameter_shadows_coordinate _ _ _ Hp Hs) 1 7 2).
Defined.

(** ** Updating the system *)

(** X9.  When the parameter text parses to [null] and both equations
    compile, the update is reported as a failure of the equations, yet the
    new equations and the [null] parameters are installed, and the particles
    computed under the old system are kept. *)
Theorem null_parameters_replace_system
    (math_ : mathjs) (JSON_parse : string -> completion json)
    (trim : string -> string)
    (dxdtInput dydtInput parametersInput : string) (this : visualizer)
    (f g : compiled)
    (Htext : truthy (trim parametersInput) = true)
    (Hnull : JSON_parse parametersInput = Returns JNull)
    (Hf : compileEquation math_ dxdtInput = Returns f)
    (Hg : compileEquation math_ dydtInput = Returns g) :
  exists this' : visualizer,
    updateSystem (Some math_) JSON_parse trim
      dxdtInput dydtInput parametersInput this = (Ok tt, this') /\
    dxdt this' = Some f /\ dydt this' = Some g /\ parameters this' = JNull /\
    particles this' = particles this /\ colorIndex this' = colorIndex this /\
    exists msg,
      host this' =
        host this ++ [Alert ("Error parsing equations. Please check your syntax."
                             ++ newline ++ "Error: " ++ msg)].
Proof.
  eexists. split; [apply updateSystem_stage|].
  unfold update_stage_of, parseParameters. rewrite Htext, Hnull, Hf, Hg.
  cbn. repeat split. eexists. reflexivity.
Qed.

Lemma null_parameters_replace_system_witness :
  truthy (sample_trim "null") = true /\
  sample_JSON_parse "null" = Returns JNull /\
  compileEquation sample_math "y" = Returns expr_y /\
  compileEquation sample_math "-x" = Returns expr_neg_x /\
  exists this' : visualizer,
    updateSystem (Some sample_math) sample_JSON_parse sample_trim
      "y" "-x" "null" loaded = (Ok tt, this') /\
    dydt this' = Some expr_neg_x /\ particles this' = [sample_particle].
Proof.
  assert (Ht : truthy (sample_trim "null") = true) by reflexivity.
  assert (Hn : sample_JSON_parse "null" = Returns JNull) by reflexivity.
  assert (Hf : compileEquation sample_math "y" = Returns expr_y) by reflexivity.
  assert (Hg : compileEquation sample_math "-x" = Returns expr_neg_x)
    by reflexivity.
  destruct (null_parameters_replace_system sample_math sample_JSON_parse
              sample_trim "y" "-x" "null" loaded expr_y expr_neg_x Ht Hn Hf Hg)
    as (this' & Hu & _ & Hdy & _ & Hp & _).
  repeat (split; [assumption|]).
  exists this'. split; [exact Hu|]. split; [exact Hdy|exact Hp].
Defined.

(** X10.  The alert of a failed update is chosen by the class of the error
    alone: when an equation fails to compile with a [SyntaxError], the
    alert blames the parameters JSON, although the parameters parsed. *)
Theorem equation_syntax_error_blames_parameters
    (math_ : mathjs) (JSON_parse : string -> completion json)
    (trim : string -> string)
    (dxdtInput dydtInput parametersInput : string) (this : visualizer)
    (p : json) (msg : string)
    (Hp : parseParameters JSON_parse trim parametersInput = Returns p)
    (Hdx : compileEquation math_ dxdtInput = Throws (SyntaxError msg)) :
  exists this' : visualizer,
    updateSystem (Some math_) JSON_parse trim
      dxdtInput dydtInput parametersInput this = (Ok tt, this') /\
    parameters this' = p /\
    host this' =
      host this
      ++ [Alert ("Error parsing parameters JSON. Please check your JSON syntax."
                 ++ newline ++ "Error: " ++ msg)].
Proof.
  eexists. split; [apply updateSystem_stage|].
  unfold update_stage_of. rewrite Hp, Hdx. cbn. split; reflexivity.
Qed.

Lemma equation_syntax_error_blames_parameters_witness :
  parseParameters sample_JSON_parse sample_trim "{}" = Returns (JObj ∅) /\
  compileEquation sample_math "y +"
    = Throws (SyntaxError "Unexpected end of expression") /\
  exists this' : visualizer,
    updateSystem (Some sample_math) sample_JSON_parse sample_trim
      "y +" "-x" "{}" loaded = (Ok tt, this') /\
    parameters this' = JObj ∅.
Proof.
  assert (Hp : parseParameters sample_JSON_parse sample_trim "{}"
               = Returns (JObj ∅)) by reflexivity.
  assert (Hdx : compileEquation sample_math "y +"
                = Throws (SyntaxError "Unexpected end of expression"))
    by reflexivity.
  destruct (equation_syntax_error_blames_parameters sample_math
              sample_JSON_parse sample_trim "y +" "-x" "{}" loaded
              (JObj ∅) "Unexpected end of expression" Hp Hdx)
    as (this' & Hu & Hpar & _).
  split; [exact Hp|]. split; [exact Hdx|].
  exists this'. split; [exact Hu|exact Hpar].
Defined.

(** X11.  A parameter text that is blank after trimming stands for the empty
    object: [JSON.parse] is not consulted, so the update goes the same way
    whatever [JSON.parse] would do with the text, and when both equations
    compile the parameters installed are [{}]. *)
Theorem blank_parameters_are_empty_object
    (math : option mathjs) (JSON_parse JSON_parse' : string -> completion json)
    (trim : string -> string)
    (dxdtInput dydtInput parametersInput : string) (this : visualizer)
    (Hblank : truthy (trim parametersInput) = false) :
  updateSystem math JSON_parse trim dxdtInput dydtInput parametersInput this
  = updateSystem math JSON_parse' trim dxdtInput dydtInput parametersInput this
  /\
  forall math_ f g,
    math = Some math_ ->
    compileEquation math_ dxdtInput = Returns f ->
    compileEquation math_ dydtInput = Returns g ->
    parameters
      (snd (updateSystem math JSON_parse trim
              dxdtInput dydtInput parametersInput this)) = JObj ∅ /\
    particles
      (snd (updateSystem math JSON_parse trim
              dxdtInput dydtInput parametersInput this)) = [].
Proof.
  split.
  - rewrite !updateSystem_stage. unfold update_stage_of, parseParameters.
    rewrite Hblank. reflexivity.
  - intros math_ f g -> Hf Hg. rewrite updateSystem_stage.
    unfold update_stage_of, parseParameters. rewrite Hblank, Hf, Hg.
    split; reflexivity.
Qed.

Lemma blank_parameters_are_empty_object_witness :
  truthy (sample_trim "") = false /\
  parameters
    (snd (updateSystem (Some sample_math) sample_JSON_parse sample_trim
            "y" "-x" "" loaded)) = JObj ∅.
Proof.
  assert (Hb : truthy (sample_trim "") = false) by reflexivity.
  split; [exact Hb|].
  exact (proj1 (proj2 (blank_parameters_are_empty_object (Some sample_math)
                         sample_JSON_parse sample_JSON_parse sample_trim
                         "y" "-x" "" loaded Hb)
                  sample_math expr_y expr_neg_x eq_refl eq_refl eq_refl)).
Defined.

(** X12.  Whatever its inputs and however it ends, [updateSystem] leaves the
    view, the display settings, the canvas size and the simulation flag and
    step as they were, and never takes a compiled equation away: a field
    that held an expression before holds one after. *)
Theorem updateSystem_frame
    (math : option mathjs) (JSON_parse : string -> completion json)
    (trim : string -> string)
    (dxdtInput dydtInput parametersInput : string) (this : visualizer) :
  let this' :=
    snd (updateSystem math JSON_parse trim
           dxdtInput dydtInput parametersInput this) in
  xMin this' = xMin this /\ xMax this' = xMax this /\
  yMin this' = yMin this /\ yMax this' = yMax this /\
  gridDensity this' = gridDensity this /\ arrowScale this' = arrowScale this /\
  arrowColor this' = arrowColor this /\ showGrid this' = showGrid this /\
  showNullclines this' = showNullclines this /\
  canvasWidth this' = canvasWidth this /\
  canvasHeight this' = canvasHeight this /\
  simulationRunning this' = simulationRunning this /\
  simulationSpeed this' = simulationSpeed this /\
  (dxdt this <> None -> dxdt this' <> None) /\
  (dydt this <> None -> dydt this' <> None).
Proof.
  cbv zeta. rewrite updateSystem_stage.
  destruct (update_stage_of _ _ _ _ _ _) as [|e|p e|p f e|f g|p f g];
    cbn; repeat split; try tauto; try discriminate.
Qed.



(** ** Drawing *)

Lemma magnitude_scale (c : R) (v w : vec) :
  0 < c -> dx w = c * dx v -> dy w = c * dy v ->
  magnitude w = c * magnitude v.
Proof.
  intros Hc Hx Hy. unfold magnitude. rewrite Hx, Hy.
  replace (c * dx v * (c * dx v) + c * dy v * (c * dy v))
    with (c * c * (dx v * dx v + dy v * dy v)) by ring.
  rewrite sqrt_mult_alt by nra.
  rewrite sqrt_square by lra. reflexivity.
Qed.

Lemma arrowAt_same_direction (this this' : visualizer) (q : point) :
  xMin this' = xMin this -> xMax this' = xMax this ->
  yMin this' = yMin this -> yMax this' = yMax this ->
  canvasWidth this' = canvasWidth this ->
  canvasHeight this' = canvasHeight this ->
  arrowScale this' = arrowScale this ->
  same_direction (vectorField this (ptx q) (pty q))
                 (vectorField this' (ptx q) (pty q)) ->
  arrowAt this' q = arrowAt this q.
Proof.
  intros E1 E2 E3 E4 E5 E6 E7 (c & Hc & Hx & Hy).
  unfold arrowAt, normalized, worldToCanvasX, worldToCanvasY.
  rewrite E1, E2, E3, E4, E5, E6, E7.
  set (v := vectorField this (ptx q) (pty q)) in *.
  set (w := vectorField this' (ptx q) (pty q)) in *.
  pose proof (magnitude_scale c v w Hc Hx Hy) as Hm.
  destruct (decide (magnitude v = 0)) as [Hz|Hnz];
    destruct (decide (magnitude w = 0)) as [Hz'|Hnz'].
  - reflexivity.
  - exfalso. apply Hnz'. rewrite Hm, Hz. lra.
  - exfalso. apply Hnz. rewrite Hm in Hz'. nra.
  - cbn [dx dy]. rewrite Hm, Hx, Hy.
    replace (c * dx v / (c * magnitude v)) with (dx v / magnitude v)
      by (field; split; lra).
    replace (c * dy v / (c * magnitude v)) with (dy v / magnitude v)
      by (field; split; lra).
    reflexivity.
Qed.

(** X14.  The arrows show direction only.  Replace the system by one whose
    evaluated vector at every point is the old vector times a positive
    factor (which may vary from point to point): [drawFlowField] makes
    exactly the same calls on the drawing context. *)
Theorem arrows_show_direction_only
    (this : visualizer) (f g : option compiled) (p : json)
    (c : list canvas_op)
    (Hsame : forall x y v,
        evaluateSystem this x y = Ok v ->
        exists w, evaluateSystem (with_system f g p this) x y = Ok w /\
                  same_direction v w) :
  drawFlowField (with_system f g p this) c = drawFlowField this c.
Proof.
  rewrite !drawFlowField_spec.
  assert (Hc : candidates (with_system f g p this) = candidates this)
    by reflexivity.
  rewrite Hc. do 3 f_equal.
  apply flat_map_ext. intros q.
  apply arrowAt_same_direction; try reflexivity.
  destruct (Hsame (ptx q) (pty q) _ (evaluateSystem_vectorField this _ _))
    as (w & Hw & Hdir).
  rewrite evaluateSystem_vectorField in Hw. injection Hw as <-. exact Hdir.
Qed.

Lemma arrows_show_direction_only_witness :
  (forall x y v,
      evaluateSystem uniform x y = Ok v ->
      exists w,
        evaluateSystem
          (with_system (Some expr_two) (Some expr_zero) (JObj ∅) uniform) x y
        = Ok w /\ same_direction v w) /\
  drawFlowField
    (with_system (Some expr_two) (Some expr_zero) (JObj ∅) uniform) []
  = drawFlowField uniform [].
Proof.
  assert (Hsame : forall x y v,
             evaluateSystem uniform x y = Ok v ->
             exists w,
               evaluateSystem
                 (with_system (Some expr_two) (Some expr_zero) (JObj ∅) uniform)
                 x y = Ok w /\ same_direction v w).
  { intros x y v Hv. exists {| dx := 2; dy := 0 |}. split; [reflexivity|].
    cbn in Hv. injection Hv as <-. exists 2. cbn. repeat split; lra. }
  split; [exact Hsame|].
  exact (arrows_show_direction_only uniform (Some expr_two) (Some expr_zero)
           (JObj ∅) [] Hsame).
Defined.






(** X16.  A point at which the evaluation of either equation throws counts
    as a zero of both components: if that happens at the bottom of a column,
    [(x, yMin)], the scan of the column stops there at once and plots this
    point, for the dx nullcline and for the dy nullcline alike. *)
Theorem evaluation_failure_is_plotted
    (add : R -> R -> R) (this : visualizer) (f g : compiled) (x : R) (e : exn)
    (isDxDt : bool) (fuel : nat) (s : path_state)
    (Hf : dxdt this = Some f) (Hg : dydt this = Some g)
    (Hy : yMin this <= yMax this)
    (Hthrow : evaluate f (make_scope x (yMin this) (parameters this)) = Throws e
              \/ evaluate g (make_scope x (yMin this) (parameters this))
                 = Throws e) :
  scanColumn add (Datatypes.S fuel) this isDxDt x (yMin this) s
  = (Ok tt, plot this s {| ptx := x; pty := yMin this |}).
Proof.
  cbn [scanColumn]. rewrite bool_decide_eq_true_2 by exact Hy.
  unfold bind at 1. unfold call at 1. rewrite evaluateSystem_vectorField.
  assert (Hz : vectorField this x (yMin this) = zero).
  { unfold vectorField. rewrite Hf, Hg. cbv zeta.
    destruct Hthrow as [H|H]; rewrite H; [reflexivity|].
    destruct (evaluate f _); reflexivity. }
  rewrite Hz.
  assert (Hhit : bool_decide (Rabs (if isDxDt then dx zero else dy zero) < 0.05)
                 = true).
  { apply bool_decide_eq_true. destruct isDxDt; cbn; rewrite Rabs_R0; lra. }
  rewrite Hhit. apply plot_hit.
Qed.

Lemma evaluation_failure_is_plotted_witness :
  dxdt (set_parameters (JObj ∅) loaded) = Some expr_y /\
  dydt (set_parameters (JObj ∅) loaded) = Some expr_mu_y /\
  yMin (set_parameters (JObj ∅) loaded) <= yMax (set_parameters (JObj ∅) loaded) /\
  scanColumn Rplus 1 (set_parameters (JObj ∅) loaded) true 0
    (yMin (set_parameters (JObj ∅) loaded)) {| pathStarted := false; ctx := [] |}
  = (Ok tt,
     plot (set_parameters (JObj ∅) loaded) {| pathStarted := false; ctx := [] |}
       {| ptx := 0; pty := yMin (set_parameters (JObj ∅) loaded) |}).
Proof.
  assert (Hf : dxdt (set_parameters (JObj ∅) loaded) = Some expr_y)
    by reflexivity.
  assert (Hg : dydt (set_parameters (JObj ∅) loaded) = Some expr_mu_y)
    by reflexivity.
  assert (Hy : yMin (set_parameters (JObj ∅) loaded)
               <= yMax (set_parameters (JObj ∅) loaded)) by (cbn; lra).
  assert (Hthrow :
    evaluate expr_y
      (make_scope 0 (yMin (set_parameters (JObj ∅) loaded))
         (parameters (set_parameters (JObj ∅) loaded)))
    = Throws (Error "Undefined symbol mu")
    \/ evaluate expr_mu_y
         (make_scope 0 (yMin (set_parameters (JObj ∅) loaded))
            (parameters (set_parameters (JObj ∅) loaded)))
       = Throws (Error "Undefined symbol mu")).
  { right. unfold expr_mu_y, symbol, make_scope. cbn [evaluate].
    cbn [parameters set_parameters own_props].
    rewrite lookup_union, lookup_empty.
    rewrite (lookup_insert_ne _ "x" "mu") by discriminate.
    rewrite (lookup_insert_ne _ "y" "mu") by discriminate.
    rewrite lookup_empty. reflexivity. }
  split; [exact Hf|]. split; [exact Hg|]. split; [exact Hy|].
  exact (evaluation_failure_is_plotted Rplus _ expr_y expr_mu_y 0 _ true 0
           {| pathStarted := false; ctx := [] |} Hf Hg Hy Hthrow).
Defined.

Lemma strokeLine_spec (x1 y1 x2 y2 : R) (c : list canvas_op) :
  strokeLine x1 y1 x2 y2 c = (Ok tt, c ++ line x1 y1 x2 y2).
Proof.
  unfold strokeLine, ctx_call, line. unfold_js.
  rewrite <- !app_assoc. reflexivity.
Qed.

(** A loop over a real counter that ends after [n] rounds runs its body at
    the [n] values of the counter, given fuel for the [n + 1] tests. *)
Lemma for_real_fold {S} (add : R -> R -> R) (body : R -> M S unit)
    (g : R -> S -> S) (limit step : R) (n : nat) :
  (forall v s0, body v s0 = (Ok tt, g v s0)) ->
  forall (start : R) (fuel : nat) (s : S),
    ends_after add n start limit step -> (n < fuel)%nat ->
    for_real add fuel start limit step body s
    = (Ok tt,
       fold_left (fun s0 v => g v s0) (counterValues add n start step) s).
Proof.
  intros Hbody.
  induction n as [|n IH]; intros start fuel s Hends Hfuel;
    (destruct fuel as [|fuel]; [lia|]); cbn [for_real].
  - cbn [ends_after] in Hends.
    rewrite bool_decide_eq_false_2 by exact Hends. reflexivity.
  - destruct Hends as [Hstart Hends].
    rewrite bool_decide_eq_true_2 by exact Hstart.
    unfold bind. rewrite Hbody. cbn [counterValues fold_left].
    apply IH; [exact Hends|lia].
Qed.

Lemma fold_left_calls {A B} (out : A -> list B) (l : list A) (c : list B) :
  fold_left (fun c0 a => c0 ++ out a) l c = c ++ flat_map out l.
Proof.
  revert c. induction l as [|a l IH]; intros c; cbn.
  - rewrite app_nil_r. reflexivity.
  - rewrite IH, <- app_assoc. reflexivity.
Qed.

Lemma for_real_append (add : R -> R -> R)
    (body : R -> M (list canvas_op) unit) (out : R -> list canvas_op)
    (start limit step : R) (n fuel : nat) (c : list canvas_op) :
  (forall v c0, body v c0 = (Ok tt, c0 ++ out v)) ->
  ends_after add n start limit step -> (n < fuel)%nat ->
  for_real add fuel start limit step body c
  = (Ok tt, c ++ flat_map out (counterValues add n start step)).
Proof.
  intros Hbody Hends Hfuel.
  rewrite (for_real_fold add body (fun v c0 => c0 ++ out v) limit step n
             Hbody start fuel c Hends Hfuel).
  rewrite fold_left_calls. reflexivity.
Qed.

(** In exact arithmetic, on a viewport that is not degenerate, each loop
    of the grid makes 11 rounds. *)
Lemma grid_ends_exact (start limit : R) :
  start < limit -> ends_after Rplus 11 start limit ((limit - start) / 10).
Proof.
  intros Hlt. replace 10 with (INR 10) by (rewrite INR_IZR_INZ; reflexivity).
  apply ends_after_exact; [exact Hlt|lia].
Qed.

(** What [drawGrid] strokes when its loops end after [nx] and [ny]
    rounds. *)
Lemma drawGrid_spec (add : R -> R -> R) (this : visualizer)
    (nx ny fuel : nat) (c : list canvas_op) :
  ends_after add nx (xMin this) (xMax this) ((xMax this - xMin this) / 10) ->
  ends_after add ny (yMin this) (yMax this) ((yMax this - yMin this) / 10) ->
  (nx < fuel)%nat -> (ny < fuel)%nat ->
  drawGrid add fuel this c
  = (Ok tt, if showGrid this then c ++ gridLines add nx ny this else c).
Proof.
  intros Hxs Hys Hfx Hfy. unfold drawGrid, gridLines.
  destruct (showGrid this); cbn [negb]; [|reflexivity].
  unfold bind at 1. unfold ctx_call at 1. unfold modify at 1.
  unfold bind at 1. unfold ctx_call at 1. unfold modify at 1.
  unfold bind at 1.
  rewrite (for_real_append add _
             (fun x => line (worldToCanvasX this x) 0
                            (worldToCanvasX this x) (canvasHeight this))
             (xMin this) (xMax this) ((xMax this - xMin this) / 10) nx fuel);
    [|intros v c0; apply strokeLine_spec|exact Hxs|exact Hfx].
  unfold bind at 1.
  rewrite (for_real_append add _
             (fun y => line 0 (worldToCanvasY this y)
                            (canvasWidth this) (worldToCanvasY this y))
             (yMin this) (yMax this) ((yMax this - yMin this) / 10) ny fuel);
    [|intros v c0; apply strokeLine_spec|exact Hys|exact Hfy].
  unfold bind at 1. unfold ctx_call at 1. unfold modify at 1.
  unfold bind at 1. unfold ctx_call at 1. unfold modify at 1.
  unfold bind at 1.
  assert (Bx : bool_decide (yMin this <= 0) && bool_decide (yMax this >= 0)
               = bool_decide (yMin this <= 0 <= yMax this)).
  { destruct (bool_decide (yMin this <= 0 <= yMax this)) eqn:B.
    - apply bool_decide_eq_true in B.
      rewrite !bool_decide_eq_true_2 by lra. reflexivity.
    - apply bool_decide_eq_false in B.
      destruct (bool_decide (yMin this <= 0)) eqn:B1; [|reflexivity].
      apply bool_decide_eq_true in B1.
      rewrite bool_decide_eq_false_2 by lra. reflexivity. }
  assert (By : bool_decide (xMin this <= 0) && bool_decide (xMax this >= 0)
               = bool_decide (xMin this <= 0 <= xMax this)).
  { destruct (bool_decide (xMin this <= 0 <= xMax this)) eqn:B.
    - apply bool_decide_eq_true in B.
      rewrite !bool_decide_eq_true_2 by lra. reflexivity.
    - apply bool_decide_eq_false in B.
      destruct (bool_decide (xMin this <= 0)) eqn:B1; [|reflexivity].
      apply bool_decide_eq_true in B1.
      rewrite bool_decide_eq_false_2 by lra. reflexivity. }
  rewrite Bx, By.
  destruct (bool_decide (yMin this <= 0 <= yMax this));
    destruct (bool_decide (xMin this <= 0 <= xMax this));
    rewrite ?strokeLine_spec; unfold ret; cbn [fst snd];
    rewrite ?strokeLine_spec; rewrite <- ?app_assoc; cbn [app];
    rewrite ?app_nil_r; reflexivity.
Qed.

(** X17.  Let the two loops of [drawGrid] end, after [nx] and [ny] rounds
    (in exact arithmetic they make 11 rounds each when [xMin < xMax] and
    [yMin < yMax]; the statement holds for every rounding of the sums).  With
    the grid shown, [drawGrid] returns and strokes one vertical line over
    the full height for each value of the x counter, then one horizontal
    line over the full width for each value of the y counter, then the x
    axis if [yMin <= 0 <= yMax] and the y axis if [xMin <= 0 <= xMax].  On
    a viewport with [xMin < xMax] and [yMin < yMax] there is at least one
    line of each kind, the first vertical one on the left edge of the canvas
    and the first horizontal one on its bottom edge.  With the grid hidden
    nothing is drawn, the axes included. *)
Theorem drawGrid_lines
    (add : R -> R -> R) (this : visualizer) (nx ny fuel : nat)
    (c : list canvas_op)
    (Hxs : ends_after add nx (xMin this) (xMax this)
             ((xMax this - xMin this) / 10))
    (Hys : ends_after add ny (yMin this) (yMax this)
             ((yMax this - yMin this) / 10))
    (Hfuel : (nx < fuel)%nat /\ (ny < fuel)%nat) :
  let W := canvasWidth this in
  let H := canvasHeight this in
  let xs := counterValues add nx (xMin this) ((xMax this - xMin this) / 10) in
  let ys := counterValues add ny (yMin this) ((yMax this - yMin this) / 10) in
  (showGrid this = false -> drawGrid add fuel this c = (Ok tt, c)) /\
  (showGrid this = true ->
   drawGrid add fuel this c
   = (Ok tt,
      c ++ [SetStrokeStyle "#e0e0e0"; SetLineWidth 1]
        ++ flat_map (fun x => line (worldToCanvasX this x) 0
                                   (worldToCanvasX this x) H) xs
        ++ flat_map (fun y => line 0 (worldToCanvasY this y)
                                   W (worldToCanvasY this y)) ys
        ++ [SetStrokeStyle "#333"; SetLineWidth 2]
        ++ (if bool_decide (yMin this <= 0 <= yMax this)
            then line 0 (worldToCanvasY this 0) W (worldToCanvasY this 0)
            else [])
        ++ (if bool_decide (xMin this <= 0 <= xMax this)
            then line (worldToCanvasX this 0) 0 (worldToCanvasX this 0) H
            else []))) /\
  (xMin this < xMax this ->
   exists xs', xs = xMin this :: xs' /\ worldToCanvasX this (xMin this) = 0) /\
  (yMin this < yMax this ->
   exists ys', ys = yMin this :: ys' /\ worldToCanvasY this (yMin this) = H).
Proof.
  intros W H xs ys. destruct Hfuel as [Hfx Hfy].
  pose proof (drawGrid_spec add this nx ny fuel c Hxs Hys Hfx Hfy) as Hspec.
  split; [|split; [|split]].
  - intros Hshow. rewrite Hspec, Hshow. reflexivity.
  - intros Hshow. rewrite Hspec, Hshow. reflexivity.
  - intros Hx. subst xs. destruct nx as [|nx].
    + cbn [ends_after] in Hxs. lra.
    + eexists. split; [reflexivity|]. unfold worldToCanvasX. field. lra.
  - intros Hy. subst ys. destruct ny as [|ny].
    + cbn [ends_after] in Hys. lra.
    + eexists. split; [reflexivity|]. unfold worldToCanvasY, H. field. lra.
Qed.

Lemma drawGrid_lines_witness :
  ends_after Rplus 11 (xMin (constructor 800 600)) (xMax (constructor 800 600))
    ((xMax (constructor 800 600) - xMin (constructor 800 600)) / 10) /\
  ends_after Rplus 11 (yMin (constructor 800 600)) (yMax (constructor 800 600))
    ((yMax (constructor 800 600) - yMin (constructor 800 600)) / 10) /\
  ((11 < 12)%nat /\ (11 < 12)%nat) /\
  exists ops, drawGrid Rplus 12 (constructor 800 600) [] = (Ok tt, ops).
Proof.
  assert (Hxs : ends_after Rplus 11 (xMin (constructor 800 600))
                  (xMax (constructor 800 600))
                  ((xMax (constructor 800 600) - xMin (constructor 800 600))
                   / 10))
    by (apply grid_ends_exact; cbn; lra).
  assert (Hys : ends_after Rplus 11 (yMin (constructor 800 600))
                  (yMax (constructor 800 600))
                  ((yMax (constructor 800 600) - yMin (constructor 800 600))
                   / 10))
    by (apply grid_ends_exact; cbn; lra).
  assert (Hfuel : (11 < 12)%nat /\ (11 < 12)%nat) by lia.
  destruct (drawGrid_lines Rplus (constructor 800 600) 11 11 12 [] Hxs Hys
              Hfuel) as (_ & Hshown & _).
  split; [exact Hxs|]. split; [exact Hys|]. split; [exact Hfuel|].
  eexists. exact (Hshown eq_refl).
Defined.

(** X18.  Whatever the arrow, its head is two strokes from the tip, each 8
    pixels long, opening at 60 degrees ([cos = 1/2]): the head does not
    scale with the shaft. *)
Theorem drawArrow_head
    (atan2 : R -> R -> R) (x1 y1 x2 y2 : R) (c : list canvas_op) :
  exists ax ay bx by_ : R,
    drawArrow atan2 x1 y1 x2 y2 c
    = (Ok tt,
       c ++ [BeginPath; MoveTo x1 y1; LineTo x2 y2; Stroke;
             BeginPath; MoveTo x2 y2; LineTo ax ay;
             MoveTo x2 y2; LineTo bx by_; Stroke]) /\
    (ax - x2) * (ax - x2) + (ay - y2) * (ay - y2) = 8 * 8 /\
    (bx - x2) * (bx - x2) + (by_ - y2) * (by_ - y2) = 8 * 8 /\
    (ax - x2) * (bx - x2) + (ay - y2) * (by_ - y2) = 8 * 8 * (1 / 2).
Proof.
  set (a := atan2 (y2 - y1) (x2 - x1)).
  exists (x2 - 8 * cos (a - PI / 6)), (y2 - 8 * sin (a - PI / 6)),
         (x2 - 8 * cos (a + PI / 6)), (y2 - 8 * sin (a + PI / 6)).
  split; [|split; [|split]].
  - unfold drawArrow, ctx_call. unfold_js. fold a.
    rewrite <- !app_assoc. reflexivity.
  - pose proof (sin2_cos2 (a - PI / 6)) as H. unfold Rsqr in H. nra.
  - pose proof (sin2_cos2 (a + PI / 6)) as H. unfold Rsqr in H. nra.
  - pose proof (cos_minus (a - PI / 6) (a + PI / 6)) as H.
    replace (a - PI / 6 - (a + PI / 6)) with (- (PI / 3)) in H by lra.
    rewrite cos_neg, cos_PI3 in H. nra.
Qed.

(** ** The page *)

Ltac fields :=
  cbn [host particles colorIndex simulationRunning dxdt dydt parameters
       simulationSpeed xMin xMax yMin yMax gridDensity arrowScale arrowColor
       showGrid showNullclines canvasWidth canvasHeight
       set_host set_particles set_colorIndex set_simulationRunning
       set_dxdt set_dydt set_parameters set_gridDensity set_arrowScale
       set_arrowColor set_showGrid set_showNullclines set_view
       vis painted written timers timers_run frames_run] in *.

Lemma requested_app (this : visualizer) (l : list host_call) :
  length (List.filter is_frame_request (host this ++ l))
  = (requested this + length (List.filter is_frame_request l))%nat.
Proof. unfold requested. rewrite List.filter_app, length_app. reflexivity. Qed.

Lemma quiet_ret {A} (a : A) : quiet (ret a).
Proof.
  intros this. exists a, this.
  split; [reflexivity|]. split; [reflexivity|]. split; [reflexivity|]. auto.
Qed.

Lemma quiet_gets {A} (f : visualizer -> A) : quiet (gets f).
Proof.
  intros this. exists (f this), this.
  split; [reflexivity|]. split; [reflexivity|]. split; [reflexivity|]. auto.
Qed.

Lemma quiet_bind {A B} (m : M visualizer A) (k : A -> M visualizer B) :
  quiet m -> (forall a, quiet (k a)) -> quiet (bind m k).
Proof.
  intros Hm Hk this.
  destruct (Hm this) as (a & this1 & E1 & R1 & S1 & V1).
  destruct (Hk a this1) as (b & this2 & E2 & R2 & S2 & V2).
  exists b, this2. unfold bind. rewrite E1, E2.
  split; [reflexivity|]. split; [congruence|]. split; [congruence|]. auto.
Qed.

Lemma quiet_emit (c : host_call) :
  is_frame_request c = false -> quiet (emit c).
Proof.
  intros Hc this. eexists tt, _. split; [reflexivity|].
  split; [|split; [reflexivity|]].
  - unfold requested at 1. fields.
    rewrite requested_app. cbn. rewrite Hc. cbn. lia.
  - intros [H1 H2 H3 H4]. constructor; assumption.
Qed.

(** A setter of the view or of the display settings. *)
Lemma quiet_setting (f : visualizer -> visualizer) :
  (forall this, host (f this) = host this) ->
  (forall this, simulationRunning (f this) = simulationRunning this) ->
  (forall this, particles (f this) = particles this) ->
  (forall this, colorIndex (f this) = colorIndex this) ->
  (forall this, dxdt (f this) = dxdt this) ->
  (forall this, dydt (f this) = dydt this) ->
  quiet (modify f).
Proof.
  intros Hh Hs Hp Hc Hx Hy this. exists tt, (f this).
  split; [reflexivity|]. split; [|split; [apply Hs|]].
  - unfold requested. rewrite Hh. reflexivity.
  - intros [H1 H2 H3 H4]. constructor; rewrite ?Hp, ?Hc; try assumption.
    intros Hne. unfold compiled_system. rewrite Hx, Hy. apply H3. exact Hne.
Qed.

Lemma quiet_updateParticleCount : quiet updateParticleCount.
Proof.
  unfold updateParticleCount. apply quiet_bind; [apply quiet_gets|].
  intros n. apply quiet_emit. reflexivity.
Qed.

Lemma quiet_draw : quiet draw.
Proof. apply quiet_emit. reflexivity. Qed.

Lemma vis_ok_no_particles (this : visualizer) :
  particles this = [] -> vis_ok this.
Proof.
  intros H. constructor; rewrite H.
  - constructor.
  - constructor.
  - intros Hne. contradiction.
  - cbn [length]. lia.
Qed.

Lemma quiet_clearParticles : quiet clearParticles.
Proof.
  intros this. eexists tt, _. split; [reflexivity|].
  split; [|split; [reflexivity|]].
  - unfold requested at 1. fields.
    rewrite <- app_assoc, requested_app. cbn. lia.
  - intros _. apply vis_ok_no_particles. reflexivity.
Qed.

Lemma quiet_resetAll : quiet resetAll.
Proof. exact quiet_clearParticles. Qed.

Lemma quiet_clearTrajectories : quiet clearTrajectories.
Proof.
  intros this. eexists tt, _. split; [reflexivity|].
  split; [|split; [reflexivity|]].
  - unfold requested at 1. fields.
    rewrite requested_app. cbn. lia.
  - intros [H1 H2 H3 H4]. constructor; cbn.
    + clear -H1. induction H1; constructor; assumption.
    + clear. induction (particles this); constructor; [reflexivity|assumption].
    + intros Hne. apply H3. intros E. apply Hne. rewrite E. reflexivity.
    + rewrite length_map. exact H4.
Qed.

Lemma quiet_updateSystem (math : option mathjs)
    (JSON_parse : string -> completion json) (trim : string -> string)
    (dxdtInput dydtInput parametersInput : string) :
  quiet (updateSystem math JSON_parse trim dxdtInput dydtInput parametersInput).
Proof.
  intros this. eexists tt, _. split; [apply updateSystem_stage|].
  destruct (update_stage_of _ _ _ _ _ _) as [|e|p e|p f e|f g|p f g];
    cbn [after_update].
  6: { split; [|split; [reflexivity|]].
       - unfold requested at 1. fields.
         rewrite <- !app_assoc, requested_app. cbn. lia.
       - intros _. apply vis_ok_no_particles. reflexivity. }
  all: split; [|split; [reflexivity|]].
  all: try (unfold requested at 1; fields;
            rewrite requested_app; unfold alert_of;
            try destruct (instanceof_SyntaxError e); cbn; lia).
  all: intros [H1 H2 H3 H4]; constructor; fields; try assumption.
  all: intros Hne; destruct (H3 Hne) as [Hx Hy]; split; fields;
       try assumption; discriminate.
Qed.

Lemma calm_on_app {A} (m : M visualizer A) : quiet m -> calm (on_app m).
Proof.
  intros Hm pg. destruct (Hm (vis pg)) as (a & this' & E & R1 & S1 & V1).
  exists a. eexists. unfold on_app. rewrite E.
  split; [reflexivity|]. fields. auto.
Qed.

Lemma calm_bind {A B} (m : M page A) (k : A -> M page B) :
  calm m -> (forall a, calm (k a)) -> calm (bind m k).
Proof.
  intros Hm Hk pg.
  destruct (Hm pg) as (a & pg1 & E1 & F1 & R1 & S1 & V1).
  destruct (Hk a pg1) as (b & pg2 & E2 & F2 & R2 & S2 & V2).
  exists b, pg2. unfold bind. rewrite E1, E2.
  split; [reflexivity|]. split; [congruence|]. split; [congruence|].
  split; [congruence|]. auto.
Qed.

Lemma calm_ret {A} (a : A) : calm (ret a).
Proof.
  intros pg. exists a, pg.
  split; [reflexivity|]. split; [reflexivity|]. split; [reflexivity|].
  split; [reflexivity|]. auto.
Qed.

Lemma calm_write (w : dom_write) : calm (write w).
Proof.
  intros pg. eexists tt, _. split; [reflexivity|]. fields.
  split; [reflexivity|]. split; [reflexivity|]. split; [reflexivity|]. auto.
Qed.

Lemma calm_paint (ops : list canvas_op) : calm (paint ops).
Proof.
  intros pg. eexists tt, _. split; [reflexivity|]. fields.
  split; [reflexivity|]. split; [reflexivity|]. split; [reflexivity|]. auto.
Qed.

Lemma calm_setTimeout_draw : calm setTimeout_draw.
Proof.
  intros pg. eexists tt, _. split; [reflexivity|]. fields.
  split; [reflexivity|]. split; [reflexivity|]. split; [reflexivity|]. auto.
Qed.

(** A calm handler keeps the page in order. *)
Lemma calm_page_ok {A} (m : M page A) (pg : page) :
  calm m -> page_ok pg ->
  fst (m pg) <> OutOfFuel /\ (forall e, fst (m pg) <> Throw e)
  /\ page_ok (snd (m pg)).
Proof.
  intros Hm [Hv Hr Hf].
  destruct (Hm pg) as (a & pg' & E & F & R & S & V).
  rewrite E. cbn [fst snd].
  split; [discriminate|]. split; [discriminate|].
  constructor; [auto| |]; rewrite F, R, ?S; assumption.
Qed.

(** The tick. *)
Lemma simulateStep_running (this : visualizer) :
  simulationRunning this = true -> simulateStep this = (Ok tt, tick this).
Proof.
  intros Hrunning.
  unfold simulateStep, updateParticleCount, draw. unfold_js.
  rewrite Hrunning. cbn [negb].
  rewrite updateAllParticles_spec. unfold tick.
  set (advanced := map _ (particles this)).
  cbn. set (survivors := List.filter Particle.active advanced).
  pose proof (existsb_filter_active advanced) as Hc. fold survivors in Hc.
  cbn in Hc. rewrite Hc. unfold modify.
  destruct (existsb Particle.active advanced); cbn;
    rewrite <- ?app_assoc; reflexivity.
Qed.

Lemma filter_active_Forall (l : list Particle.t) :
  Forall (fun p => Particle.active p = true) (List.filter Particle.active l).
Proof.
  induction l as [|p l IH]; cbn; [constructor|].
  destruct (Particle.active p) eqn:Ha; [constructor; assumption|exact IH].
Qed.

Lemma filter_Forall {A} (P : A -> Prop) (f : A -> bool) (l : list A) :
  Forall P l -> Forall P (List.filter f l).
Proof.
  induction 1 as [|a l Ha _ IH]; cbn; [constructor|].
  destruct (f a); [constructor; assumption|exact IH].
Qed.

Lemma filter_length_le {A} (f : A -> bool) (l : list A) :
  (length (List.filter f l) <= length l)%nat.
Proof.
  induction l as [|a l IH]; cbn; [lia|]. destruct (f a); cbn; lia.
Qed.

Lemma tick_facts (this : visualizer) :
  let again :=
    existsb Particle.active
      (map (fun p => snd (Particle.update (simulationSpeed this)
                            (fun x y => evaluateSystem this x y) p))
           (particles this)) in
  requested (tick this) = (requested this + if again then 1 else 0)%nat /\
  simulationRunning (tick this)
  = (if again then simulationRunning this else false) /\
  (particles this = [] -> again = false) /\
  (vis_ok this -> vis_ok (tick this)).
Proof.
  intros again. unfold tick. fold again.
  set (advanced := map _ (particles this)) in *.
  split; [|split; [|split]].
  - destruct again; unfold requested at 1; fields.
    + rewrite <- !app_assoc, requested_app. cbn. lia.
    + rewrite requested_app. cbn. lia.
  - destruct again; reflexivity.
  - intros E. subst again advanced. rewrite E. reflexivity.
  - intros [H1 H2 H3 H4].
    assert (Hps : particles
                    (if again
                     then set_host
                            (host (set_host
                               (host this
                                ++ [SetParticleCount
                                      (length (List.filter Particle.active advanced));
                                    Draw])
                               (set_particles
                                  (List.filter Particle.active advanced) this))
                             ++ [RequestAnimationFrame])
                            (set_host
                               (host this
                                ++ [SetParticleCount
                                      (length (List.filter Particle.active advanced));
                                    Draw])
                               (set_particles
                                  (List.filter Particle.active advanced) this))
                     else set_simulationRunning false
                            (set_host
                               (host this
                                ++ [SetParticleCount
                                      (length (List.filter Particle.active advanced));
                                    Draw])
                               (set_particles
                                  (List.filter Particle.active advanced) this)))
                  = List.filter Particle.active advanced)
      by (destruct again; reflexivity).
    constructor; cbv zeta; rewrite ?Hps.
    + apply filter_active_Forall.
    + apply filter_Forall. subst advanced.
      clear -H2. induction H2 as [|p l Hp _ IH]; cbn; constructor;
        [apply update_keeps_trajectory_end; exact Hp|exact IH].
    + intros Hne.
      assert (Hne' : particles this <> []).
      { intros E. apply Hne. subst advanced. rewrite E. reflexivity. }
      destruct (H3 Hne') as [Hx Hy].
      destruct again; split; assumption.
    + pose proof (filter_length_le Particle.active advanced) as Hl.
      subst advanced. rewrite length_map in Hl.
      destruct again; fields; lia.
Qed.

Lemma addParticleAtClick_no_system (canvasX canvasY fresh : R) (pg : page) :
  not_ (dxdt (vis pg)) || not_ (dydt (vis pg)) = true ->
  addParticleAtClick canvasX canvasY fresh pg
  = (Ok tt,
     mkPage
       (set_host
          (host (vis pg)
           ++ [Alert ("Please load a system first by clicking "
                      ++ quote ++ "Update System" ++ quote)])
          (vis pg))
       (painted pg) (written pg) (timers pg) (timers_run pg) (frames_run pg)).
Proof.
  intros H. unfold addParticleAtClick, on_app. unfold_js. cbn. rewrite H.
  reflexivity.
Qed.

Lemma addParticleAtClick_clicked (canvasX canvasY fresh : R) (pg : page) :
  not_ (dxdt (vis pg)) || not_ (dydt (vis pg)) = false ->
  addParticleAtClick canvasX canvasY fresh pg
  = (Ok tt, clicked canvasX canvasY fresh pg).
Proof.
  intros H. unfold clicked.
  assert (Hlen : forall q : Particle.t,
             length (particles (vis pg) ++ [q])
             = Datatypes.S (length (particles (vis pg))))
    by (intros q; rewrite length_app; cbn; lia).
  unfold addParticleAtClick, showClickFeedback,
    setTimeout_draw, paint, on_app, updateParticleCount, draw, startSimulation.
  unfold_js. cbn -[nextColor simulateStep]. rewrite H.
  cbn -[nextColor simulateStep]. rewrite Hlen.
  fold (with_new_particle canvasX canvasY fresh (vis pg)).
  destruct (simulationRunning (vis pg)) eqn:Hr; cbn -[nextColor simulateStep].
  - reflexivity.
  - rewrite Hr. rewrite simulateStep_running by reflexivity. reflexivity.
Qed.

Lemma vis_ok_same (this this' : visualizer) :
  particles this' = particles this -> colorIndex this' = colorIndex this ->
  dxdt this' = dxdt this -> dydt this' = dydt this ->
  vis_ok this -> vis_ok this'.
Proof.
  intros Hp Hc Hx Hy [H1 H2 H3 H4].
  constructor; rewrite ?Hp, ?Hc; try assumption.
  intros Hne. unfold compiled_system. rewrite Hx, Hy. apply H3. exact Hne.
Qed.

Lemma not_null_compiled (this : visualizer) :
  not_ (dxdt this) || not_ (dydt this) = false -> compiled_system this.
Proof.
  unfold compiled_system. destruct (dxdt this), (dydt this); cbn;
    intros H; try discriminate; split; discriminate.
Qed.

Lemma with_new_particle_ok (canvasX canvasY fresh : R) (this : visualizer) :
  compiled_system this -> vis_ok this ->
  vis_ok (with_new_particle canvasX canvasY fresh this).
Proof.
  intros Hsys [H1 H2 H3 H4]. unfold with_new_particle. constructor; fields.
  - apply Forall_app. split; [exact H1|]. constructor; [reflexivity|constructor].
  - apply Forall_app. split; [exact H2|]. constructor; [reflexivity|constructor].
  - intros _. exact Hsys.
  - rewrite length_app. cbn [length]. lia.
Qed.

Lemma requested_set_host (this : visualizer) (c : host_call) :
  is_frame_request c = false ->
  requested (set_host (host this ++ [c]) this) = requested this.
Proof.
  intros Hc. unfold requested at 1. fields. rewrite requested_app.
  cbn. rewrite Hc. cbn. lia.
Qed.

Lemma clicked_ok (canvasX canvasY fresh : R) (pg : page) :
  compiled_system (vis pg) -> page_ok pg ->
  page_ok (clicked canvasX canvasY fresh pg).
Proof.
  intros Hsys [Hv Hr Hf].
  pose proof (with_new_particle_ok canvasX canvasY fresh (vis pg) Hsys Hv)
    as Hadded.
  assert (Hreq : requested (with_new_particle canvasX canvasY fresh (vis pg))
                 = requested (vis pg))
    by (apply (requested_set_host
                 (set_particles _ (set_colorIndex _ (vis pg)))); reflexivity).
  assert (Hrun' : simulationRunning
                    (with_new_particle canvasX canvasY fresh (vis pg))
                  = simulationRunning (vis pg)) by reflexivity.
  unfold clicked.
  set (added := with_new_particle canvasX canvasY fresh (vis pg)) in *.
  destruct (simulationRunning (vis pg)) eqn:Hrun.
  - constructor; fields.
    + apply (vis_ok_same added); try reflexivity. exact Hadded.
    + rewrite requested_set_host by reflexivity. lia.
    + rewrite requested_set_host by reflexivity.
      replace (simulationRunning (set_host (host added ++ [Draw]) added))
        with (simulationRunning added) by reflexivity.
      rewrite Hrun', Hreq. exact Hf.
  - set (started := set_simulationRunning true added).
    assert (Hst : vis_ok started)
      by (apply (vis_ok_same added); try reflexivity; exact Hadded).
    assert (Hreq' : requested started = requested (vis pg)) by exact Hreq.
    destruct (tick_facts started) as (Hq & Hs & _ & Hk). cbv zeta in Hq, Hs.
    set (again := existsb Particle.active _) in Hq, Hs.
    specialize (Hk Hst).
    assert (Hsr : simulationRunning started = true) by reflexivity.
    rewrite Hsr in Hs.
    constructor; fields.
    + apply (vis_ok_same (tick started)); try reflexivity. exact Hk.
    + rewrite requested_set_host by reflexivity. lia.
    + rewrite requested_set_host by reflexivity.
      replace (simulationRunning
                 (set_host (host (tick started) ++ [Draw]) (tick started)))
        with (simulationRunning (tick started)) by reflexivity.
      rewrite Hs, Hq, Hreq'. destruct again; lia.
Qed.

Section PageInvariant.

Variable math : option mathjs.
Variable JSON_parse : string -> completion json.
Variable trim : string -> string.
Variable JSON_stringify : json -> string.

Lemma calm_loadPreset (preset : string) :
  calm (loadPreset math JSON_parse trim JSON_stringify preset).
Proof.
  unfold loadPreset. destruct (negb (truthy preset)); [apply calm_ret|].
  destruct (presets preset) as [[[dxT dyT] pr]|]; [|apply calm_ret].
  apply calm_bind; [apply calm_write|]. intros _.
  apply calm_bind; [apply calm_on_app, quiet_updateSystem|]. intros _.
  apply calm_on_app, quiet_draw.
Qed.

Ltac calm_setting :=
  apply calm_bind;
  [apply calm_on_app, quiet_setting; intros; reflexivity|intros _].

(** Every handler returns, and keeps the page in order. *)
Lemma handle_ok (e : event) (pg : page) :
  page_ok pg ->
  exists pg',
    handle math JSON_parse trim JSON_stringify e pg = (Ok tt, pg')
    /\ page_ok pg'.
Proof.
  intros Hok.
  assert (Hcalm : forall m : M page unit,
             calm m -> exists pg', m pg = (Ok tt, pg') /\ page_ok pg').
  { intros m Hm. pose proof (calm_page_ok m pg Hm Hok) as (_ & _ & Hp).
    destruct (Hm pg) as ([] & pg' & E & _). exists pg'.
    rewrite E in Hp. split; [exact E|exact Hp]. }
  destruct e; cbn [handle].
  - apply Hcalm. apply calm_bind; [apply calm_on_app, quiet_updateSystem|].
    intros _. apply calm_on_app, quiet_draw.
  - apply Hcalm. calm_setting.
    apply calm_bind; [apply calm_write|]. intros _.
    apply calm_on_app, quiet_draw.
  - apply Hcalm. calm_setting.
    apply calm_bind; [apply calm_write|]. intros _.
    apply calm_on_app, quiet_draw.
  - apply Hcalm. calm_setting. apply calm_on_app, quiet_draw.
  - apply Hcalm. calm_setting. apply calm_on_app, quiet_draw.
  - apply Hcalm. calm_setting. apply calm_on_app, quiet_draw.
  - apply Hcalm. unfold updateViewRange. calm_setting.
    apply calm_on_app, quiet_draw.
  - apply Hcalm. unfold resetView. calm_setting.
    apply calm_bind; [apply calm_write|]. intros _.
    apply calm_bind; [apply calm_on_app, quiet_clearParticles|]. intros _.
    apply calm_on_app, quiet_draw.
  - apply Hcalm. apply calm_loadPreset.
  - apply Hcalm. apply calm_write.
  - apply Hcalm. apply calm_on_app, quiet_clearParticles.
  - apply Hcalm. apply calm_on_app, quiet_clearTrajectories.
  - apply Hcalm. apply calm_on_app, quiet_resetAll.
  - destruct (not_ (dxdt (vis pg)) || not_ (dydt (vis pg))) eqn:Hsys.
    + rewrite (addParticleAtClick_no_system _ _ _ pg Hsys).
      eexists. split; [reflexivity|].
      destruct Hok as [Hv Hr Hf]. constructor; fields.
      * apply (vis_ok_same (vis pg)); try reflexivity. exact Hv.
      * rewrite requested_set_host by reflexivity. exact Hr.
      * rewrite requested_set_host by reflexivity. exact Hf.
    + rewrite (addParticleAtClick_clicked _ _ _ pg Hsys).
      eexists. split; [reflexivity|].
      apply clicked_ok; [apply not_null_compiled; exact Hsys|exact Hok].
  - apply Hcalm.
    apply calm_bind; [apply calm_on_app, quiet_gets|]. intros wx.
    apply calm_bind; [apply calm_on_app, quiet_gets|]. intros wy.
    apply calm_write.
  - destruct Hok as [Hv Hr Hf].
    unfold pending_frames. fold (requested (vis pg)).
    destruct (0 <? requested (vis pg) - frames_run pg)%nat eqn:Hpend.
    + apply Nat.ltb_lt in Hpend.
      assert (Hrun : simulationRunning (vis pg) = true).
      { destruct (simulationRunning (vis pg)); [reflexivity|lia]. }
      rewrite Hrun in Hf.
      unfold on_app. fields. rewrite (simulateStep_running _ Hrun).
      eexists. split; [reflexivity|].
      destruct (tick_facts (vis pg)) as (Hq & Hs & _ & Hk).
      cbv zeta in Hq, Hs. set (again := existsb Particle.active _) in Hq, Hs.
      rewrite Hrun in Hs.
      constructor; fields; [exact (Hk Hv)| |].
      * rewrite Hq. destruct again; lia.
      * rewrite Hq, Hs. destruct again; lia.
    + eexists. split; [reflexivity|]. constructor; assumption.
  - destruct (0 <? pending_timeouts pg)%nat.
    + destruct (calm_on_app draw quiet_draw
                  (mkPage (vis pg) (painted pg) (written pg) (timers pg)
                          (Datatypes.S (timers_run pg)) (frames_run pg)))
        as ([] & pg' & E & F & Rq & S & V).
      exists pg'. split; [exact E|].
      destruct Hok as [Hv Hr Hf]. fields.
      constructor; [auto| |]; rewrite F, Rq, ?S; assumption.
    + eexists. split; [reflexivity|exact Hok].
Qed.

End PageInvariant.

Lemma opened_ok (width height : R) : page_ok (opened width height).
Proof.
  constructor.
  - apply vis_ok_no_particles. reflexivity.
  - cbn. lia.
  - reflexivity.
Qed.

Lemma after_events_ok (math : option mathjs)
    (JSON_parse : string -> completion json) (trim : string -> string)
    (JSON_stringify : json -> string) (events : list event) (pg : page) :
  page_ok pg ->
  page_ok (after_events math JSON_parse trim JSON_stringify events pg).
Proof.
  revert pg. induction events as [|e events IH]; intros pg Hok; [exact Hok|].
  cbn [after_events fold_left]. apply IH.
  destruct (handle_ok math JSON_parse trim JSON_stringify e pg Hok)
    as (pg' & E & Hok').
  rewrite E. exact Hok'.
Qed.

(** X19.  Whatever the user and the browser do after the page has been
    opened, once the handlers have run (each repaint being a call that
    returns), exactly one animation frame is pending while
    [simulationRunning] is set and none while it is not: there are never two
    simulation loops, and a frame callback never finds the flag cleared. *)
Theorem one_frame_pending_while_running
    (math : option mathjs) (JSON_parse : string -> completion json)
    (trim : string -> string) (JSON_stringify : json -> string)
    (width height : R) (events : list event) :
  let pg :=
    after_events math JSON_parse trim JSON_stringify events
      (opened width height) in
  pending_frames pg = (if simulationRunning (vis pg) then 1 else 0)%nat.
Proof.
  intros pg.
  assert (Hok : page_ok pg)
    by (apply after_events_ok, opened_ok).
  destruct Hok as [_ _ Hf]. exact Hf.
Qed.

(** X20.  Whatever the user and the browser do after the page has been
    opened, every particle of the collection is active, the last point of
    its trajectory is its position, there are particles only while both
    equations are compiled, and there are no more particles than colours
    handed out since the collection was last emptied. *)
Theorem collection_stays_in_order
    (math : option mathjs) (JSON_parse : string -> completion json)
    (trim : string -> string) (JSON_stringify : json -> string)
    (width height : R) (events : list event) :
  let this :=
    vis (after_events math JSON_parse trim JSON_stringify events
           (opened width height)) in
  Forall (fun p => Particle.active p = true
                   /\ last (Particle.trajectory p) = Some (position p))
         (particles this) /\
  (particles this <> [] -> dxdt this <> None /\ dydt this <> None) /\
  (length (particles this) <= colorIndex this)%nat.
Proof.
  intros this.
  assert (Hok : page_ok (after_events math JSON_parse trim JSON_stringify
                           events (opened width height)))
    by (apply after_events_ok, opened_ok).
  destruct Hok as [[H1 H2 H3 H4] _ _]. fold this in H1, H2, H3, H4.
  split; [|split; [exact H3|exact H4]].
  clear H3 H4. induction H1 as [|p l Hp _ IH]; [constructor|].
  inversion H2 as [|? ? Hq Hl]; subst.
  constructor; [split; [exact Hp|exact Hq]|apply IH; exact Hl].
Qed.

(** X21.  A click on the canvas while a system is loaded adds one particle,
    active, with the one-point trajectory of its spawn point, in the colour
    [particleColors[colorIndex % 8]], and the colour index goes up by one.
    On a viewport with [xMin < xMax] and [yMin < yMax] and a canvas of
    positive size the spawn point is where the user clicked: it projects
    back to the click.  While a simulation is running the particle just
    joins the collection; otherwise a simulation is started and its first
    tick has already advanced the collection, the new particle included,
    when the handler returns.  Either way the click is answered by a dot of
    radius 8 at the click, and one timeout is set for the repaint. *)
Theorem click_adds_particle
    (pg : page) (canvasX canvasY fresh : R) (f g : compiled)
    (Hf : dxdt (vis pg) = Some f) (Hg : dydt (vis pg) = Some g)
    (Hx : xMin (vis pg) < xMax (vis pg)) (Hy : yMin (vis pg) < yMax (vis pg))
    (Hw : 0 < canvasWidth (vis pg)) (Hh : 0 < canvasHeight (vis pg)) :
  exists (pg' : page) (p : Particle.t),
    addParticleAtClick canvasX canvasY fresh pg = (Ok tt, pg') /\
    worldToCanvasX (vis pg) (Particle.x p) = canvasX /\
    worldToCanvasY (vis pg) (Particle.y p) = canvasY /\
    Particle.color p
    = nth (colorIndex (vis pg) mod 8) particleColors "undefined" /\
    Particle.active p = true /\
    Particle.trajectory p = [position p] /\
    Particle.id p = fresh /\
    colorIndex (vis pg') = Datatypes.S (colorIndex (vis pg)) /\
    (simulationRunning (vis pg) = true ->
     particles (vis pg') = particles (vis pg) ++ [p]) /\
    (simulationRunning (vis pg) = false ->
     particles (vis pg')
     = List.filter Particle.active
         (map (fun q => snd (Particle.update (simulationSpeed (vis pg))
                               (fun x y => evaluateSystem (vis pg) x y) q))
              (particles (vis pg) ++ [p]))) /\
    painted pg'
    = painted pg ++ [SetFillStyle (Particle.color p); BeginPath;
                     Arc canvasX canvasY 8 0 (2 * PI); Fill] /\
    timers pg' = Datatypes.S (timers pg).
Proof.
  assert (Hsys : not_ (dxdt (vis pg)) || not_ (dydt (vis pg)) = false)
    by (rewrite Hf, Hg; reflexivity).
  exists (clicked canvasX canvasY fresh pg),
    (Particle.constructor (canvasToWorldX (vis pg) canvasX)
       (canvasToWorldY (vis pg) canvasY) (nextColor (vis pg)) fresh).
  split; [apply addParticleAtClick_clicked; exact Hsys|].
  split; [cbn; unfold worldToCanvasX, canvasToWorldX; field; lra|].
  split; [cbn; unfold worldToCanvasY, canvasToWorldY; field; lra|].
  split; [reflexivity|]. split; [reflexivity|]. split; [reflexivity|].
  split; [reflexivity|].
  unfold clicked.
  destruct (simulationRunning (vis pg)) eqn:Hrun.
  - split; [reflexivity|]. split; [reflexivity|].
    split; [discriminate|]. split; reflexivity.
  - assert (Hc : forall t, colorIndex (tick t) = colorIndex t).
    { intros t. unfold tick. destruct (existsb _ _); reflexivity. }
    assert (Hp : forall t,
               particles (tick t)
               = List.filter Particle.active
                   (map (fun q => snd (Particle.update (simulationSpeed t)
                                         (fun x y => evaluateSystem t x y) q))
                        (particles t))).
    { intros t. unfold tick. destruct (existsb _ _); reflexivity. }
    fields. rewrite Hc. split; [reflexivity|]. split; [discriminate|].
    split; [|split; reflexivity].
    intros _. rewrite Hp. reflexivity.
Qed.

Lemma click_adds_particle_witness :
  dxdt (vis (mkPage loaded [] [] 0 0 0)) = Some expr_y /\
  dydt (vis (mkPage loaded [] [] 0 0 0)) = Some expr_mu_y /\
  xMin loaded < xMax loaded /\ yMin loaded < yMax loaded /\
  0 < canvasWidth loaded /\ 0 < canvasHeight loaded /\
  exists (pg' : page) (p : Particle.t),
    addParticleAtClick 400 300 7 (mkPage loaded [] [] 0 0 0) = (Ok tt, pg') /\
    worldToCanvasX loaded (Particle.x p) = 400 /\
    particles (vis pg') = [sample_particle; p].
Proof.
  assert (Hf : dxdt (vis (mkPage loaded [] [] 0 0 0)) = Some expr_y)
    by reflexivity.
  assert (Hg : dydt (vis (mkPage loaded [] [] 0 0 0)) = Some expr_mu_y)
    by reflexivity.
  assert (Hx : xMin loaded < xMax loaded) by (cbn; lra).
  assert (Hy : yMin loaded < yMax loaded) by (cbn; lra).
  assert (Hw : 0 < canvasWidth loaded) by (cbn; lra).
  assert (Hh : 0 < canvasHeight loaded) by (cbn; lra).
  destruct (click_adds_particle (mkPage loaded [] [] 0 0 0) 400 300 7
              expr_y expr_mu_y Hf Hg Hx Hy Hw Hh)
    as (pg' & p & Hu & Hpx & _ & _ & _ & _ & _ & _ & Hrun & _).
  repeat (split; [assumption|]).
  exists pg', p. split; [exact Hu|]. split; [exact Hpx|].
  exact (Hrun eq_refl).
Defined.

(** X22.  A click on the canvas before both equations are compiled only
    raises an alert: no particle is added, no colour is used up, no
    simulation is started, nothing is painted and no timeout is set. *)
Theorem click_without_system
    (pg : page) (canvasX canvasY fresh : R)
    (Hnull : dxdt (vis pg) = None \/ dydt (vis pg) = None) :
  exists (pg' : page) (text : string),
    addParticleAtClick canvasX canvasY fresh pg = (Ok tt, pg') /\
    host (vis pg') = host (vis pg) ++ [Alert text] /\
    particles (vis pg') = particles (vis pg) /\
    colorIndex (vis pg') = colorIndex (vis pg) /\
    simulationRunning (vis pg') = simulationRunning (vis pg) /\
    painted pg' = painted pg /\ timers pg' = timers pg /\
    written pg' = written pg.
Proof.
  assert (Hsys : not_ (dxdt (vis pg)) || not_ (dydt (vis pg)) = true).
  { destruct Hnull as [H|H]; rewrite H; [reflexivity|].
    destruct (dxdt (vis pg)); reflexivity. }
  eexists. eexists.
  split; [apply addParticleAtClick_no_system; exact Hsys|].
  repeat split.
Qed.

Lemma click_without_system_witness :
  (dxdt (vis (opened 800 600)) = None \/ dydt (vis (opened 800 600)) = None) /\
  exists pg' : page,
    addParticleAtClick 400 300 7 (opened 800 600) = (Ok tt, pg') /\
    particles (vis pg') = [].
Proof.
  assert (Hnull : dxdt (vis (opened 800 600)) = None
                  \/ dydt (vis (opened 800 600)) = None)
    by (left; reflexivity).
  destruct (click_without_system (opened 800 600) 400 300 7 Hnull)
    as (pg' & text & Hu & _ & Hp & _).
  split; [exact Hnull|]. exists pg'. split; [exact Hu|exact Hp].
Defined.

Lemma active_after_update_inside (this : visualizer) (p : Particle.t) :
  let p' := snd (Particle.update (simulationSpeed this)
                   (fun x y => evaluateSystem this x y) p) in
  Particle.active p' = true -> ~ outside (position p').
Proof.
  intros p' Ha. subst p'.
  rewrite (update_ext _ _ (total (vectorField this)) p) in *
    by (intros x y; apply evaluateSystem_vectorField).
  destruct (particle_deactivation_aux (simulationSpeed this)
              (vectorField this) p) as [Hout _].
  cbv zeta in Hout.
  intros Ho. rewrite (Hout Ho) in Ha. discriminate.
Qed.

(** X23.  After a tick no particle left in the collection is beyond a
    bound, wherever the particles were before: every survivor is active,
    and none of the four comparisons of the bounds test, [x < -10],
    [x > 10], [y < -10], [y > 10], holds of its position.  A particle whose
    position is beyond a bound never survives a tick. *)
Theorem survivors_pass_bounds_test
    (this : visualizer) (Hrunning : simulationRunning this = true) :
  exists this' : visualizer,
    simulateStep this = (Ok tt, this') /\
    Forall (fun p => Particle.active p = true
                     /\ ~ (Particle.x p < -10 \/ Particle.x p > 10
                           \/ Particle.y p < -10 \/ Particle.y p > 10))
           (particles this').
Proof.
  exists (tick this). split; [apply simulateStep_running; exact Hrunning|].
  assert (Hp : particles (tick this)
               = List.filter Particle.active
                   (map (fun q => snd (Particle.update (simulationSpeed this)
                                         (fun x y => evaluateSystem this x y) q))
                        (particles this)))
    by (unfold tick; destruct (existsb _ _); reflexivity).
  rewrite Hp. clear Hp.
  induction (particles this) as [|p l IH]; cbn [map List.filter];
    [constructor|].
  destruct (Particle.active (snd (Particle.update _ _ p))) eqn:Ha; [|exact IH].
  constructor; [|exact IH].
  split; [exact Ha|]. intros Hbeyond.
  apply (active_after_update_inside this p Ha).
  apply out_of_bounds_outside. unfold position. cbn [ptx pty].
  destruct Hbeyond as [H|[H|[H|H]]];
    rewrite ?orb_true_iff, ?bool_decide_eq_true; tauto.
Qed.

Lemma survivors_pass_bounds_test_witness :
  simulationRunning loaded = true /\
  exists this' : visualizer,
    simulateStep loaded = (Ok tt, this') /\
    Forall (fun p => Particle.active p = true
                     /\ ~ (Particle.x p < -10 \/ Particle.x p > 10
                           \/ Particle.y p < -10 \/ Particle.y p > 10))
           (particles this').
Proof.
  assert (Hr : simulationRunning loaded = true) by reflexivity.
  split; [exact Hr|]. exact (survivors_pass_bounds_test loaded Hr).
Defined.

(** X24.  Emptying the collection does not stop a running simulation at
    once: the flag stays set and the requested frame stays pending.  The
    callback of that frame finds no particle, requests no further frame
    and clears the flag. *)
Theorem clearing_stops_at_next_frame
    (math : option mathjs) (JSON_parse : string -> completion json)
    (trim : string -> string) (JSON_stringify : json -> string)
    (pg : page)
    (Hrunning : simulationRunning (vis pg) = true)
    (Hpending : pending_frames pg = 1%nat) :
  let cleared :=
    after_events math JSON_parse trim JSON_stringify [ClickClearParticles] pg in
  let stopped :=
    after_events math JSON_parse trim JSON_stringify
      [ClickClearParticles; AnimationFrame] pg in
  particles (vis cleared) = [] /\
  simulationRunning (vis cleared) = true /\ pending_frames cleared = 1%nat /\
  particles (vis stopped) = [] /\
  simulationRunning (vis stopped) = false /\ pending_frames stopped = 0%nat /\
  host (vis stopped)
  = host (vis pg) ++ [SetParticleCount 0; Draw; SetParticleCount 0; Draw].
Proof.
  intros cleared stopped.
  assert (Hc : cleared
               = mkPage (set_host (host (vis pg) ++ [SetParticleCount 0; Draw])
                           (set_colorIndex 0 (set_particles [] (vis pg))))
                   (painted pg) (written pg) (timers pg) (timers_run pg)
                   (frames_run pg)).
  { subst cleared. cbn. rewrite <- app_assoc. reflexivity. }
  assert (Hpc : pending_frames cleared = 1%nat).
  { rewrite Hc. unfold pending_frames in *. fields.
    rewrite requested_app. cbn. fold (requested (vis pg)) in Hpending.
    unfold requested in *. lia. }
  assert (Hs : stopped
               = snd (handle math JSON_parse trim JSON_stringify
                        AnimationFrame cleared)) by reflexivity.
  split; [rewrite Hc; reflexivity|]. split; [rewrite Hc; exact Hrunning|].
  split; [exact Hpc|].
  rewrite Hs. cbn [handle]. rewrite Hpc. cbn [Nat.ltb Nat.leb].
  unfold on_app. rewrite Hc. fields.
  rewrite simulateStep_running by exact Hrunning.
  unfold tick. fields. cbn [map List.filter existsb length snd].
  fields. split; [reflexivity|]. split; [reflexivity|].
  split; [|rewrite <- !app_assoc; reflexivity].
  rewrite Hc in Hpc. unfold pending_frames in *. fields.
  rewrite <- app_assoc, requested_app. rewrite requested_app in Hpc.
  cbn in *. lia.
Qed.

Lemma clearing_stops_at_next_frame_witness :
  simulationRunning (vis running_page) = true /\
  pending_frames running_page = 1%nat /\
  simulationRunning
    (vis (after_events (Some sample_math) sample_JSON_parse sample_trim
            (fun _ => "{}") [ClickClearParticles; AnimationFrame]
            running_page)) = false.
Proof.
  assert (Hr : simulationRunning (vis running_page) = true) by reflexivity.
  assert (Hp : pending_frames running_page = 1%nat) by reflexivity.
  split; [exact Hr|]. split; [exact Hp|].
  exact (proj1 (proj2 (proj2 (proj2 (proj2
           (clearing_stops_at_next_frame (Some sample_math) sample_JSON_parse
              sample_trim (fun _ => "{}") running_page Hr Hp)))))).
Defined.

(** ** Degenerate views and presets *)

(** A loop over a real counter with step zero, entered below its limit,
    does not end where adding zero leaves the counter as it is. *)
Lemma for_real_stuck {S} (add : R -> R -> R) (body : R -> M S unit)
    (v limit : R) (fuel : nat) (s : S) :
  v <= limit -> add v 0 = v ->
  (forall s0, fst (body v s0) = Ok tt) ->
  fst (for_real add fuel v limit 0 body s) = OutOfFuel.
Proof.
  intros Hv Hzero Hbody. revert s. induction fuel as [|fuel IH]; intros s;
    [reflexivity|].
  cbn [for_real]. rewrite bool_decide_eq_true_2 by exact Hv.
  unfold bind. specialize (Hbody s). destruct (body v s) as [r s1].
  cbn in Hbody. subst r.
  rewrite Hzero. apply IH.
Qed.

(** The first loop of [drawGrid] on a view of width zero. *)
Lemma drawGrid_stuck
    (add : R -> R -> R) (this : visualizer) (fuel : nat) (c : list canvas_op)
    (Hshow : showGrid this = true) (Hflat : xMin this = xMax this)
    (Hzero : add (xMin this) 0 = xMin this) :
  fst (drawGrid add fuel this c) = OutOfFuel.
Proof.
  unfold drawGrid. rewrite Hshow. cbn [negb].
  unfold bind at 1. unfold ctx_call at 1. unfold modify at 1.
  unfold bind at 1. unfold ctx_call at 1. unfold modify at 1.
  unfold bind at 1.
  replace ((xMax this - xMin this) / 10) with 0 by (rewrite Hflat; lra).
  match goal with
  | |- context [for_real add fuel ?v ?l 0 ?b ?s] =>
      pose proof (for_real_stuck add b v l fuel s) as Hstuck
  end.
  destruct (for_real add fuel _ _ 0 _ _) as [r s1]. cbn [fst] in Hstuck.
  rewrite Hstuck; [reflexivity|lra|exact Hzero|].
  intros s0. rewrite strokeLine_spec. reflexivity.
Qed.

(** X25.  When the view has [xMin = xMax] and the grid is shown, [drawGrid]
    does not return: the step of its first loop is zero, and adding zero
    leaves the counter where it is, so no amount of fuel lets the loop
    finish. *)
Theorem drawGrid_hangs_on_flat_view
    (add : R -> R -> R) (this : visualizer) (fuel : nat) (c : list canvas_op)
    (Hshow : showGrid this = true) (Hflat : xMin this = xMax this)
    (Hzero : add (xMin this) 0 = xMin this) :
  fst (drawGrid add fuel this c) = OutOfFuel.
Proof. exact (drawGrid_stuck add this fuel c Hshow Hflat Hzero). Qed.

Lemma drawGrid_hangs_on_flat_view_witness :
  showGrid (set_view 0 0 (-5) 5 uniform) = true /\
  xMin (set_view 0 0 (-5) 5 uniform) = xMax (set_view 0 0 (-5) 5 uniform) /\
  xMin (set_view 0 0 (-5) 5 uniform) + 0 = xMin (set_view 0 0 (-5) 5 uniform) /\
  fst (drawGrid Rplus 1000 (set_view 0 0 (-5) 5 uniform) []) = OutOfFuel.
Proof.
  assert (Hs : showGrid (set_view 0 0 (-5) 5 uniform) = true) by reflexivity.
  assert (Hf : xMin (set_view 0 0 (-5) 5 uniform)
               = xMax (set_view 0 0 (-5) 5 uniform)) by reflexivity.
  assert (Hz : xMin (set_view 0 0 (-5) 5 uniform) + 0
               = xMin (set_view 0 0 (-5) 5 uniform)) by (cbn; lra).
  split; [exact Hs|]. split; [exact Hf|]. split; [exact Hz|].
  exact (drawGrid_hangs_on_flat_view Rplus _ 1000 [] Hs Hf Hz).
Defined.

(** X26.  When the view has [yMin = yMax] and the chosen component is not
    near zero at the bottom of the first column, [drawNullcline] does not
    return either: the step is zero, adding zero leaves the counter where it
    is, and the scan of that column repeats the same point for ever. *)
Theorem drawNullcline_hangs_on_flat_view
    (add : R -> R -> R) (this : visualizer) (isDxDt : bool) (fuel : nat)
    (s : path_state)
    (Hflat : yMin this = yMax this)
    (Hzero : add (yMin this) 0 = yMin this)
    (Hmiss : nearZero this isDxDt (xMin this) (yMin this) = false) :
  fst (drawNullcline add fuel this isDxDt s) = OutOfFuel.
Proof.
  unfold drawNullcline, path_call, set_pathStarted, for_upto.
  unfold bind at 1. unfold modify at 1.
  unfold bind at 1. unfold modify at 1.
  unfold bind at 1. cbn [for_from]. unfold bind at 1.
  replace (xMin this + INR 0 * ((xMax this - xMin this) / INR 200))
    with (xMin this) by (cbn [INR]; lra).
  rewrite (scanColumn_degenerate add this isDxDt (xMin this) fuel _
             Hflat Hzero Hmiss).
  reflexivity.
Qed.

Lemma drawNullcline_hangs_on_flat_view_witness :
  yMin flat_view = yMax flat_view /\
  yMin flat_view + 0 = yMin flat_view /\
  nearZero flat_view true (xMin flat_view) (yMin flat_view) = false /\
  fst (drawNullcline Rplus 1000 flat_view true
         {| pathStarted := false; ctx := [] |})
  = OutOfFuel.
Proof.
  assert (Hf : yMin flat_view = yMax flat_view) by reflexivity.
  assert (Hz : yMin flat_view + 0 = yMin flat_view) by (cbn; lra).
  assert (Hm : nearZero flat_view true (xMin flat_view) (yMin flat_view)
               = false).
  { unfold nearZero. cbn. apply bool_decide_eq_false.
    rewrite Rabs_R1. lra. }
  split; [exact Hf|]. split; [exact Hz|]. split; [exact Hm|].
  exact (drawNullcline_hangs_on_flat_view Rplus flat_view true 1000 _
           Hf Hz Hm).
Defined.

(** X27.  Choosing a preset fills the three input fields with the preset's
    texts and runs an update on them, so that, when math.js compiles the two
    equations and [JSON.parse] reads back what [JSON.stringify] wrote, the
    preset's parameters and equations are installed and the collection is
    emptied.  The empty choice leaves the page exactly as it is. *)
Theorem loadPreset_installs
    (math_ : mathjs) (JSON_parse : string -> completion json)
    (trim : string -> string) (JSON_stringify : json -> string)
    (preset : string) (pg : page) :
  (forall dxdtText dydtText presetParameters f g,
     truthy preset = true ->
     presets preset = Some (dxdtText, dydtText, presetParameters) ->
     truthy (trim (JSON_stringify presetParameters)) = true ->
     JSON_parse (JSON_stringify presetParameters) = Returns presetParameters ->
     compileEquation math_ dxdtText = Returns f ->
     compileEquation math_ dydtText = Returns g ->
     exists pg',
       loadPreset (Some math_) JSON_parse trim JSON_stringify preset pg
       = (Ok tt, pg') /\
       dxdt (vis pg') = Some f /\ dydt (vis pg') = Some g /\
       parameters (vis pg') = presetParameters /\
       particles (vis pg') = [] /\
       written pg'
       = written pg ++ [WriteEquationInputs dxdtText dydtText
                          (JSON_stringify presetParameters)]) /\
  (truthy preset = false ->
   loadPreset (Some math_) JSON_parse trim JSON_stringify preset pg
   = (Ok tt, pg)).
Proof.
  split.
  - intros dxT dyT pr f g Hname Hpreset Ht Hround Hf Hg.
    assert (Hobj : exists m, pr = JObj m).
    { unfold presets in Hpreset.
      repeat match type of Hpreset with
             | (if ?b then _ else _) = _ => destruct b
             end; try discriminate; injection Hpreset as _ _ <-;
        eexists; reflexivity. }
    destruct Hobj as [m ->].
    unfold loadPreset. rewrite Hname, Hpreset. cbn [negb].
    unfold write, on_app, draw. unfold_js. cbn [vis painted written timers
      timers_run frames_run].
    rewrite updateSystem_stage.
    unfold update_stage_of, parseParameters. rewrite Ht, Hround, Hf, Hg.
    cbn. eexists. split; [reflexivity|]. repeat split.
  - intros Hname. unfold loadPreset. rewrite Hname. reflexivity.
Qed.

Lemma loadPreset_installs_witness :
  exists pg' : page,
    loadPreset (Some preset_math) wider_JSON_parse sample_trim
      preset_JSON_stringify "van-der-pol" (opened 800 600) = (Ok tt, pg') /\
    dxdt (vis pg') = Some expr_y /\
    dydt (vis pg') = Some expr_van_der_pol /\
    parameters (vis pg') = JObj {[ "mu" := JNum 1 ]}.
Proof.
  assert (Hc : truthy "van-der-pol" = true) by reflexivity.
  assert (Hp : presets "van-der-pol"
               = Some ("y", "mu * (1 - x^2) * y - x",
                       JObj {[ "mu" := JNum 1 ]})) by reflexivity.
  assert (Ht : truthy (sample_trim
                         (preset_JSON_stringify (JObj {[ "mu" := JNum 1 ]})))
               = true) by reflexivity.
  assert (Hj : wider_JSON_parse
                 (preset_JSON_stringify (JObj {[ "mu" := JNum 1 ]}))
               = Returns (JObj {[ "mu" := JNum 1 ]})) by reflexivity.
  assert (Hf : compileEquation preset_math "y" = Returns expr_y)
    by reflexivity.
  assert (Hg : compileEquation preset_math "mu * (1 - x^2) * y - x"
               = Returns expr_van_der_pol) by reflexivity.
  destruct (proj1 (loadPreset_installs preset_math wider_JSON_parse sample_trim
                     preset_JSON_stringify "van-der-pol" (opened 800 600))
              "y" "mu * (1 - x^2) * y - x" (JObj {[ "mu" := JNum 1 ]})
              expr_y expr_van_der_pol Hc Hp Ht Hj Hf Hg)
    as (pg' & E & Hdx & Hdy & Hpar & _).
  exists pg'. split; [exact E|]. split; [exact Hdx|].
  split; [exact Hdy|exact Hpar].
Defined.

(** ** The repaint *)

Lemma flat_map_singleton {A B} (h : A -> B) (l : list A) :
  flat_map (fun a => [h a]) l = map h l.
Proof. induction l as [|a l IH]; [reflexivity|]. cbn. rewrite IH. reflexivity. Qed.







(** X29.  Setting the view to a range with [xMin = xMax] while the grid is
    shown freezes the page: the handler stores the range and asks for a
    repaint, and the repaint of that state does not return, whatever the
    fuel (the step of the grid's first loop is zero, and adding zero leaves
    the counter where it is). *)
Theorem flat_view_freezes_repaint
    (add : R -> R -> R)
    (math : option mathjs) (JSON_parse : string -> completion json)
    (trim : string -> string) (JSON_stringify : json -> string)
    (pg : page) (x y_min y_max : R) (fuel : nat) (scene : list scene_op)
    (Hshow : showGrid (vis pg) = true)
    (Hzero : add x 0 = x) :
  let pg' :=
    after_events math JSON_parse trim JSON_stringify
      [ChangeViewRange x x y_min y_max] pg in
  xMin (vis pg') = x /\ xMax (vis pg') = x /\
  host (vis pg') = host (vis pg) ++ [Draw] /\
  fst (Scene.draw add fuel (vis pg') scene) = OutOfFuel.
Proof.
  intros pg'.
  assert (Hvis : vis pg'
                 = set_host (host (vis pg) ++ [Draw])
                     (set_view x x y_min y_max (vis pg))) by reflexivity.
  rewrite Hvis. split; [reflexivity|]. split; [reflexivity|].
  split; [reflexivity|].
  set (this := set_host _ _).
  assert (Hs : showGrid this = true) by exact Hshow.
  assert (Hflat : xMin this = xMax this) by reflexivity.
  assert (Hz : add (xMin this) 0 = xMin this) by exact Hzero.
  unfold Scene.draw.
  unfold bind at 1. unfold scene_call at 1. unfold modify at 1.
  unfold bind at 1. unfold on_ctx at 1.
  pose proof (drawGrid_stuck add this fuel [] Hs Hflat Hz) as Hstuck.
  destruct (drawGrid add fuel this []) as [r c]. cbn [fst] in Hstuck.
  rewrite Hstuck. reflexivity.
Qed.

Lemma flat_view_freezes_repaint_witness :
  showGrid (vis (opened 800 600)) = true /\
  0 + 0 = 0 /\
  fst (Scene.draw Rplus 1000
         (vis (after_events (Some sample_math) sample_JSON_parse sample_trim
                 (fun _ => "{}") [ChangeViewRange 0 0 (-5) 5] (opened 800 600)))
         [])
  = OutOfFuel.
Proof.
  assert (Hs : showGrid (vis (opened 800 600)) = true) by reflexivity.
  assert (Hz : 0 + 0 = 0) by lra.
  split; [exact Hs|]. split; [exact Hz|].
  exact (proj2 (proj2 (proj2
           (flat_view_freezes_repaint Rplus (Some sample_math)
              sample_JSON_parse sample_trim (fun _ => "{}") (opened 800 600)
              0 (-5) 5 1000 [] Hs Hz)))).
Defined.

Lemma fold_left_map {A B S} (g : S -> B -> S) (h : A -> B) (l : list A)
    (s : S) :
  fold_left g (map h l) s = fold_left (fun s0 a => g s0 (h a)) l s.
Proof.
  revert s. induction l as [|a l IH]; intros s; [reflexivity|]. apply IH.
Qed.

(** Where the evaluation throws at every point, the field vanishes. *)
Lemma vectorField_throws (this : visualizer) (f g : compiled) (x y : R) :
  dxdt this = Some f -> dydt this = Some g ->
  (exists e, evaluate f (make_scope x y (parameters this)) = Throws e)
  \/ (exists e, evaluate g (make_scope x y (parameters this)) = Throws e) ->
  vectorField this x y = zero.
Proof.
  intros Hf Hg Hthrow. unfold vectorField. rewrite Hf, Hg.
  destruct Hthrow as [[e He]|[e He]]; rewrite He; [reflexivity|].
  destruct (evaluate f _); reflexivity.
Qed.

(** X30.  A system whose evaluation throws at every point (an equation using
    a parameter that is not defined, say) is displayed like this: the field
    has no arrow, and each nullcline, for [dx/dt] and for [dy/dt] alike, is
    the bottom edge of the canvas, drawn from left to right through all 201
    columns. *)
Theorem failing_system_display
    (add : R -> R -> R) (this : visualizer) (f g : compiled)
    (Hf : dxdt this = Some f) (Hg : dydt this = Some g)
    (Hthrow : forall x y : R,
        (exists e, evaluate f (make_scope x y (parameters this)) = Throws e)
        \/ (exists e, evaluate g (make_scope x y (parameters this)) = Throws e))
    (Hx : xMin this < xMax this) (Hy : yMin this < yMax this) :
  let W := canvasWidth this in
  let H := canvasHeight this in
  (forall c : list canvas_op,
     drawFlowField this c
     = (Ok tt, c ++ [SetStrokeStyle (arrowColor this); SetLineWidth 1.5])) /\
  (forall (isDxDt : bool) (n : nat),
     (0 < n)%nat -> nullclinePoints add n this isDxDt = bottomEdge this) /\
  (forall (isDxDt : bool) (fuel : nat) (s : path_state),
     (102 <= fuel)%nat ->
     drawNullcline add fuel this isDxDt s
     = (Ok tt,
        {| pathStarted := true;
           ctx := ctx s ++ [BeginPath; MoveTo 0 H]
                        ++ map (fun i => LineTo (INR i * W / 200) H) (seq 1 200)
                        ++ [Stroke] |})).
Proof.
  intros W H.
  assert (Hzero : forall x y, vectorField this x y = zero)
    by (intros x y; exact (vectorField_throws this f g x y Hf Hg (Hthrow x y))).
  assert (Hnear : forall isDxDt x y, nearZero this isDxDt x y = true).
  { intros isDxDt x y. apply nearZero_true. exists zero. split.
    - rewrite evaluateSystem_vectorField, Hzero. reflexivity.
    - destruct isDxDt; cbn; rewrite Rabs_R0; lra. }
  assert (Hpts : forall isDxDt n, (0 < n)%nat ->
                   nullclinePoints add n this isDxDt = bottomEdge this).
  { intros isDxDt n Hn. unfold nullclinePoints, bottomEdge.
    rewrite <- flat_map_singleton. apply flat_map_ext. intros i.
    unfold columnPoints, scanValues.
    destruct n as [|n]; [lia|]. cbn [counterValues List.find].
    rewrite Hnear. reflexivity. }
  split; [|split; [exact Hpts|]].
  - intros c. rewrite drawFlowField_spec, flat_map_nil; [reflexivity|].
    intros q. unfold arrowAt. rewrite Hzero.
    destruct (decide (magnitude zero = 0)) as [_|Hnz]; [reflexivity|].
    exfalso. apply Hnz. apply magnitude_zero_iff. split; reflexivity.
  - intros isDxDt fuel s Hfuel.
    destruct fuel as [|fuel]; [lia|].
    unfold drawNullcline, path_call, set_pathStarted, for_upto.
    unfold bind at 1. unfold modify at 1.
    unfold bind at 1. unfold modify at 1.
    cbn [pathStarted ctx].
    unfold bind at 1.
    rewrite (for_from_fold _
               (fun i s0 =>
                  plot this s0 {| ptx := columnX this i; pty := yMin this |})).
    + rewrite <- (fold_left_map (plot this)
                    (fun i => {| ptx := columnX this i; pty := yMin this |})).
      change (seq 0 201) with (0%nat :: seq 1 200).
      cbn [map]. rewrite plot_all. unfold modify. cbn [pathStarted ctx polyline].
      cbn [ptx pty]. rewrite map_map.
      assert (HY : worldToCanvasY this (yMin this) = H)
        by (unfold worldToCanvasY, H; field; lra).
      assert (HX : forall i, worldToCanvasX this (columnX this i)
                             = INR i * W / 200)
        by (intros i; unfold worldToCanvasX, columnX, W; field; lra).
      rewrite HY, HX. cbn [INR].
      replace (0 * W / 200) with 0 by lra.
      f_equal. f_equal. rewrite <- !app_assoc. cbn [app]. do 3 f_equal.
      f_equal. apply map_ext. intros i. unfold lineTo. cbn [ptx pty].
      rewrite HY, HX. reflexivity.
    + intros i s0. rewrite INR_200. fold (columnX this i).
      apply scanColumn_first_hit; [apply Hnear|lra].
Qed.

Lemma failing_system_display_witness :
  dxdt unbound = Some expr_y /\ dydt unbound = Some expr_mu_y /\
  xMin unbound < xMax unbound /\ yMin unbound < yMax unbound /\
  drawFlowField unbound []
  = (Ok tt, [SetStrokeStyle (arrowColor unbound); SetLineWidth 1.5]) /\
  nullclinePoints Rplus 101 unbound false = bottomEdge unbound.
Proof.
  assert (Hf : dxdt unbound = Some expr_y) by reflexivity.
  assert (Hg : dydt unbound = Some expr_mu_y) by reflexivity.
  assert (Hx : xMin unbound < xMax unbound) by (cbn; lra).
  assert (Hy : yMin unbound < yMax unbound) by (cbn; lra).
  assert (Hthrow : forall x y : R,
    (exists e, evaluate expr_y (make_scope x y (parameters unbound)) = Throws e)
    \/ (exists e, evaluate expr_mu_y (make_scope x y (parameters unbound))
                  = Throws e)).
  { intros x y. right. exists (Error "Undefined symbol mu").
    unfold expr_mu_y, symbol, make_scope. cbn [evaluate].
    change (parameters unbound) with (JObj ∅). cbn [own_props].
    rewrite lookup_union, lookup_empty.
    rewrite (lookup_insert_ne _ "x" "mu") by discriminate.
    rewrite (lookup_insert_ne _ "y" "mu") by discriminate.
    rewrite lookup_empty. reflexivity. }
  destruct (failing_system_display Rplus unbound expr_y expr_mu_y
              Hf Hg Hthrow Hx Hy)
    as (Hfield & Hpts & _).
  split; [exact Hf|]. split; [exact Hg|]. split; [exact Hx|].
  split; [exact Hy|]. split; [exact (Hfield [])|].
  apply (Hpts false 101%nat). lia.
Defined.
